(** * Nimly Touch Pro integration: the attribute synchronisation model

    A shallow embedding of the entity classes of
    [custom_components/nimly_pro] (lock, select, number, sensor and
    binary_sensor platforms) and the properties of their polling, push
    and command paths. *)

From Stdlib Require Import ZArith QArith Bool List Ascii String DecimalString.
From stdpp Require Import base gmap strings fin_maps.
Import ListNotations.

Open Scope string_scope.
Open Scope Z_scope.

(** ** Python values and the primitives the entities use *)

Module Py.

(** Raw attribute values as the cluster hands them over: [None], an
    integer (zigpy's integer types subclass [int]) or a character
    string. *)
Inductive pyval : Type :=
| PyNone
| PyInt (z : Z)
| PyStr (s : string).

(** The exceptions that occur in the modelled code.  [ZigbeeException]
    is the communication fault of the remote layer; the others are
    raised by Python's own operations. *)
Inductive exn : Type :=
| ZigbeeException
| ValueError
| TypeError
| IndexError
| OverflowError.

Inductive res (A : Type) : Type :=
| Ok (a : A)
| Raise (e : exn).
Arguments Ok {A} a.
Arguments Raise {A} e.

(** [f"{n}"] for an integer [n]: its decimal numeral. *)
Definition format_int (n : Z) : string :=
  NilZero.string_of_int (Z.to_int n).

(** [str(v)]. *)
Definition str (v : pyval) : string :=
  match v with
  | PyNone => "None"
  | PyInt z => format_int z
  | PyStr s => s
  end.

(** [isinstance(v, int)]. *)
Definition isinstance_int (v : pyval) : bool :=
  match v with
  | PyInt _ => true
  | _ => false
  end.

(** [v == n] for an integer literal [n]; values of other types compare
    unequal. *)
Definition eq_int (v : pyval) (n : Z) : bool :=
  match v with
  | PyInt z => z =? n
  | _ => false
  end.

(** [v is not None]. *)
Definition is_not_None (v : pyval) : bool :=
  match v with
  | PyNone => false
  | _ => true
  end.

(** [lo <= v < hi] with integer bounds: ordering an integer against
    [None] or a string raises [TypeError]. *)
Definition between (lo : Z) (v : pyval) (hi : Z) : res bool :=
  match v with
  | PyInt z => Ok ((lo <=? z) && (z <? hi))
  | _ => Raise TypeError
  end.

(** Value of one hexadecimal digit. *)
Definition hex_digit (c : ascii) : option Z :=
  let n := Z.of_nat (nat_of_ascii c) in
  if (48 <=? n) && (n <=? 57) then Some (n - 48)
  else if (97 <=? n) && (n <=? 102) then Some (n - 87)
  else if (65 <=? n) && (n <=? 70) then Some (n - 55)
  else None.

Fixpoint hex_digits (acc : Z) (s : string) : option Z :=
  match s with
  | EmptyString => Some acc
  | String c s' =>
      match hex_digit c with
      | Some d => hex_digits (16 * acc + d) s'
      | None => None
      end
  end.

(** [int(s, 16)] on the literals the integration passes: an optional
    [0x] prefix followed by at least one hexadecimal digit; anything
    else is a [ValueError]. *)
Definition int16 (s : string) : res Z :=
  let body :=
    match s with
    | String "0" (String "x" r) => r
    | String "0" (String "X" r) => r
    | _ => s
    end in
  match body with
  | EmptyString => Raise ValueError
  | _ => match hex_digits 0 body with
         | Some z => Ok z
         | None => Raise ValueError
         end
  end.

(** [l.index(x)]: position of the first element equal to [x], or
    [ValueError]. *)
Fixpoint index (l : list string) (x : string) : res Z :=
  match l with
  | [] => Raise ValueError
  | y :: l' =>
      if String.eqb y x then Ok 0
      else match index l' x with
           | Ok i => Ok (i + 1)
           | Raise e => Raise e
           end
  end.

(** [l[i]] for an integer [i]: negative indices count from the end,
    an index outside [-len, len) is an [IndexError]. *)
Definition getitem (l : list string) (i : Z) : res string :=
  let n := Z.of_nat (length l) in
  let j := if i <? 0 then i + n else i in
  if (0 <=? j) && (j <? n)
  then match nth_error l (Z.to_nat j) with
       | Some x => Ok x
       | None => Raise IndexError
       end
  else Raise IndexError.

(** A Python [float]: a finite number (a rational), a NaN, or one of
    the two infinities. *)
Inductive pyfloat : Type :=
| Finite (x : Q)
| NaN
| Infinity (negative : bool).

(** The integer part of a rational: rounding towards zero. *)
Definition truncate (x : Q) : Z :=
  Z.quot (Qnum x) (Z.pos (Qden x)).

(** [int(x)] for a float [x]: truncation towards zero; [ValueError]
    for a NaN, [OverflowError] for an infinity. *)
Definition int_of_float (x : pyfloat) : res Z :=
  match x with
  | Finite q => Ok (truncate q)
  | NaN => Raise ValueError
  | Infinity _ => Raise OverflowError
  end.

End Py.
Export Py.

(** ** The host runtime and the remote cluster *)

Module Host.

(** Requests an entity sends to the door-lock cluster. *)
Inductive request : Type :=
| ReadAttributes (ids : list string)
| WriteAttributes (attrs : gmap Z pyval)
| LockDoor
| UnlockDoor.

(** Outcome of a remote operation: it returns, or the remote layer
    raises [ZigbeeException]. *)
Inductive reply (A : Type) : Type :=
| Done (a : A)
| Fault.
Arguments Done {A} a.
Arguments Fault {A}.

(** The collaborators an entity is constructed with.  Each cluster
    method answers as a function of the requests issued before it;
    [read_attributes] yields the success mapping [result[0]], which
    the entities look up under their attribute constants.
    [now_isoformat k] is the [k]-th reading of
    [dt_util.now().isoformat()]. *)
Record Remote : Type := {
  read_attributes : list request -> list string -> reply (gmap string pyval);
  write_attributes : list request -> gmap Z pyval -> reply unit;
  lock_door : list request -> reply unit;
  unlock_door : list request -> reply unit;
  now_isoformat : nat -> string
}.

(** What a method of an entity of type [E] acts on: the entity itself,
    the requests sent so far (oldest first), the snapshots handed to
    the host by [async_write_ha_state], and the number of clock
    readings taken. *)
Record world (E : Type) : Type := World {
  self : E;
  sent : list request;
  published : list E;
  ticks : nat
}.
Arguments World {E} _ _ _ _.
Arguments self {E} _.
Arguments sent {E} _.
Arguments published {E} _.
Arguments ticks {E} _.

(** Methods: state passing with exceptions; the world survives a
    raised exception. *)
Definition M (E A : Type) : Type := world E -> res A * world E.

Definition ret {E A} (a : A) : M E A := fun w => (Ok a, w).

Definition bind {E A B} (m : M E A) (k : A -> M E B) : M E B :=
  fun w =>
    match m w with
    | (Ok a, w') => k a w'
    | (Raise e, w') => (Raise e, w')
    end.

Definition lift {E A} (r : res A) : M E A := fun w => (r, w).

Definition get {E} : M E E := fun w => (Ok (self w), w).

Definition modify {E} (f : E -> E) : M E unit :=
  fun w => (Ok tt, World (f (self w)) (sent w) (published w) (ticks w)).

(** [self.async_write_ha_state()]: the host takes the entity as it is
    now. *)
Definition async_write_ha_state {E} : M E unit :=
  fun w => (Ok tt, World (self w) (sent w) (published w ++ [self w]) (ticks w)).

(** [dt_util.now().isoformat()]. *)
Definition now (rem : Remote) {E} : M E string :=
  fun w => (Ok (now_isoformat rem (ticks w)),
            World (self w) (sent w) (published w) (S (ticks w))).

(** An awaited cluster call: the request is recorded, and a fault of
    the remote layer surfaces as [ZigbeeException]. *)
Definition await {E A} (req : request) (answer : list request -> reply A) : M E A :=
  fun w =>
    let w' := World (self w) (sent w ++ [req]) (published w) (ticks w) in
    match answer (sent w) with
    | Done a => (Ok a, w')
    | Fault => (Raise ZigbeeException, w')
    end.

Definition await_read (rem : Remote) {E} (ids : list string) : M E (gmap string pyval) :=
  await (ReadAttributes ids) (fun h => read_attributes rem h ids).

Definition await_write (rem : Remote) {E} (attrs : gmap Z pyval) : M E unit :=
  await (WriteAttributes attrs) (fun h => write_attributes rem h attrs).

(** [try: body except ZigbeeException: handler]; any other exception
    propagates. *)
Definition try_except {E} (body handler : M E unit) : M E unit :=
  fun w =>
    match body w with
    | (Raise ZigbeeException, w') => handler w'
    | r => r
    end.

(** [_LOGGER.debug(...)] and [_LOGGER.error(...)] have no effect on
    the entity. *)
Definition log {E} : M E unit := ret tt.

(** An [if] without [else]. *)
Definition when {E} (b : bool) (m : M E unit) : M E unit :=
  if b then m else ret tt.

End Host.
Export Host.

(** Methods are written with stdpp's notation for monads:
    [x ← m; k] and [m;; k]. *)
Global Instance M_ret {E} : MRet (M E) := fun A => @ret E A.
Global Instance M_bind {E} : MBind (M E) := fun A B k m => @bind E A B m k.

(** ** Registration with the host *)

Module Lifecycle.

(** What an entity hands to [async_on_remove] when it is added: its
    listener on the endpoint, or a timer that calls [_async_update]
    at a fixed interval in seconds. *)
Inductive registration : Type :=
| Listener
| Interval (seconds : Z).

(** An entity in the host: its world and the registrations it has
    made, oldest first. *)
Record hosted (E : Type) : Type := Hosted {
  running : world E;
  registered : list registration
}.
Arguments Hosted {E} _ _.
Arguments running {E} _.
Arguments registered {E} _.

(** [self.async_on_remove(...)]. *)
Definition async_on_remove {E} (r : registration) (h : hosted E) : hosted E :=
  Hosted (running h) (registered h ++ [r]).

(** [async_added_to_hass] as the polling entities have it: register
    the listener (the firmware sensor has none), fetch once, register
    the timer.  An exception of the fetch ends the method there. *)
Definition added_to_hass {E} (listens : bool) (fetch : M E unit)
  (interval : Z) (h : hosted E) : res unit * hosted E :=
  let h1 := if listens then async_on_remove Listener h else h in
  match fetch (running h1) with
  | (Ok _, w') =>
      (Ok tt, async_on_remove (Interval interval) (Hosted w' (registered h1)))
  | (Raise e, w') => (Raise e, Hosted w' (registered h1))
  end.

End Lifecycle.
Export Lifecycle.

(** ** const.py *)

Module Const.

Definition ATTR_LOCK_STATE : string := "0x0000".
Definition ATTR_LED_SETTINGS : string := "0x0022".
Definition ATTR_SOUND_VOLUME : string := "0x0024".
Definition ATTR_DOOR_STATE : string := "0x0003".
Definition ATTR_CURRENT_FILE_VERSION : string := "0x0002".
Definition ATTR_KEYPAD_OPERATION_EVENT_MASK : string := "0x0041".
Definition ATTR_MANUAL_OPERATION_EVENT_MASK : string := "0x0043".
Definition ATTR_RF_OPERATION_EVENT_MASK : string := "0x0042".
Definition ATTR_AUTO_RELOCK_TIME : string := "0x0023".

Definition EVENT_TYPE_RF_UNLOCK : string := "rf_unlock".
Definition EVENT_TYPE_AUTO_LOCK : string := "auto_lock".

(** The dict literal, in insertion order. *)
Definition LED_SETTINGS_OPTIONS : list (Z * string) :=
  [(0, "Off"); (1, "Low"); (2, "Medium"); (3, "High")].

Definition DEFAULT_AUTO_RELOCK_TIME : Z := 30.

(** [homeassistant.const.STATE_LOCKED] and [STATE_UNLOCKED]. *)
Definition STATE_LOCKED : string := "locked".
Definition STATE_UNLOCKED : string := "unlocked".

(** [list(d.values())]. *)
Definition values (d : list (Z * string)) : list string := map snd d.

End Const.
Export Const.

(** ** lock.py *)

Module NimlyProLock.

Record t : Type := Build {
  _state : option string;
  _available : bool;
  _last_event : option string;
  _last_event_type : option string;
  _last_event_user : option string;
  _last_event_time : option string
}.

Definition set_state (v : option string) (e : t) : t :=
  Build v (_available e) (_last_event e) (_last_event_type e)
        (_last_event_user e) (_last_event_time e).
Definition set_available (v : bool) (e : t) : t :=
  Build (_state e) v (_last_event e) (_last_event_type e)
        (_last_event_user e) (_last_event_time e).
Definition set_last_event_type (v : option string) (e : t) : t :=
  Build (_state e) (_available e) (_last_event e) v
        (_last_event_user e) (_last_event_time e).
Definition set_last_event_user (v : option string) (e : t) : t :=
  Build (_state e) (_available e) (_last_event e) (_last_event_type e)
        v (_last_event_time e).
Definition set_last_event_time (v : option string) (e : t) : t :=
  Build (_state e) (_available e) (_last_event e) (_last_event_type e)
        (_last_event_user e) v.

(** [__init__] (the name and unique id, which never change, are left
    out). *)
Definition __init__ : t :=
  Build None true None None None None.

(** [available]: the device's own flag and the entity's. *)
Definition available (zha_device_available : bool) (e : t) : bool :=
  zha_device_available && _available e.

(** [is_locked]: [self._state == STATE_LOCKED]. *)
Definition is_locked (e : t) : bool :=
  match _state e with
  | Some s => String.eqb s STATE_LOCKED
  | None => false
  end.

Definition async_lock (rem : Remote) : M t unit :=
  try_except
    (result ← await LockDoor (lock_door rem);
     log;;
     modify (set_state (Some STATE_LOCKED));;
     async_write_ha_state)
    log.

Definition async_unlock (rem : Remote) : M t unit :=
  try_except
    (result ← await UnlockDoor (unlock_door rem);
     log;;
     modify (set_state (Some STATE_UNLOCKED));;
     modify (set_last_event_type (Some EVENT_TYPE_RF_UNLOCK));;
     modify (set_last_event_user (Some "Home Assistant"));;
     stamp ← now rem;
     modify (set_last_event_time (Some stamp));;
     async_write_ha_state)
    log.

Definition _update_event_data (rem : Remote) : M t unit :=
  try_except
    (masks ← await_read rem [ATTR_KEYPAD_OPERATION_EVENT_MASK;
                             ATTR_MANUAL_OPERATION_EVENT_MASK;
                             ATTR_RF_OPERATION_EVENT_MASK];
     ret tt)
    log.

Definition _update_lock_state (rem : Remote) : M t unit :=
  try_except
    (result ← await_read rem [ATTR_LOCK_STATE];
     match result !! ATTR_LOCK_STATE with
     | Some lock_state =>
         modify (set_state (Some (if eq_int lock_state 1
                                  then STATE_LOCKED
                                  else STATE_UNLOCKED)));;
         modify (set_available true)
     | None => ret tt
     end;;
     _update_event_data rem)
    (log;;
     modify (set_available false));;
  async_write_ha_state.

Definition _async_update (rem : Remote) : M t unit :=
  _update_lock_state rem.

Definition attribute_updated (rem : Remote) (attrid : Z) (value : pyval) : M t unit :=
  log;;
  id ← lift (int16 ATTR_LOCK_STATE);
  when (attrid =? id)
    (modify (set_state (Some (if eq_int value 1
                              then STATE_LOCKED
                              else STATE_UNLOCKED)));;
     e ← get;
     when (eq_int value 1 &&
           negb (bool_decide (_last_event_type e = Some EVENT_TYPE_AUTO_LOCK)))
       (modify (set_last_event_type (Some EVENT_TYPE_AUTO_LOCK));;
        stamp ← now rem;
        modify (set_last_event_time (Some stamp)));;
     async_write_ha_state).

(** [SCAN_INTERVAL], in seconds. *)
Definition SCAN_INTERVAL : Z := 30.

(** [if value: attributes[key] = value] for an attribute that is
    [None] or a string: [None] and the empty string count as false. *)
Definition put_if_set (key : string) (value : option string)
  (attributes : gmap string string) : gmap string string :=
  match value with
  | Some v => if negb (String.eqb v "") then <[ key := v ]> attributes
              else attributes
  | None => attributes
  end.

(** [extra_state_attributes]. *)
Definition extra_state_attributes (e : t) : gmap string string :=
  let attributes : gmap string string := ∅ in
  let attributes := put_if_set "last_event_type" (_last_event_type e) attributes in
  let attributes := put_if_set "last_event_user" (_last_event_user e) attributes in
  let attributes := put_if_set "last_event_time" (_last_event_time e) attributes in
  attributes.

Definition async_added_to_hass (rem : Remote) : hosted t -> res unit * hosted t :=
  added_to_hass true (_update_lock_state rem) SCAN_INTERVAL.

End NimlyProLock.

(** ** select.py *)

Module Select.

Definition SOUND_VOLUME_OPTIONS : list (Z * string) :=
  [(0, "Off"); (1, "Low"); (2, "Medium"); (3, "High")].

(** [SCAN_INTERVAL], in seconds. *)
Definition SCAN_INTERVAL : Z := 60.

Record t : Type := Build {
  _attr_options : list string;
  _current_option_index : Z;
  _available : bool
}.

Definition set_current_option_index (v : Z) (e : t) : t :=
  Build (_attr_options e) v (_available e).
Definition set_available (v : bool) (e : t) : t :=
  Build (_attr_options e) (_current_option_index e) v.

(** The two selector classes have the same methods over their own
    attribute constant and option table. *)
Section SelectEntity.

Variable ATTR : string.
Variable OPTIONS : list (Z * string).

Definition __init__ : t :=
  Build (values OPTIONS) 0 true.

Definition available (zha_device_available : bool) (e : t) : bool :=
  zha_device_available && _available e.

(** [current_option]: [self._attr_options[self._current_option_index]]. *)
Definition current_option (e : t) : res string :=
  getitem (_attr_options e) (_current_option_index e).

(** [value is not None and 0 <= value < len(self._attr_options)]. *)
Definition is_valid_index (e : t) (value : pyval) : M t bool :=
  if is_not_None value
  then lift (between 0 value (Z.of_nat (length (_attr_options e))))
  else ret false.

Definition async_select_option (rem : Remote) (option : string) : M t unit :=
  e ← get;
  option_index ← lift (index (_attr_options e) option);
  try_except
    (id ← lift (int16 ATTR);
     await_write rem {[ id := PyInt option_index ]};;
     modify (set_current_option_index option_index);;
     async_write_ha_state)
    log.

(** [_update_led_settings] and [_update_sound_volume].  The guard
    holds of an integer only, so the assignment stores an integer. *)
Definition _update (rem : Remote) : M t unit :=
  try_except
    (result ← await_read rem [ATTR];
     match result !! ATTR with
     | Some value =>
         e ← get;
         valid ← is_valid_index e value;
         match value with
         | PyInt i => when valid (modify (set_current_option_index i))
         | _ => ret tt
         end;;
         modify (set_available true)
     | None => ret tt
     end)
    (log;;
     modify (set_available false));;
  async_write_ha_state.

Definition _async_update (rem : Remote) : M t unit :=
  _update rem.

Definition attribute_updated (attrid : Z) (value : pyval) : M t unit :=
  id ← lift (int16 ATTR);
  when (attrid =? id)
    (e ← get;
     valid ← is_valid_index e value;
     match value with
     | PyInt i =>
         when valid
           (modify (set_current_option_index i);;
            async_write_ha_state)
     | _ => ret tt
     end).

Definition async_added_to_hass (rem : Remote) : hosted t -> res unit * hosted t :=
  added_to_hass true (_update rem) SCAN_INTERVAL.

End SelectEntity.

End Select.

Module NimlyProLEDSettingsSelect.
Definition __init__ := Select.__init__ LED_SETTINGS_OPTIONS.
Definition current_option := Select.current_option.
Definition async_select_option := Select.async_select_option ATTR_LED_SETTINGS.
Definition _update_led_settings := Select._update ATTR_LED_SETTINGS.
Definition attribute_updated := Select.attribute_updated ATTR_LED_SETTINGS.
Definition async_added_to_hass := Select.async_added_to_hass ATTR_LED_SETTINGS.
End NimlyProLEDSettingsSelect.

Module NimlyProSoundVolumeSelect.
Definition __init__ := Select.__init__ Select.SOUND_VOLUME_OPTIONS.
Definition current_option := Select.current_option.
Definition async_select_option := Select.async_select_option ATTR_SOUND_VOLUME.
Definition _update_sound_volume := Select._update ATTR_SOUND_VOLUME.
Definition attribute_updated := Select.attribute_updated ATTR_SOUND_VOLUME.
Definition async_added_to_hass := Select.async_added_to_hass ATTR_SOUND_VOLUME.
End NimlyProSoundVolumeSelect.

(** ** number.py *)

Module NimlyProAutoRelockTime.

(** What [_attr_native_value] holds: the integer default or a raw
    attribute value, or the float the host passed to
    [async_set_native_value]. *)
Inductive native : Type :=
| Raw (v : pyval)
| Float (x : pyfloat).

Record t : Type := Build {
  _attr_native_min_value : Z;
  _attr_native_max_value : Z;
  _attr_native_step : Z;
  _attr_native_value : native;
  _available : bool
}.

Definition set_native_value (v : native) (e : t) : t :=
  Build (_attr_native_min_value e) (_attr_native_max_value e)
        (_attr_native_step e) v (_available e).
Definition set_available (v : bool) (e : t) : t :=
  Build (_attr_native_min_value e) (_attr_native_max_value e)
        (_attr_native_step e) (_attr_native_value e) v.

Definition __init__ : t :=
  Build 0 3600 1 (Raw (PyInt DEFAULT_AUTO_RELOCK_TIME)) true.

Definition available (zha_device_available : bool) (e : t) : bool :=
  zha_device_available && _available e.

(** [value] is the float the host passes.  The dict literal is built
    before the call: [int(value)] may raise, and what it raises is not
    a [ZigbeeException]. *)
Definition async_set_native_value (rem : Remote) (value : pyfloat) : M t unit :=
  try_except
    (id ← lift (int16 ATTR_AUTO_RELOCK_TIME);
     seconds ← lift (int_of_float value);
     await_write rem {[ id := PyInt seconds ]};;
     modify (set_native_value (Float value));;
     async_write_ha_state)
    log.

Definition _update_auto_relock_time (rem : Remote) : M t unit :=
  try_except
    (result ← await_read rem [ATTR_AUTO_RELOCK_TIME];
     match result !! ATTR_AUTO_RELOCK_TIME with
     | Some value =>
         when (is_not_None value)
              (modify (set_native_value (Raw value)));;
         modify (set_available true)
     | None => ret tt
     end)
    (log;;
     modify (set_available false));;
  async_write_ha_state.

Definition _async_update (rem : Remote) : M t unit :=
  _update_auto_relock_time rem.

Definition attribute_updated (attrid : Z) (value : pyval) : M t unit :=
  id ← lift (int16 ATTR_AUTO_RELOCK_TIME);
  when (attrid =? id)
    (when (is_not_None value)
       (modify (set_native_value (Raw value));;
        async_write_ha_state)).

(** [SCAN_INTERVAL], in seconds. *)
Definition SCAN_INTERVAL : Z := 60.

Definition async_added_to_hass (rem : Remote) : hosted t -> res unit * hosted t :=
  added_to_hass true (_update_auto_relock_time rem) SCAN_INTERVAL.

End NimlyProAutoRelockTime.

(** ** sensor.py *)

Module NimlyProFirmwareSensor.

Record t : Type := Build {
  _attr_native_value : string;
  _available : bool
}.

Definition set_native_value (v : string) (e : t) : t :=
  Build v (_available e).
Definition set_available (v : bool) (e : t) : t :=
  Build (_attr_native_value e) v.

Definition __init__ : t := Build "Unknown" true.

Definition available (zha_device_available : bool) (e : t) : bool :=
  zha_device_available && _available e.

Definition _update_firmware_version (rem : Remote) : M t unit :=
  try_except
    (result ← await_read rem [ATTR_CURRENT_FILE_VERSION];
     match result !! ATTR_CURRENT_FILE_VERSION with
     | Some version =>
         (* [isinstance(version, int)] *)
         match version with
         | PyInt v =>
             let major := Z.land (Z.shiftr v 24) 255 in
             let minor := Z.land (Z.shiftr v 16) 255 in
             let patch := Z.land (Z.shiftr v 8) 255 in
             let build := Z.land v 255 in
             modify (set_native_value
                       (format_int major ++ "." ++ format_int minor ++ "." ++
                        format_int patch ++ "." ++ format_int build))
         | _ => modify (set_native_value (str version))
         end;;
         modify (set_available true)
     | None => ret tt
     end)
    (log;;
     modify (set_available false));;
  async_write_ha_state.

Definition _async_update (rem : Remote) : M t unit :=
  _update_firmware_version rem.

(** [SCAN_INTERVAL], in seconds. *)
Definition SCAN_INTERVAL : Z := 60.

(** The firmware sensor registers no listener. *)
Definition async_added_to_hass (rem : Remote) : hosted t -> res unit * hosted t :=
  added_to_hass false (_update_firmware_version rem) SCAN_INTERVAL.

End NimlyProFirmwareSensor.

Module NimlyProLastUserSensor.

Record t : Type := Build {
  _attr_native_value : string;
  _available : bool;
  _last_event_time : option string
}.

Definition __init__ : t := Build "Unknown" true None.

Definition available (zha_device_available : bool) (e : t) : bool :=
  zha_device_available && _available e.

(** [extra_state_attributes]. *)
Definition extra_state_attributes (e : t) : gmap string string :=
  match _last_event_time e with
  | Some v => if negb (String.eqb v "")
              then {[ "last_event_time" := v ]} else ∅
  | None => ∅
  end.

(** [_async_update]: [pass]. *)
Definition _async_update : M t unit := ret tt.

(** [attribute_updated]: a debug line and nothing else. *)
Definition attribute_updated (attrid : Z) (value : pyval) : M t unit := log.

(** The listener and the timer, and no fetch. *)
Definition async_added_to_hass (h : hosted t) : res unit * hosted t :=
  let h := async_on_remove Listener h in
  (Ok tt, async_on_remove (Interval NimlyProFirmwareSensor.SCAN_INTERVAL) h).

End NimlyProLastUserSensor.

(** ** binary_sensor.py *)

Module NimlyProDoorStateSensor.

Definition DOOR_STATE_OPEN : Z := 0.
Definition DOOR_STATE_CLOSED : Z := 1.

Record t : Type := Build {
  _is_on : option bool;
  _available : bool
}.

Definition set_is_on (v : option bool) (e : t) : t :=
  Build v (_available e).
Definition set_available (v : bool) (e : t) : t :=
  Build (_is_on e) v.

Definition __init__ : t := Build None true.

Definition available (zha_device_available : bool) (e : t) : bool :=
  zha_device_available && _available e.

Definition is_on (e : t) : option bool := _is_on e.

Definition _update_door_state (rem : Remote) : M t unit :=
  try_except
    (result ← await_read rem [ATTR_DOOR_STATE];
     match result !! ATTR_DOOR_STATE with
     | Some door_state =>
         modify (set_is_on (Some (eq_int door_state DOOR_STATE_OPEN)));;
         modify (set_available true)
     | None => ret tt
     end)
    (log;;
     modify (set_available false));;
  async_write_ha_state.

Definition _async_update (rem : Remote) : M t unit :=
  _update_door_state rem.

Definition attribute_updated (attrid : Z) (value : pyval) : M t unit :=
  id ← lift (int16 ATTR_DOOR_STATE);
  when (attrid =? id)
    (modify (set_is_on (Some (eq_int value DOOR_STATE_OPEN)));;
     async_write_ha_state).

(** [SCAN_INTERVAL], in seconds. *)
Definition SCAN_INTERVAL : Z := 30.

Definition async_added_to_hass (rem : Remote) : hosted t -> res unit * hosted t :=
  added_to_hass true (_update_door_state rem) SCAN_INTERVAL.

End NimlyProDoorStateSensor.

(** ** The six entities as attribute synchronizers *)

Module Sync.

(** One remote attribute mirrored by an entity: the attribute id, the
    mirrored value and the availability flag, the decode and encode
    policies, and the entity's polling, push and command paths. *)
Record Synchronizer : Type := {
  entity : Type;
  domain : Type;
  intent : Type;
  attribute_id : string;
  initial : entity;
  current_value : entity -> domain;
  availability : entity -> bool;
  (** the domain value a raw value stands for; [Ok None] when the raw
      value is ignored *)
  decoder : entity -> pyval -> res (option domain);
  (** the remote request a command issues and the value it aims at *)
  encoder : entity -> intent -> res request;
  target : entity -> intent -> res domain;
  reconcile : Remote -> M entity unit;
  on_push : Remote -> Z -> pyval -> M entity unit;
  request_change : Remote -> intent -> M entity unit
}.

(** Four dot-separated decimal numerals. *)
Definition dotted (b3 b2 b1 b0 : Z) : string :=
  format_int b3 ++ "." ++ format_int b2 ++ "." ++
  format_int b1 ++ "." ++ format_int b0.

(** Firmware version: the four bytes of a 32-bit integer, most
    significant first; any other value in its string form. *)
Definition firmware_decode (raw : pyval) : string :=
  match raw with
  | PyInt v => dotted (Z.land (Z.shiftr v 24) 255) (Z.land (Z.shiftr v 16) 255)
                      (Z.land (Z.shiftr v 8) 255) (Z.land v 255)
  | _ => str raw
  end.

(** Lock state: raw [1] is locked, anything else unlocked. *)
Definition lock_decode (raw : pyval) : string :=
  if eq_int raw 1 then STATE_LOCKED else STATE_UNLOCKED.

(** Door state: raw [0] is open. *)
Definition door_decode (raw : pyval) : bool := eq_int raw 0.

(** Selector: an index into the option list; [None] and indices outside
    the list are ignored, a string cannot be ordered against the
    bounds. *)
Definition selector_decode (e : Select.t) (raw : pyval) : res (option Z) :=
  match raw with
  | PyNone => Ok None
  | PyInt i =>
      Ok (if (0 <=? i) && (i <? Z.of_nat (length (Select._attr_options e)))
          then Some i else None)
  | PyStr _ => Raise TypeError
  end.

(** Auto-relock seconds: every value but [None] is taken as it is. *)
Definition relock_decode (raw : pyval) : option NimlyProAutoRelockTime.native :=
  match raw with
  | PyNone => None
  | _ => Some (NimlyProAutoRelockTime.Raw raw)
  end.

(** A selector command writes the position of the label. *)
Definition selector_encode (ATTR : string) (e : Select.t) (label : string) : res request :=
  match index (Select._attr_options e) label, int16 ATTR with
  | Ok i, Ok id => Ok (WriteAttributes {[ id := PyInt i ]})
  | Raise x, _ => Raise x
  | _, Raise x => Raise x
  end.

(** A relock command writes the integer part of the number, if it has
    one. *)
Definition relock_encode (x : pyfloat) : res request :=
  match int16 ATTR_AUTO_RELOCK_TIME, int_of_float x with
  | Ok id, Ok seconds => Ok (WriteAttributes {[ id := PyInt seconds ]})
  | Raise e, _ => Raise e
  | _, Raise e => Raise e
  end.

Definition lock : Synchronizer := {|
  entity := NimlyProLock.t;
  domain := option string;
  intent := bool;
  attribute_id := ATTR_LOCK_STATE;
  initial := NimlyProLock.__init__;
  current_value := NimlyProLock._state;
  availability := NimlyProLock._available;
  decoder := fun _ raw => Ok (Some (Some (lock_decode raw)));
  encoder := fun _ locking => Ok (if locking then LockDoor else UnlockDoor);
  target := fun _ locking =>
    Ok (Some (if locking then STATE_LOCKED else STATE_UNLOCKED));
  reconcile := NimlyProLock._update_lock_state;
  on_push := NimlyProLock.attribute_updated;
  request_change := fun rem (locking : bool) =>
    if locking then NimlyProLock.async_lock rem
    else NimlyProLock.async_unlock rem
|}.

Definition door_state : Synchronizer := {|
  entity := NimlyProDoorStateSensor.t;
  domain := option bool;
  intent := Empty_set;
  attribute_id := ATTR_DOOR_STATE;
  initial := NimlyProDoorStateSensor.__init__;
  current_value := NimlyProDoorStateSensor._is_on;
  availability := NimlyProDoorStateSensor._available;
  decoder := fun _ raw => Ok (Some (Some (door_decode raw)));
  encoder := fun _ r => match r with end;
  target := fun _ r => match r with end;
  reconcile := NimlyProDoorStateSensor._update_door_state;
  on_push := fun _ => NimlyProDoorStateSensor.attribute_updated;
  request_change := fun _ r => match r with end
|}.

(** The firmware sensor registers no listener and has no
    [attribute_updated]: nothing is pushed to it. *)
Definition firmware : Synchronizer := {|
  entity := NimlyProFirmwareSensor.t;
  domain := string;
  intent := Empty_set;
  attribute_id := ATTR_CURRENT_FILE_VERSION;
  initial := NimlyProFirmwareSensor.__init__;
  current_value := NimlyProFirmwareSensor._attr_native_value;
  availability := NimlyProFirmwareSensor._available;
  decoder := fun _ raw => Ok (Some (firmware_decode raw));
  encoder := fun _ r => match r with end;
  target := fun _ r => match r with end;
  reconcile := NimlyProFirmwareSensor._update_firmware_version;
  on_push := fun _ _ _ => ret tt;
  request_change := fun _ r => match r with end
|}.

Definition auto_relock : Synchronizer := {|
  entity := NimlyProAutoRelockTime.t;
  domain := NimlyProAutoRelockTime.native;
  intent := pyfloat;
  attribute_id := ATTR_AUTO_RELOCK_TIME;
  initial := NimlyProAutoRelockTime.__init__;
  current_value := NimlyProAutoRelockTime._attr_native_value;
  availability := NimlyProAutoRelockTime._available;
  decoder := fun _ raw => Ok (relock_decode raw);
  encoder := fun _ x => relock_encode x;
  target := fun _ x => Ok (NimlyProAutoRelockTime.Float x);
  reconcile := NimlyProAutoRelockTime._update_auto_relock_time;
  on_push := fun _ => NimlyProAutoRelockTime.attribute_updated;
  request_change := NimlyProAutoRelockTime.async_set_native_value
|}.

Definition selector (ATTR : string) (OPTIONS : list (Z * string)) : Synchronizer := {|
  entity := Select.t;
  domain := Z;
  intent := string;
  attribute_id := ATTR;
  initial := Select.__init__ OPTIONS;
  current_value := Select._current_option_index;
  availability := Select._available;
  decoder := selector_decode;
  encoder := selector_encode ATTR;
  target := fun e label => index (Select._attr_options e) label;
  reconcile := Select._update ATTR;
  on_push := fun _ => Select.attribute_updated ATTR;
  request_change := Select.async_select_option ATTR
|}.

Definition led_settings : Synchronizer :=
  selector ATTR_LED_SETTINGS LED_SETTINGS_OPTIONS.

Definition sound_volume : Synchronizer :=
  selector ATTR_SOUND_VOLUME Select.SOUND_VOLUME_OPTIONS.

Inductive kind : Type :=
| Lock | DoorState | Firmware | AutoRelock | LedSettings | SoundVolume.

Definition synchronizer (k : kind) : Synchronizer :=
  match k with
  | Lock => lock
  | DoorState => door_state
  | Firmware => firmware
  | AutoRelock => auto_relock
  | LedSettings => led_settings
  | SoundVolume => sound_volume
  end.

(** The answer of the remote layer to a request, as far as the caller
    can tell a return from a fault. *)
Definition answer (rem : Remote) (history : list request) (req : request) : reply unit :=
  match req with
  | ReadAttributes ids =>
      match read_attributes rem history ids with
      | Done _ => Done tt
      | Fault => Fault
      end
  | WriteAttributes attrs => write_attributes rem history attrs
  | LockDoor => lock_door rem history
  | UnlockDoor => unlock_door rem history
  end.

(** What reaches an entity: a timer tick (or the initial fetch), a
    push notification, or a command of the user. *)
Inductive event (S : Synchronizer) : Type :=
| Poll
| Push (attrid : Z) (value : pyval)
| Command (r : intent S).
Arguments Poll {S}.
Arguments Push {S} attrid value.
Arguments Command {S} r.

Definition handle (S : Synchronizer) (rem : Remote) (ev : event S) : M (entity S) unit :=
  match ev with
  | Poll => reconcile S rem
  | Push attrid value => on_push S rem attrid value
  | Command r => request_change S rem r
  end.

(** The host runs the callbacks one after the other; an exception that
    escapes one of them is logged by the host and the entity lives on. *)
Fixpoint run (S : Synchronizer) (rem : Remote) (evs : list (event S))
  (w : world (entity S)) : world (entity S) :=
  match evs with
  | [] => w
  | ev :: evs' => run S rem evs' (snd (handle S rem ev w))
  end.

(** The world of an entity that has just been constructed. *)
Definition fresh (S : Synchronizer) : world (entity S) :=
  World (initial S) [] [] 0%nat.

End Sync.
Export Sync.

(** ** Vocabulary of the properties *)

Module Props.

(** What [reconcile] does in each of the four situations a read can
    end in: a fault, a mapping without the attribute, a raw value the
    decode policy handles, and a raw value on which it raises. *)
Definition reconcile_post (S : Synchronizer) (rem : Remote)
  (w : world (entity S)) (r : res unit * world (entity S)) : Prop :=
  let w' := snd r in
  match read_attributes rem (sent w) [attribute_id S] with
  | Fault =>
      fst r = Ok tt /\
      current_value S (self w') = current_value S (self w) /\
      availability S (self w') = false /\
      published w' = (published w ++ [self w'])%list
  | Done m =>
      match m !! attribute_id S with
      | None =>
          fst r = Ok tt /\
          current_value S (self w') = current_value S (self w) /\
          availability S (self w') = availability S (self w) /\
          published w' = (published w ++ [self w'])%list
      | Some raw =>
          match decoder S (self w) raw with
          | Ok o =>
              fst r = Ok tt /\
              current_value S (self w') = default (current_value S (self w)) o /\
              availability S (self w') = true /\
              published w' = (published w ++ [self w'])%list
          | Raise e =>
              fst r = Raise e /\ self w' = self w /\
              published w' = published w
          end
      end
  end.

(** The effect of one poll on the availability flag: [Some false]
    after a fault, [Some true] when the attribute came back and was
    decoded, [None] (no change) otherwise. *)
Definition poll_verdict (S : Synchronizer) (rem : Remote)
  (w : world (entity S)) : option bool :=
  match read_attributes rem (sent w) [attribute_id S] with
  | Fault => Some false
  | Done m =>
      match m !! attribute_id S with
      | Some raw =>
          match decoder S (self w) raw with
          | Ok _ => Some true
          | Raise _ => None
          end
      | None => None
      end
  end.

(** The availability flag along a run, told from the polls alone:
    pushes and commands leave it as it is. *)
Fixpoint availability_after (S : Synchronizer) (rem : Remote)
  (evs : list (event S)) (w : world (entity S)) (a : bool) : bool :=
  match evs with
  | [] => a
  | ev :: evs' =>
      availability_after S rem evs' (snd (handle S rem ev w))
        match ev with
        | Poll => default a (poll_verdict S rem w)
        | _ => a
        end
  end.

(** Whether an event brings the entity a value: a read that returns
    the attribute, a push for the entity's own attribute id, or a
    command whose remote request succeeds. *)
Definition delivers (S : Synchronizer) (rem : Remote) (ev : event S)
  (w : world (entity S)) : bool :=
  match ev with
  | Poll =>
      match read_attributes rem (sent w) [attribute_id S] with
      | Done m =>
          match m !! attribute_id S with
          | Some _ => true
          | None => false
          end
      | Fault => false
      end
  | Push attrid _ =>
      match int16 (attribute_id S) with
      | Ok id => attrid =? id
      | Raise _ => false
      end
  | Command r =>
      match encoder S (self w) r with
      | Ok req =>
          match answer rem (sent w) req with
          | Done _ => true
          | Fault => false
          end
      | Raise _ => false
      end
  end.

(** A run in which no event delivers a value. *)
Fixpoint silent (S : Synchronizer) (rem : Remote) (evs : list (event S))
  (w : world (entity S)) : Prop :=
  match evs with
  | [] => True
  | ev :: evs' =>
      delivers S rem ev w = false /\
      silent S rem evs' (snd (handle S rem ev w))
  end.

(** The stored relock time lies within the bounds the entity
    declares. *)
Definition within_bounds (e : NimlyProAutoRelockTime.t) : Prop :=
  let lo := NimlyProAutoRelockTime._attr_native_min_value e in
  let hi := NimlyProAutoRelockTime._attr_native_max_value e in
  match NimlyProAutoRelockTime._attr_native_value e with
  | NimlyProAutoRelockTime.Raw (PyInt z) => lo <= z <= hi
  | NimlyProAutoRelockTime.Raw _ => False
  | NimlyProAutoRelockTime.Float (Finite x) =>
      (inject_Z lo <= x /\ x <= inject_Z hi)%Q
  | NimlyProAutoRelockTime.Float _ => False
  end.

(** A raw relock time that is [None] or an integer within [lo, hi]. *)
Definition raw_within (lo hi : Z) (raw : pyval) : Prop :=
  match raw with
  | PyNone => True
  | PyInt z => lo <= z <= hi
  | PyStr _ => False
  end.

(** Every read of the relock time answers within [lo, hi]. *)
Definition reads_within (lo hi : Z) (rem : Remote) : Prop :=
  forall history (m : gmap string pyval) raw,
    read_attributes rem history [ATTR_AUTO_RELOCK_TIME] = Done m ->
    m !! ATTR_AUTO_RELOCK_TIME = Some raw ->
    raw_within lo hi raw.

(** An event of the relock entity that carries a value within
    [lo, hi], or none: a poll, a push of [None] or of an integer within
    the bounds, a command for a finite number within them. *)
Definition event_within (lo hi : Z) (ev : event auto_relock) : Prop :=
  match ev with
  | Poll => True
  | Push _ raw => raw_within lo hi raw
  | Command (Finite x) => (inject_Z lo <= x /\ x <= inject_Z hi)%Q
  | Command _ => False
  end.

(** A remote layer out of reach: every operation faults. *)
Definition unreachable : Remote := {|
  read_attributes := fun _ _ => Fault;
  write_attributes := fun _ _ => Fault;
  lock_door := fun _ => Fault;
  unlock_door := fun _ => Fault;
  now_isoformat := fun _ => "2024-01-01T00:00:00"
|}.

(** A remote layer that answers every read with [attrs] and accepts
    every write and command. *)
Definition steady (attrs : gmap string pyval) : Remote := {|
  read_attributes := fun _ _ => Done attrs;
  write_attributes := fun _ _ => Done tt;
  lock_door := fun _ => Done tt;
  unlock_door := fun _ => Done tt;
  now_isoformat := fun _ => "2024-01-01T00:00:00"
|}.

(** The option list of both selectors. *)
Definition four_levels : list string := ["Off"; "Low"; "Medium"; "High"].

(** [d[i]] for a dict given by its items. *)
Fixpoint dict_get (d : list (Z * string)) (i : Z) : option string :=
  match d with
  | [] => None
  | (j, x) :: d' => if j =? i then Some x else dict_get d' i
  end.

End Props.
Export Props.

(** ** The device as the gateway presents it *)

Module Zha.

(** [v == s] for a string [s]: a value of another type is never equal
    to a string. *)
Definition eq_str (v : pyval) (s : string) : bool :=
  match v with
  | PyStr t => String.eqb t s
  | _ => false
  end.

(** The truth value of a condition [v]. *)
Definition truth (v : pyval) : bool :=
  match v with
  | PyNone => false
  | PyInt z => negb (z =? 0)
  | PyStr s => negb (String.eqb s "")
  end.

(** A cluster: its id, and the operations it answers. *)
Record Cluster : Type := {
  cluster_id : pyval;
  operations : Remote
}.

(** An endpoint with its cluster dicts, in insertion order. *)
Record Endpoint : Type := {
  endpoint_id : Z;
  in_clusters : list (Z * Cluster);
  out_clusters : list (Z * Cluster)
}.

(** A device; [ieee] stands for the string form of its address. *)
Record ZHADevice : Type := {
  name : pyval;
  ieee : string;
  manufacturer : pyval;
  model : pyval;
  endpoints : list (Z * Endpoint)
}.

(** The gateway's dict of devices, keyed by address. *)
Record ZHAGateway : Type := {
  devices : list (string * ZHADevice)
}.

(** [zha_gateway.get_device(ieee)]: the device or [None]. *)
Fixpoint lookup_device (items : list (string * ZHADevice)) (key : string) : option ZHADevice :=
  match items with
  | [] => None
  | (k, d) :: rest => if String.eqb k key then Some d else lookup_device rest key
  end.

Definition get_device (zha_gateway : ZHAGateway) (key : string) : option ZHADevice :=
  lookup_device (devices zha_gateway) key.

End Zha.

(** ** Platform set-up: [async_setup_entry] of the five platforms *)

Module Platforms.
Import Zha.

Definition DOORLOCK_CLUSTER_ID : string := "0x0101".
Definition POWER_CLUSTER_ID : string := "0x0001".
Definition OTA_CLUSTER_ID : string := "0x0019".

Definition NAME_DOOR_STATE : string := "Door State".
Definition NAME_FIRMWARE : string := "Firmware Version".
Definition NAME_LAST_USER : string := "Last User".
Definition NAME_LED_SETTINGS : string := "LED Settings".
Definition NAME_SOUND_VOLUME : string := "Sound Volume".
Definition NAME_AUTO_RELOCK : string := "Auto Relock Time".

(** The seven entity classes. *)
Inductive entity_class : Type :=
| OfLock
| OfLEDSettings
| OfSoundVolume
| OfAutoRelock
| OfFirmware
| OfLastUser
| OfDoorState.

(** What a constructor fixes for the life of an entity: the device,
    the endpoint and the cluster it talks to, its name and its unique
    id.  (The lock calls its cluster [_doorlock_cluster].) *)
Record Entity : Type := {
  class : entity_class;
  _zha_device : ZHADevice;
  _endpoint : Endpoint;
  _cluster : option Cluster;
  _attr_name : string;
  _attr_unique_id : string
}.

(** [any(cluster.cluster_id == ID for cluster in clusters.values())]. *)
Definition any_cluster (ID : string) (clusters : list (Z * Cluster)) : bool :=
  existsb (fun item => eq_str (cluster_id (snd item)) ID) clusters.

(** The first cluster of the dict whose id equals [ID]: the loop with
    [break] of the lock's constructor, and
    [next(cluster for cluster in clusters.values() if ...)], which
    raises [StopIteration] where this gives [None]. *)
Fixpoint first_cluster (ID : string) (clusters : list (Z * Cluster)) : option Cluster :=
  match clusters with
  | [] => None
  | (_, cluster) :: rest =>
      if eq_str (cluster_id cluster) ID then Some cluster
      else first_cluster ID rest
  end.

(** The search loop over [zha_device.endpoints.items()]: the first
    endpoint other than the ZDO endpoint 0 one of whose clusters has
    the id. *)
Fixpoint find_endpoint (ID : string) (clusters_of : Endpoint -> list (Z * Cluster))
  (items : list (Z * Endpoint)) : option Endpoint :=
  match items with
  | [] => None
  | (id, endpoint) :: rest =>
      if negb (id =? 0) && any_cluster ID (clusters_of endpoint)
      then Some endpoint
      else find_endpoint ID clusters_of rest
  end.

(** [f"{zha_device.ieee}_{endpoint.endpoint_id}_suffix"]. *)
Definition unique_id (zha_device : ZHADevice) (endpoint : Endpoint)
  (suffix : string) : string :=
  ieee zha_device ++ "_" ++ format_int (endpoint_id endpoint) ++ "_" ++ suffix.

(** [NimlyProLock(zha_device, endpoint)]. *)
Definition new_lock (zha_device : ZHADevice) (endpoint : Endpoint) : Entity := {|
  class := OfLock;
  _zha_device := zha_device;
  _endpoint := endpoint;
  _cluster := first_cluster DOORLOCK_CLUSTER_ID (in_clusters endpoint);
  _attr_name := str (name zha_device);
  _attr_unique_id := unique_id zha_device endpoint "lock"
|}.

(** The constructors that are given their cluster: the name is
    [f"{zha_device.name} {NAME}"]. *)
Definition new_entity (c : entity_class) (NAME suffix : string)
  (zha_device : ZHADevice) (endpoint : Endpoint) (cluster : Cluster) : Entity := {|
  class := c;
  _zha_device := zha_device;
  _endpoint := endpoint;
  _cluster := Some cluster;
  _attr_name := str (name zha_device) ++ " " ++ NAME;
  _attr_unique_id := unique_id zha_device endpoint suffix
|}.

Definition new_led_settings := new_entity OfLEDSettings NAME_LED_SETTINGS "led_settings".
Definition new_sound_volume := new_entity OfSoundVolume NAME_SOUND_VOLUME "sound_volume".
Definition new_auto_relock := new_entity OfAutoRelock NAME_AUTO_RELOCK "auto_relock".
Definition new_firmware := new_entity OfFirmware NAME_FIRMWARE "firmware".
Definition new_last_user := new_entity OfLastUser NAME_LAST_USER "last_user".
Definition new_door_state := new_entity OfDoorState NAME_DOOR_STATE "door_state".

(** How a set-up ends: entities handed to [async_add_entities], an
    error logged, nothing at all, or [StopIteration] out of [next]. *)
Inductive outcome : Type :=
| Added (entities : list Entity)
| Logged (error : string)
| Nothing
| StopIteration.

(** The common opening: the gateway, then the device. *)
Definition with_device (gateway : option ZHAGateway) (address : string)
  (body : ZHADevice -> outcome) : outcome :=
  match gateway with
  | None => Logged "ZHA gateway not found"
  | Some zha_gateway =>
      match get_device zha_gateway address with
      | None => Logged ("ZHA device not found for " ++ address)
      | Some zha_device => body zha_device
      end
  end.

(** The search of select, number and binary_sensor, which also takes
    the cluster with [next]. *)
Definition with_doorlock (zha_device : ZHADevice)
  (body : Endpoint -> Cluster -> outcome) : outcome :=
  match find_endpoint DOORLOCK_CLUSTER_ID in_clusters (endpoints zha_device) with
  | Some doorlock_endpoint =>
      match first_cluster DOORLOCK_CLUSTER_ID (in_clusters doorlock_endpoint) with
      | Some doorlock_cluster => body doorlock_endpoint doorlock_cluster
      | None => StopIteration
      end
  | None => Nothing
  end.

(** lock.py *)
Definition lock_setup (gateway : option ZHAGateway) (address : string) : outcome :=
  with_device gateway address (fun zha_device =>
    match find_endpoint DOORLOCK_CLUSTER_ID in_clusters (endpoints zha_device) with
    | None => Logged ("Door lock cluster not found on device " ++ address)
    | Some doorlock_endpoint => Added [new_lock zha_device doorlock_endpoint]
    end).

(** select.py *)
Definition select_setup (gateway : option ZHAGateway) (address : string) : outcome :=
  with_device gateway address (fun zha_device =>
    with_doorlock zha_device (fun doorlock_endpoint doorlock_cluster =>
      Added [new_led_settings zha_device doorlock_endpoint doorlock_cluster;
             new_sound_volume zha_device doorlock_endpoint doorlock_cluster])).

(** number.py *)
Definition number_setup (gateway : option ZHAGateway) (address : string) : outcome :=
  with_device gateway address (fun zha_device =>
    with_doorlock zha_device (fun doorlock_endpoint doorlock_cluster =>
      Added [new_auto_relock zha_device doorlock_endpoint doorlock_cluster])).

(** binary_sensor.py *)
Definition binary_sensor_setup (gateway : option ZHAGateway) (address : string) : outcome :=
  with_device gateway address (fun zha_device =>
    with_doorlock zha_device (fun doorlock_endpoint doorlock_cluster =>
      Added [new_door_state zha_device doorlock_endpoint doorlock_cluster])).

(** One search of sensor.py: the entities so far, extended when the
    cluster is found; [None] when [next] raises. *)
Definition search (ID : string) (clusters_of : Endpoint -> list (Z * Cluster))
  (zha_device : ZHADevice) (found : Endpoint -> Cluster -> list Entity)
  (entities : list Entity) : option (list Entity) :=
  match find_endpoint ID clusters_of (endpoints zha_device) with
  | Some endpoint =>
      match first_cluster ID (clusters_of endpoint) with
      | Some cluster => Some (entities ++ found endpoint cluster)%list
      | None => None
      end
  | None => Some entities
  end.

(** sensor.py: the firmware sensor from the OTA cluster among the
    output clusters, then the last-user sensor from the door-lock
    cluster; the search for the power cluster adds nothing. *)
Definition sensor_setup (gateway : option ZHAGateway) (address : string) : outcome :=
  with_device gateway address (fun zha_device =>
    match search OTA_CLUSTER_ID out_clusters zha_device
            (fun endpoint ota_cluster =>
               [new_firmware zha_device endpoint ota_cluster]) [] with
    | None => StopIteration
    | Some entities =>
        match search DOORLOCK_CLUSTER_ID in_clusters zha_device
                (fun endpoint doorlock_cluster =>
                   [new_last_user zha_device endpoint doorlock_cluster])
                entities with
        | None => StopIteration
        | Some entities =>
            match search POWER_CLUSTER_ID in_clusters zha_device
                    (fun _ _ => []) entities with
            | None => StopIteration
            | Some entities =>
                match entities with
                | [] => Nothing
                | _ => Added entities
                end
            end
        end
    end).

(** [PLATFORMS], in the order of __init__.py: what the host runs when
    the entry set-up is forwarded. *)
Definition PLATFORMS : list (option ZHAGateway -> string -> outcome) :=
  [lock_setup; sensor_setup; binary_sensor_setup; select_setup; number_setup].

(** All entities the platforms add for a device. *)
Definition added (o : outcome) : list Entity :=
  match o with
  | Added entities => entities
  | _ => []
  end.

Definition all_entities (gateway : option ZHAGateway) (address : string) : list Entity :=
  concat (map (fun platform => added (platform gateway address)) PLATFORMS).

End Platforms.

(** ** config_flow.py *)

Module ConfigFlow.
Import Zha.

Inductive FlowResult : Type :=
| Abort (reason : string)
| CreateEntry (title : string) (data : gmap string string)
| ShowForm (step_id : string) (choices : gmap string pyval).

(** A step returns a result or raises [KeyError]. *)
Inductive step_outcome : Type :=
| Returns (result : FlowResult)
| KeyError (key : string).

(** [x in ids]. *)
Definition contains (x : string) (ids : list pyval) : bool :=
  existsb (fun v => eq_str v x) ids.

(** The test on manufacturer and model. *)
Definition is_nimly (device : ZHADevice) : bool :=
  eq_str (manufacturer device) "Onesti Products AS" &&
  existsb (eq_str (model device)) ["NimlyPRO"; "NimlyPRO24"].

(** [device.name or f"Nimly Lock {device.ieee}"]. *)
Definition label (device : ZHADevice) : pyval :=
  if truth (name device) then name device
  else PyStr ("Nimly Lock " ++ ieee device).

(** The loop over [device.endpoints.values()]. *)
Definition offer (device : ZHADevice) (nimly_devices : gmap string pyval) : gmap string pyval :=
  fold_left
    (fun nimly_devices endpoint =>
       if contains Platforms.DOORLOCK_CLUSTER_ID
            (map (fun item => cluster_id (snd item)) (in_clusters endpoint))
       then <[ ieee device := label device ]> nimly_devices
       else nimly_devices)
    (map snd (endpoints device)) nimly_devices.

(** The loop over [zha_gateway.devices.values()]. *)
Definition discover (zha_gateway : ZHAGateway) : gmap string pyval :=
  fold_left
    (fun nimly_devices device =>
       if is_nimly device then offer device nimly_devices else nimly_devices)
    (map snd (devices zha_gateway)) ∅.

(** [async_step_user].  [unique_id_check] is the host's answer to
    [async_set_unique_id] followed by
    [_abort_if_unique_id_configured]: the reason it aborts the flow
    with, if it does. *)
Definition async_step_user (gateway : option ZHAGateway)
  (unique_id_check : string -> option string)
  (user_input : option (gmap string string)) : step_outcome :=
  match gateway with
  | None => Returns (Abort "zha_gateway_missing")
  | Some zha_gateway =>
      let nimly_devices := discover zha_gateway in
      if (size nimly_devices =? 0)%nat
      then Returns (Abort "no_devices_found")
      else
        match user_input with
        | Some input =>
            match input !! "device" with
            | None => KeyError "device"
            | Some selected_ieee =>
                match unique_id_check selected_ieee with
                | Some reason => Returns (Abort reason)
                | None =>
                    Returns (CreateEntry ("Nimly Touch Pro " ++ selected_ieee)
                                         {[ "ieee" := selected_ieee ]})
                end
            end
        | None => Returns (ShowForm "user" nimly_devices)
        end
  end.

Definition async_step_import := async_step_user.

End ConfigFlow.

(** ** __init__.py *)

Module Integration.

Definition DOMAIN : string := "nimly_pro".

Record ConfigEntry : Type := {
  entry_id : string;
  data : gmap string string
}.

(** A call returns a value or raises [KeyError]. *)
Inductive call (A : Type) : Type :=
| Returns (a : A)
| KeyError (key : string).
Arguments Returns {A} a.
Arguments KeyError {A} key.

(** [async_setup_entry] on [hass.data]; forwarding the set-up to the
    platforms does not touch [hass.data]. *)
Definition async_setup_entry (hass_data : gmap string (gmap string (gmap string string)))
  (entry : ConfigEntry) : bool * gmap string (gmap string (gmap string string)) :=
  let hass_data :=
    match hass_data !! DOMAIN with
    | Some _ => hass_data
    | None => <[ DOMAIN := ∅ ]> hass_data
    end in
  let hass_data :=
    <[ DOMAIN := <[ entry_id entry := data entry ]> (default ∅ (hass_data !! DOMAIN)) ]>
      hass_data in
  (true, hass_data).

(** [async_unload_entry]; [unload_ok] is what unloading the platforms
    returned. *)
Definition async_unload_entry (unload_ok : bool)
  (hass_data : gmap string (gmap string (gmap string string)))
  (entry : ConfigEntry) : call bool * gmap string (gmap string (gmap string string)) :=
  if unload_ok
  then
    match hass_data !! DOMAIN with
    | None => (KeyError DOMAIN, hass_data)
    | Some entries =>
        match entries !! entry_id entry with
        | None => (KeyError (entry_id entry), hass_data)
        | Some _ =>
            (Returns unload_ok, <[ DOMAIN := delete (entry_id entry) entries ]> hass_data)
        end
    end
  else (Returns unload_ok, hass_data).

(** The platform set-ups read [config_entry.data["ieee"]]. *)
Definition entry_ieee (entry : ConfigEntry) : call string :=
  match data entry !! "ieee" with
  | Some address => Returns address
  | None => KeyError "ieee"
  end.

End Integration.

(** ** Further vocabulary *)

Module MoreProps.

(** The attribute id a push carries for a synchronizer: its attribute
    constant read as a hexadecimal number. *)
Definition own_id (S : Synchronizer) : Z :=
  match int16 (attribute_id S) with
  | Ok id => id
  | Raise _ => 0
  end.

Definition is_read (req : request) : bool :=
  match req with
  | ReadAttributes _ => true
  | _ => false
  end.

Definition is_command {S : Synchronizer} (ev : event S) : bool :=
  match ev with
  | Command _ => true
  | _ => false
  end.

(** The host has been handed the entity as it is now. *)
Definition in_sync {E : Type} (w : world E) : Prop :=
  last (published w) = Some (self w).

(** The events that may write the lock's last-event record: an unlock
    command whose request succeeds, and a push of raw 1 for the lock
    state. *)
Definition stamps (rem : Remote) (ev : event lock) (w : world NimlyProLock.t) : bool :=
  match ev with
  | Poll => false
  | Push attrid raw => (attrid =? 0) && eq_int raw 1
  | Command locking =>
      if locking then false
      else match unlock_door rem (sent w) with
           | Done _ => true
           | Fault => false
           end
  end.

(** The three fields of the last-event record. *)
Definition last_event_record (e : NimlyProLock.t)
  : option string * option string * option string :=
  (NimlyProLock._last_event_type e, NimlyProLock._last_event_user e,
   NimlyProLock._last_event_time e).

(** [async_added_to_hass] of each polling entity. *)
Definition activate (k : kind) (rem : Remote)
  : hosted (entity (synchronizer k)) -> res unit * hosted (entity (synchronizer k)) :=
  match k with
  | Lock => NimlyProLock.async_added_to_hass rem
  | DoorState => NimlyProDoorStateSensor.async_added_to_hass rem
  | Firmware => NimlyProFirmwareSensor.async_added_to_hass rem
  | AutoRelock => NimlyProAutoRelockTime.async_added_to_hass rem
  | LedSettings => NimlyProLEDSettingsSelect.async_added_to_hass rem
  | SoundVolume => NimlyProSoundVolumeSelect.async_added_to_hass rem
  end.

(** The registrations a completed activation leaves, in order. *)
Definition registrations (k : kind) : list registration :=
  match k with
  | Lock | DoorState => [Listener; Interval 30]
  | Firmware => [Interval 60]
  | AutoRelock | LedSettings | SoundVolume => [Listener; Interval 60]
  end.

Definition is_selector (k : kind) : bool :=
  match k with
  | LedSettings | SoundVolume => true
  | _ => false
  end.

(** What reaches the last-user sensor: a timer tick or a push. *)
Inductive last_user_event : Type :=
| Tick
| Report (attrid : Z) (value : pyval).

Definition last_user_handle (ev : last_user_event) : M NimlyProLastUserSensor.t unit :=
  match ev with
  | Tick => NimlyProLastUserSensor._async_update
  | Report attrid value => NimlyProLastUserSensor.attribute_updated attrid value
  end.

Fixpoint last_user_run (evs : list last_user_event)
  (w : world NimlyProLastUserSensor.t) : world NimlyProLastUserSensor.t :=
  match evs with
  | [] => w
  | ev :: evs' => last_user_run evs' (snd (last_user_handle ev w))
  end.

(** No cluster of the device has a string for its id (zigpy's cluster
    ids are integers). *)
Definition no_string_ids (d : Zha.ZHADevice) : Prop :=
  forall id (endpoint : Zha.Endpoint) key (cluster : Zha.Cluster) s,
    In (id, endpoint) (Zha.endpoints d) ->
    In (key, cluster) (Zha.in_clusters endpoint ++ Zha.out_clusters endpoint)%list ->
    Zha.cluster_id cluster <> PyStr s.

(** The last five characters of a string, last first. *)
Definition tail5 (s : string) : list ascii :=
  firstn 5 (rev (list_ascii_of_string s)).

(** A lock on endpoint 11, with a door-lock input cluster and an OTA
    output cluster of the given ids, and the gateway that knows it. *)
Definition sample_cluster (id : pyval) : Zha.Cluster := {|
  Zha.cluster_id := id;
  Zha.operations := steady ∅
|}.

Definition sample_endpoint (door_id ota_id : pyval) : Zha.Endpoint := {|
  Zha.endpoint_id := 11;
  Zha.in_clusters := [(257, sample_cluster door_id)];
  Zha.out_clusters := [(25, sample_cluster ota_id)]
|}.

Definition sample_device (door_id ota_id : pyval) : Zha.ZHADevice := {|
  Zha.name := PyStr "Front door";
  Zha.ieee := "f4:ce:36:00:00:00:00:01";
  Zha.manufacturer := PyStr "Onesti Products AS";
  Zha.model := PyStr "NimlyPRO";
  Zha.endpoints :=
    [(0, {| Zha.endpoint_id := 0; Zha.in_clusters := []; Zha.out_clusters := [] |});
     (11, sample_endpoint door_id ota_id)]
|}.

Definition sample_gateway (door_id ota_id : pyval) : Zha.ZHAGateway := {|
  Zha.devices := [("f4:ce:36:00:00:00:00:01", sample_device door_id ota_id)]
|}.

End MoreProps.
Export MoreProps.

(** * Properties *)

(** ** Proof automation *)

Ltac unfold_methods :=
  unfold NimlyProLock._update_lock_state, NimlyProLock._update_event_data,
    NimlyProLock.async_lock, NimlyProLock.async_unlock,
    NimlyProLock.attribute_updated,
    NimlyProDoorStateSensor._update_door_state,
    NimlyProDoorStateSensor.attribute_updated,
    NimlyProFirmwareSensor._update_firmware_version,
    NimlyProAutoRelockTime._update_auto_relock_time,
    NimlyProAutoRelockTime.async_set_native_value,
    NimlyProAutoRelockTime.attribute_updated,
    Select._update, Select.async_select_option, Select.attribute_updated,
    Select.is_valid_index,
    mbind, mret, M_bind, M_ret,
    try_except, when, log, bind, ret, lift, get, modify, now,
    async_write_ha_state, await_read, await_write, await in *.

Ltac unfold_policies :=
  unfold lock_decode, door_decode, firmware_decode, relock_decode,
    selector_decode, selector_encode, relock_encode, dotted,
    between, is_not_None in *.

(** Runs a method symbolically: every test the code makes becomes a
    case. *)
Ltac crunch :=
  unfold_methods; unfold_policies; cbn in *;
  repeat (case_match; simplify_eq/=); auto; try (intuition congruence).

(** ** Polling *)

Lemma reconcile_spec (k : kind) (rem : Remote) (w : world (entity (synchronizer k))) :
  reconcile_post (synchronizer k) rem w (reconcile (synchronizer k) rem w).
Proof.
  destruct k; unfold reconcile_post; cbn; crunch.
Qed.

(** C1. A poll whose read raises the communication fault keeps the
    current value and clears the availability flag; a poll whose read
    returns the attribute stores what the decode policy makes of the raw
    value and sets the flag; either way the poll returns normally and its
    last act is to publish the entity as it then is. *)
Theorem reconcile_outcomes (k : kind) (rem : Remote)
  (w : world (entity (synchronizer k))) :
  let S := synchronizer k in
  let r := reconcile S rem w in
  (read_attributes rem (sent w) [attribute_id S] = Fault ->
   fst r = Ok tt /\
   current_value S (self (snd r)) = current_value S (self w) /\
   availability S (self (snd r)) = false /\
   published (snd r) = (published w ++ [self (snd r)])%list)
  /\
  (forall (m : gmap string pyval) raw o,
   read_attributes rem (sent w) [attribute_id S] = Done m ->
   m !! attribute_id S = Some raw ->
   decoder S (self w) raw = Ok o ->
   fst r = Ok tt /\
   current_value S (self (snd r)) = default (current_value S (self w)) o /\
   availability S (self (snd r)) = true /\
   published (snd r) = (published w ++ [self (snd r)])%list).
Proof.
  cbv zeta. pose proof (reconcile_spec k rem w) as H.
  unfold reconcile_post in H. cbv zeta in H. split.
  - intros Hf. rewrite Hf in H. exact H.
  - intros m raw o Hm Hraw Ho. rewrite Hm, Hraw, Ho in H. exact H.
Qed.

Lemma reconcile_outcomes_witness :
  availability lock (self (snd (reconcile lock unreachable (fresh lock)))) = false /\
  current_value lock
    (self (snd (reconcile lock (steady {[ ATTR_LOCK_STATE := PyInt 1 ]}) (fresh lock))))
  = Some STATE_LOCKED.
Proof.
  split.
  - apply (proj1 (reconcile_outcomes Lock unreachable (fresh lock))).
    reflexivity.
  - apply (proj2 (reconcile_outcomes Lock (steady {[ ATTR_LOCK_STATE := PyInt 1 ]})
                    (fresh lock))
             {[ ATTR_LOCK_STATE := PyInt 1 ]} (PyInt 1) (Some (Some STATE_LOCKED))).
    + reflexivity.
    + apply lookup_singleton_eq.
    + reflexivity.
Defined.

(** C9. A poll whose read returns a mapping without the attribute
    keeps the current value and the availability flag as they were,
    and still publishes. *)
Theorem reconcile_attribute_absent (k : kind) (rem : Remote)
  (w : world (entity (synchronizer k))) (m : gmap string pyval) :
  let S := synchronizer k in
  let r := reconcile S rem w in
  read_attributes rem (sent w) [attribute_id S] = Done m ->
  m !! attribute_id S = None ->
  fst r = Ok tt /\
  current_value S (self (snd r)) = current_value S (self w) /\
  availability S (self (snd r)) = availability S (self w) /\
  published (snd r) = (published w ++ [self (snd r)])%list.
Proof.
  cbv zeta. intros Hm Hnone. pose proof (reconcile_spec k rem w) as H.
  unfold reconcile_post in H. cbv zeta in H.
  rewrite Hm, Hnone in H. exact H.
Qed.

Lemma reconcile_attribute_absent_witness :
  let w := World (NimlyProFirmwareSensor.Build "1.2.3.4" false) [] [] 0%nat in
  let r := reconcile firmware (steady ∅) w in
  fst r = Ok tt /\
  current_value firmware (self (snd r)) = "1.2.3.4" /\
  availability firmware (self (snd r)) = false /\
  published (snd r) = [self (snd r)].
Proof.
  apply (reconcile_attribute_absent Firmware (steady ∅)
           (World (NimlyProFirmwareSensor.Build "1.2.3.4" false) [] [] 0%nat) ∅).
  - reflexivity.
  - apply lookup_empty.
Defined.

(** ** Availability *)

Lemma poll_availability (k : kind) (rem : Remote)
  (w : world (entity (synchronizer k))) :
  let S := synchronizer k in
  availability S (self (snd (reconcile S rem w))) =
  default (availability S (self w)) (poll_verdict S rem w).
Proof.
  pose proof (reconcile_spec k rem w) as H. revert H.
  unfold reconcile_post, poll_verdict. cbv zeta.
  destruct (read_attributes rem (sent w) [attribute_id (synchronizer k)]) as [m|].
  - destruct (m !! attribute_id (synchronizer k)) as [raw|].
    + destruct (decoder (synchronizer k) (self w) raw) as [o|e]; cbn.
      * intros (_ & _ & Ha & _). exact Ha.
      * intros (_ & Hs & _). now rewrite Hs.
    + cbn. intros (_ & _ & Ha & _). exact Ha.
  - cbn. intros (_ & _ & Ha & _). exact Ha.
Qed.

Lemma push_availability (k : kind) (rem : Remote) (attrid : Z) (value : pyval)
  (w : world (entity (synchronizer k))) :
  let S := synchronizer k in
  availability S (self (snd (on_push S rem attrid value w))) =
  availability S (self w).
Proof.
  destruct k; cbn; crunch.
Qed.

Lemma command_availability (k : kind) (rem : Remote)
  (r : intent (synchronizer k)) (w : world (entity (synchronizer k))) :
  let S := synchronizer k in
  availability S (self (snd (request_change S rem r w))) =
  availability S (self w).
Proof.
  destruct k; cbn in *; try destruct r; crunch.
Qed.

(** C2, as the code has it.  The availability flag is decided by the
    polls alone: a poll clears it when the read faults, sets it when
    the attribute comes back and is decoded, and keeps it otherwise;
    a command keeps it whether its remote request faults or succeeds,
    and so does a push.  Hence along any run the flag is the verdict
    of the last poll that gave one. *)
Theorem availability_follows_polls (k : kind) (rem : Remote) :
  let S := synchronizer k in
  (forall (r : intent S) w,
     availability S (self (snd (request_change S rem r w))) =
     availability S (self w)) /\
  (forall attrid value w,
     availability S (self (snd (on_push S rem attrid value w))) =
     availability S (self w)) /\
  (forall w,
     availability S (self (snd (reconcile S rem w))) =
     default (availability S (self w)) (poll_verdict S rem w)) /\
  (forall evs w,
     availability S (self (run S rem evs w)) =
     availability_after S rem evs w (availability S (self w))).
Proof.
  cbv zeta. repeat split.
  - intros r w. apply command_availability.
  - intros attrid value w. apply push_availability.
  - intros w. apply poll_availability.
  - induction evs as [|ev evs IH]; intros w; cbn [run availability_after].
    + reflexivity.
    + rewrite IH. f_equal. destruct ev; cbn [handle].
      * apply poll_availability.
      * apply push_availability.
      * apply command_availability.
Qed.

(** C2 fails as stated: the LED selector is asked for "High" while the
    cluster is out of reach.  The write of index 3 to attribute 0x22
    faults, the method returns, and the availability flag is still
    set. *)
Lemma write_fault_leaves_available :
  request_change led_settings unreachable "High" (fresh led_settings) =
    (Ok tt, World (Select.Build four_levels 0 true)
                  [WriteAttributes {[ 34 := PyInt 3 ]}] [] 0%nat) /\
  answer unreachable [] (WriteAttributes {[ 34 := PyInt 3 ]}) = Fault /\
  availability led_settings (Select.Build four_levels 0 true) <> false.
Proof.
  repeat split. discriminate.
Qed.

(** ** Commands *)

(** C3. A command issues one remote request, never a read.  When the
    request faults, the method returns with the entity exactly as it
    was and nothing published; when it succeeds, the current value is
    the requested one and the entity is published, with no further
    request. *)
Theorem request_change_outcomes (k : kind) (rem : Remote)
  (r : intent (synchronizer k)) (w : world (entity (synchronizer k)))
  (req : request) (d : domain (synchronizer k)) :
  let S := synchronizer k in
  let out := request_change S rem r w in
  encoder S (self w) r = Ok req ->
  target S (self w) r = Ok d ->
  (forall ids, req <> ReadAttributes ids) /\
  (answer rem (sent w) req = Fault ->
   out = (Ok tt, World (self w) (sent w ++ [req]) (published w) (ticks w))) /\
  (answer rem (sent w) req = Done tt ->
   fst out = Ok tt /\
   current_value S (self (snd out)) = d /\
   published (snd out) = (published w ++ [self (snd out)])%list /\
   sent (snd out) = (sent w ++ [req])%list).
Proof.
  destruct k; cbn in *; try destruct r; intros Henc Htgt;
    unfold_methods; unfold_policies; cbn in *;
    repeat (case_match; simplify_eq/=);
    (split; [intros ids; discriminate|]);
    (split; intros Hans; cbn in Hans; rewrite ?Hans; cbn; auto;
     try discriminate).
Qed.

Lemma request_change_outcomes_witness :
  request_change led_settings unreachable "High" (fresh led_settings) =
    (Ok tt, World (initial led_settings)
                  [WriteAttributes {[ 34 := PyInt 3 ]}] [] 0%nat) /\
  current_value led_settings
    (self (snd (request_change led_settings (steady ∅) "High" (fresh led_settings))))
  = 3.
Proof.
  split.
  - apply (request_change_outcomes LedSettings unreachable "High"
             (fresh led_settings) (WriteAttributes {[ 34 := PyInt 3 ]}) 3
             eq_refl eq_refl).
    reflexivity.
  - apply (request_change_outcomes LedSettings (steady ∅) "High"
             (fresh led_settings) (WriteAttributes {[ 34 := PyInt 3 ]}) 3
             eq_refl eq_refl).
    reflexivity.
Defined.

(** ** The firmware version *)

Lemma land_255_byte (v n : Z) :
  0 <= n -> Z.land (Z.shiftr v n) 255 = (v / 2 ^ n) mod 256.
Proof.
  intros Hn. change 255 with (Z.ones 8).
  rewrite Z.land_ones by lia. now rewrite Z.shiftr_div_pow2 by lia.
Qed.

Lemma firmware_poll_value (rem : Remote) (w : world NimlyProFirmwareSensor.t)
  (m : gmap string pyval) (raw : pyval) :
  read_attributes rem (sent w) [ATTR_CURRENT_FILE_VERSION] = Done m ->
  m !! ATTR_CURRENT_FILE_VERSION = Some raw ->
  NimlyProFirmwareSensor._attr_native_value
    (self (snd (NimlyProFirmwareSensor._update_firmware_version rem w)))
  = firmware_decode raw.
Proof.
  intros Hm Hraw. pose proof (reconcile_spec Firmware rem w) as H.
  unfold reconcile_post in H. cbn in H. rewrite Hm, Hraw in H.
  destruct H as (_ & Hv & _). exact Hv.
Qed.

(** C4. The value the firmware sensor shows after a poll is a function
    of the raw value alone.  For an integer [v] of 32 bits it is the
    four numerals [(v>>24)&255], [(v>>16)&255], [(v>>8)&255] and
    [v&255] joined by dots, and these are the bytes of [v], most
    significant first; any value that is not an integer is shown in its
    string form. *)
Theorem firmware_version_decoded (rem : Remote)
  (w : world NimlyProFirmwareSensor.t) (m : gmap string pyval) (raw : pyval) :
  read_attributes rem (sent w) [ATTR_CURRENT_FILE_VERSION] = Done m ->
  m !! ATTR_CURRENT_FILE_VERSION = Some raw ->
  let shown :=
    NimlyProFirmwareSensor._attr_native_value
      (self (snd (NimlyProFirmwareSensor._update_firmware_version rem w))) in
  shown = firmware_decode raw /\
  match raw with
  | PyInt v =>
      0 <= v <= 2 ^ 32 - 1 ->
      let b3 := Z.land (Z.shiftr v 24) 255 in
      let b2 := Z.land (Z.shiftr v 16) 255 in
      let b1 := Z.land (Z.shiftr v 8) 255 in
      let b0 := Z.land v 255 in
      shown = format_int b3 ++ "." ++ format_int b2 ++ "." ++
              format_int b1 ++ "." ++ format_int b0 /\
      (0 <= b3 <= 255 /\ 0 <= b2 <= 255 /\ 0 <= b1 <= 255 /\ 0 <= b0 <= 255) /\
      v = b3 * 2 ^ 24 + b2 * 2 ^ 16 + b1 * 2 ^ 8 + b0
  | other => isinstance_int other = false /\ shown = str other
  end.
Proof.
  intros Hm Hraw shown.
  assert (Hshown : shown = firmware_decode raw)
    by (apply (firmware_poll_value rem w m raw Hm Hraw)).
  split; [exact Hshown|].
  destruct raw as [|v|s]; [split; [reflexivity|exact Hshown]| |
                           split; [reflexivity|exact Hshown]].
  intros Hv b3 b2 b1 b0. split; [exact Hshown|].
  assert (E3 : b3 = (v / 2 ^ 24) mod 256) by (apply land_255_byte; lia).
  assert (E2 : b2 = (v / 2 ^ 16) mod 256) by (apply land_255_byte; lia).
  assert (E1 : b1 = (v / 2 ^ 8) mod 256) by (apply land_255_byte; lia).
  assert (E0 : b0 = v mod 256).
  { unfold b0. rewrite <- (Z.shiftr_0_r v) at 1.
    rewrite land_255_byte by lia. now rewrite Z.pow_0_r, Z.div_1_r. }
  clearbody b3 b2 b1 b0.
  change (2 ^ 32) with 4294967296 in Hv.
  change (2 ^ 24) with 16777216 in *. change (2 ^ 16) with 65536 in *.
  change (2 ^ 8) with 256 in *.
  subst b3 b2 b1 b0. split; [repeat split|]; Z.div_mod_to_equations; lia.
Qed.

Lemma firmware_version_decoded_witness :
  let rem := steady {[ ATTR_CURRENT_FILE_VERSION := PyInt 16909060 ]} in
  NimlyProFirmwareSensor._attr_native_value
    (self (snd (NimlyProFirmwareSensor._update_firmware_version rem (fresh firmware))))
  = "1.2.3.4" /\
  16909060 = 1 * 2 ^ 24 + 2 * 2 ^ 16 + 3 * 2 ^ 8 + 4.
Proof.
  intros rem.
  destruct (firmware_version_decoded rem (fresh firmware)
              {[ ATTR_CURRENT_FILE_VERSION := PyInt 16909060 ]} (PyInt 16909060)
              eq_refl (lookup_singleton_eq _ _)) as [Hshown Hbytes].
  assert (Hrange : 0 <= 16909060 <= 2 ^ 32 - 1) by (cbn; lia).
  destruct (Hbytes Hrange) as (_ & _ & Hsum).
  split; [exact Hshown | exact Hsum].
Defined.

(** ** Python's list operations *)

Lemma getitem_nonneg (l : list string) (i : Z) :
  0 <= i ->
  getitem l i = match nth_error l (Z.to_nat i) with
                | Some x => Ok x
                | None => Raise IndexError
                end.
Proof.
  intros Hi. unfold getitem.
  destruct (Z.ltb_spec i 0) as [?|_]; [lia|].
  destruct (Z.leb_spec 0 i) as [_|?]; [|lia]. cbn.
  destruct (Z.ltb_spec i (Z.of_nat (length l))) as [_|Hge]; [reflexivity|].
  assert (Hnone : nth_error l (Z.to_nat i) = None)
    by (apply nth_error_None; lia).
  now rewrite Hnone.
Qed.

Lemma getitem_cons_zero (a : string) (l : list string) :
  getitem (a :: l) 0 = Ok a.
Proof. now rewrite getitem_nonneg. Qed.

Lemma getitem_cons_succ (a : string) (l : list string) (j : Z) :
  0 <= j -> getitem (a :: l) (j + 1) = getitem l j.
Proof.
  intros Hj. rewrite !getitem_nonneg by lia.
  replace (Z.to_nat (j + 1)) with (S (Z.to_nat j)) by lia. reflexivity.
Qed.

Lemma getitem_In (l : list string) (i : Z) (x : string) :
  0 <= i -> getitem l i = Ok x -> In x l.
Proof.
  intros Hi. rewrite getitem_nonneg by lia.
  destruct (nth_error l (Z.to_nat i)) as [y|] eqn:Hy; [|discriminate].
  intros [= <-]. eapply nth_error_In; eauto.
Qed.

Lemma index_nonneg (l : list string) (x : string) (i : Z) :
  index l x = Ok i -> 0 <= i.
Proof.
  revert i. induction l as [|a l IH]; intros i; cbn; [discriminate|].
  destruct (String.eqb a x); [intros [= <-]; lia|].
  destruct (index l x) as [j|]; [|discriminate].
  intros [= <-]. specialize (IH j eq_refl). lia.
Qed.

(** A label missing from the list is exactly what makes [index]
    raise. *)
Lemma index_raises (l : list string) (x : string) :
  ~ In x l <-> index l x = Raise ValueError.
Proof.
  induction l as [|a l IH]; cbn.
  - split; [reflexivity | intros _ []].
  - destruct (String.eqb_spec a x) as [->|Hne].
    + split; [intros H; exfalso; apply H; now left | discriminate].
    + destruct (index l x) as [j|e] eqn:Hj.
      * split; [|discriminate]. intros H. exfalso.
        assert (Hnot : ~ In x l) by (intros Hin; apply H; now right).
        apply IH in Hnot. discriminate.
      * split.
        -- intros H. f_equal.
           assert (Hnot : ~ In x l) by (intros Hin; apply H; now right).
           apply IH in Hnot. congruence.
        -- intros [= ->] [Heq|Hin]; [congruence|].
           now apply (proj2 IH).
Qed.

(** Reading the list at the position [index] found gives the label
    back. *)
Lemma getitem_index (l : list string) (x : string) (i : Z) :
  index l x = Ok i -> getitem l i = Ok x.
Proof.
  revert i. induction l as [|a l IH]; intros i; cbn; [discriminate|].
  destruct (String.eqb_spec a x) as [->|Hne].
  - intros [= <-]. apply getitem_cons_zero.
  - destruct (index l x) as [j|] eqn:Hj; [|discriminate].
    intros [= <-]. rewrite getitem_cons_succ by (eapply index_nonneg; eauto).
    now apply IH.
Qed.

(** In a list without repetitions, [index] finds the position a
    label was read at. *)
Lemma index_getitem (l : list string) (i : Z) (x : string) :
  List.NoDup l -> 0 <= i -> getitem l i = Ok x -> index l x = Ok i.
Proof.
  intros Hnd. revert i. induction Hnd as [|a l Hnotin Hnd IH]; intros i Hi.
  - rewrite getitem_nonneg by lia. now destruct (Z.to_nat i).
  - destruct (Z.eq_dec i 0) as [->|Hnz].
    + rewrite getitem_cons_zero. intros [= <-]. cbn. now rewrite String.eqb_refl.
    + replace i with ((i - 1) + 1) by lia.
      rewrite getitem_cons_succ by lia. intros Hget. cbn.
      destruct (String.eqb_spec a x) as [->|Hne].
      * exfalso. apply Hnotin. eapply getitem_In; [|exact Hget]. lia.
      * now rewrite (IH (i - 1)) by (lia || assumption).
Qed.

(** ** Selectors *)

(** No method of a selector touches its option list. *)
Lemma selector_options_fixed (ATTR : string) (OPTIONS : list (Z * string))
  (rem : Remote) (ev : event (selector ATTR OPTIONS)) (w : world Select.t) :
  Select._attr_options (self (snd (handle (selector ATTR OPTIONS) rem ev w))) =
  Select._attr_options (self w).
Proof.
  destruct ev; cbn; crunch.
Qed.

Lemma selector_options_reachable (ATTR : string) (OPTIONS : list (Z * string))
  (rem : Remote) (evs : list (event (selector ATTR OPTIONS))) :
  Select._attr_options
    (self (run (selector ATTR OPTIONS) rem evs (fresh (selector ATTR OPTIONS)))) =
  values OPTIONS.
Proof.
  change (values OPTIONS)
    with (Select._attr_options (self (fresh (selector ATTR OPTIONS)))).
  generalize (fresh (selector ATTR OPTIONS)).
  induction evs as [|ev evs IH]; intros w; cbn [run]; [reflexivity|].
  rewrite IH. apply selector_options_fixed.
Qed.

(** C5. For both selectors, with the four options in place: an integer
    outside 0..3 that a read returns, or that is pushed for the
    selector's attribute id, leaves the current option index as it was,
    and the method returns normally; an integer within 0..3 becomes
    the index. *)
Theorem selector_index_guard (ATTR : string) (rem : Remote)
  (w : world Select.t) (i : Z) :
  ATTR = ATTR_LED_SETTINGS \/ ATTR = ATTR_SOUND_VOLUME ->
  Select._attr_options (self w) = four_levels ->
  let kept_or_applied (w' : world Select.t) :=
    (i < 0 \/ 3 < i ->
     Select._current_option_index (self w') =
     Select._current_option_index (self w)) /\
    (0 <= i <= 3 -> Select._current_option_index (self w') = i) in
  (forall m : gmap string pyval,
     read_attributes rem (sent w) [ATTR] = Done m ->
     m !! ATTR = Some (PyInt i) ->
     fst (Select._update ATTR rem w) = Ok tt /\
     kept_or_applied (snd (Select._update ATTR rem w))) /\
  (forall attrid,
     int16 ATTR = Ok attrid ->
     fst (Select.attribute_updated ATTR attrid (PyInt i) w) = Ok tt /\
     kept_or_applied (snd (Select.attribute_updated ATTR attrid (PyInt i) w))).
Proof.
  intros HATTR Hopts. cbv zeta. split.
  - intros m Hm Hraw. unfold_methods. cbn. rewrite Hm. cbn. rewrite Hraw. cbn.
    rewrite Hopts. change (Z.of_nat (length four_levels)) with 4.
    destruct (Z.leb_spec 0 i), (Z.ltb_spec i 4); cbn; repeat split; intros; lia.
  - intros attrid Hid. unfold_methods. cbn. rewrite Hid. cbn.
    rewrite Z.eqb_refl. rewrite Hopts.
    change (Z.of_nat (length four_levels)) with 4.
    destruct (Z.leb_spec 0 i), (Z.ltb_spec i 4); cbn; repeat split; intros; lia.
Qed.

Lemma selector_index_guard_witness :
  let w := World (Select.Build four_levels 2 true) [] [] 0%nat in
  Select._current_option_index
    (self (snd (Select._update ATTR_LED_SETTINGS
                  (steady {[ ATTR_LED_SETTINGS := PyInt 7 ]}) w))) = 2 /\
  Select._current_option_index
    (self (snd (Select.attribute_updated ATTR_SOUND_VOLUME 36 (PyInt 3) w))) = 3.
Proof.
  intros w. split.
  - destruct (selector_index_guard ATTR_LED_SETTINGS
                (steady {[ ATTR_LED_SETTINGS := PyInt 7 ]}) w 7
                (or_introl eq_refl) eq_refl) as [Hpoll _].
    destruct (Hpoll {[ ATTR_LED_SETTINGS := PyInt 7 ]} eq_refl
                (lookup_singleton_eq _ _)) as (_ & Hout & _).
    apply Hout. right. lia.
  - destruct (selector_index_guard ATTR_SOUND_VOLUME unreachable w 3
                (or_intror eq_refl) eq_refl) as [_ Hpush].
    destruct (Hpush 36 eq_refl) as (_ & _ & Hin).
    apply Hin. lia.
Defined.

Lemma four_levels_NoDup : List.NoDup four_levels.
Proof.
  unfold four_levels.
  repeat (constructor; [cbn; intuition discriminate|]).
  constructor.
Qed.

(** C6. For both selectors and every index [i] in 0..3, decoding and
    encoding are inverse through the entity's own methods.  The option
    table holds a label under [i]; a poll that reads raw [i] makes the
    selector show that label; and the command for that label writes
    raw [i] to the selector's attribute, whatever the index was
    before, and leaves the selector at [i] showing the label once the
    write has succeeded. *)
Theorem selector_label_roundtrip (ATTR : string) (OPTIONS : list (Z * string))
  (i : Z) :
  (ATTR = ATTR_LED_SETTINGS /\ OPTIONS = LED_SETTINGS_OPTIONS) \/
  (ATTR = ATTR_SOUND_VOLUME /\ OPTIONS = Select.SOUND_VOLUME_OPTIONS) ->
  0 <= i <= 3 ->
  let e := Select.set_current_option_index i (Select.__init__ OPTIONS) in
  exists label id,
    dict_get OPTIONS i = Some label /\
    Select.current_option e = Ok label /\
    index (Select._attr_options e) label = Ok i /\
    int16 ATTR = Ok id /\
    (forall rem (w : world Select.t) (m : gmap string pyval),
       Select._attr_options (self w) = values OPTIONS ->
       read_attributes rem (sent w) [ATTR] = Done m ->
       m !! ATTR = Some (PyInt i) ->
       Select.current_option (self (snd (Select._update ATTR rem w))) = Ok label) /\
    (forall rem (w : world Select.t),
       Select._attr_options (self w) = values OPTIONS ->
       let out := Select.async_select_option ATTR rem label w in
       fst out = Ok tt /\
       sent (snd out) = (sent w ++ [WriteAttributes {[ id := PyInt i ]}])%list /\
       (write_attributes rem (sent w) {[ id := PyInt i ]} = Done tt ->
        Select._current_option_index (self (snd out)) = i /\
        Select.current_option (self (snd out)) = Ok label)).
Proof.
  intros HOPT Hi e.
  assert (Hvalues : values OPTIONS = four_levels)
    by (destruct HOPT as [[_ ->]|[_ ->]]; reflexivity).
  assert (Hget : exists label, dict_get OPTIONS i = Some label /\
                               getitem four_levels i = Ok label).
  { assert (Hcases : i = 0 \/ i = 1 \/ i = 2 \/ i = 3) by lia.
    destruct HOPT as [[_ ->]|[_ ->]];
      destruct Hcases as [ -> | [ -> | [ -> | -> ] ] ]; eexists; split; reflexivity. }
  destruct Hget as (label & Hdict & Hlabel).
  assert (Hindex : index four_levels label = Ok i)
    by (apply index_getitem; [apply four_levels_NoDup | lia | exact Hlabel]).
  assert (Hid : exists id, int16 ATTR = Ok id)
    by (destruct HOPT as [[-> _]|[-> _]]; eexists; reflexivity).
  destruct Hid as (id & Hid).
  exists label, id.
  split; [exact Hdict|].
  split; [unfold Select.current_option; cbn; rewrite Hvalues; exact Hlabel|].
  split; [cbn; rewrite Hvalues; exact Hindex|].
  split; [exact Hid|]. split.
  - intros rem w m Hopts Hm Hraw.
    unfold Select.current_option. unfold_methods. cbn.
    rewrite Hm. cbn. rewrite Hraw. cbn. rewrite Hopts, Hvalues.
    change (Z.of_nat (length four_levels)) with 4.
    destruct (Z.leb_spec 0 i), (Z.ltb_spec i 4); try lia. cbn.
    rewrite Hopts, Hvalues. exact Hlabel.
  - intros rem w Hopts. cbv zeta.
    unfold Select.current_option. unfold_methods. cbn.
    rewrite Hopts, Hvalues, Hindex. cbn. rewrite Hid. cbn.
    destruct (write_attributes rem (sent w) {[ id := PyInt i ]}) as [[]|]; cbn.
    + repeat split. rewrite Hopts, Hvalues. exact Hlabel.
    + repeat split; discriminate.
Qed.

Lemma selector_label_roundtrip_witness :
  sent (snd (Select.async_select_option ATTR_LED_SETTINGS (steady ∅) "High"
               (fresh led_settings)))
  = [WriteAttributes {[ 34 := PyInt 3 ]}] /\
  Select.current_option
    (self (snd (Select._update ATTR_LED_SETTINGS
                  (steady {[ ATTR_LED_SETTINGS := PyInt 3 ]}) (fresh led_settings))))
  = Ok "High".
Proof.
  destruct (selector_label_roundtrip ATTR_LED_SETTINGS LED_SETTINGS_OPTIONS 3
              (or_introl (conj eq_refl eq_refl)))
    as (label & id & Hdict & _ & _ & Hid & Hdecode & Hencode); [lia|].
  injection Hdict as <-. injection Hid as <-. split.
  - apply (Hencode (steady ∅) (fresh led_settings) eq_refl).
  - apply (Hdecode (steady {[ ATTR_LED_SETTINGS := PyInt 3 ]}) (fresh led_settings)
             {[ ATTR_LED_SETTINGS := PyInt 3 ]} eq_refl eq_refl).
    apply lookup_singleton_eq.
Defined.

(** C7 fails as stated: the relock entity is asked for 5000 seconds,
    above its declared maximum of 3600.  Nothing is raised: 5000 is
    written to attribute 0x23, stored and published. *)
Lemma relock_out_of_range_written :
  let e' := NimlyProAutoRelockTime.Build 0 3600 1
              (NimlyProAutoRelockTime.Float (Finite (5000 # 1))) true in
  request_change auto_relock (steady ∅) (Finite (5000 # 1)) (fresh auto_relock) =
    (Ok tt, World e' [WriteAttributes {[ 35 := PyInt 5000 ]}] [e'] 0%nat) /\
  NimlyProAutoRelockTime._attr_native_max_value (initial auto_relock) < 5000.
Proof.
  split; [reflexivity | cbn; lia].
Qed.

(** C7, as the code has it.  A selector looks the label up before it
    does anything else: a label that is not in its option list raises
    [ValueError] to the caller with no request sent, nothing stored
    and nothing published.  The lock accepts either intent:
    [async_lock] and [async_unlock] never raise and always send their
    command.  The relock entity checks no range: for every finite
    number, within its declared bounds or not, it returns and sends
    the write of the integer part.  Only a number without an integer
    part is refused, by [int] itself: a NaN raises [ValueError] and an
    infinity [OverflowError] to the caller, with no request sent,
    nothing stored and nothing published. *)
Theorem validation_before_write (rem : Remote) :
  (forall ATTR (w : world Select.t) label,
     ~ In label (Select._attr_options (self w)) ->
     Select.async_select_option ATTR rem label w = (Raise ValueError, w)) /\
  (forall w : world NimlyProLock.t,
     fst (NimlyProLock.async_lock rem w) = Ok tt /\
     sent (snd (NimlyProLock.async_lock rem w)) = (sent w ++ [LockDoor])%list /\
     fst (NimlyProLock.async_unlock rem w) = Ok tt /\
     sent (snd (NimlyProLock.async_unlock rem w)) = (sent w ++ [UnlockDoor])%list) /\
  (forall (w : world NimlyProAutoRelockTime.t) (x : Q),
     let out := NimlyProAutoRelockTime.async_set_native_value rem (Finite x) w in
     fst out = Ok tt /\
     sent (snd out) =
       (sent w ++ [WriteAttributes {[ 35 := PyInt (truncate x) ]}])%list) /\
  (forall (w : world NimlyProAutoRelockTime.t),
     NimlyProAutoRelockTime.async_set_native_value rem NaN w =
       (Raise ValueError, w)) /\
  (forall (w : world NimlyProAutoRelockTime.t) (negative : bool),
     NimlyProAutoRelockTime.async_set_native_value rem (Infinity negative) w =
       (Raise OverflowError, w)).
Proof.
  split; [|split; [|split; [|split]]].
  - intros ATTR w label Hnot. apply index_raises in Hnot.
    unfold Select.async_select_option, mbind, M_bind, bind, get, lift.
    rewrite Hnot. now destruct w.
  - intros w. unfold_methods. cbn.
    destruct (lock_door rem (sent w)), (unlock_door rem (sent w)); cbn; auto.
  - intros w x. unfold_methods.
    change (int16 ATTR_AUTO_RELOCK_TIME) with (Ok 35). cbn.
    destruct (write_attributes rem (sent w) _); cbn; auto.
  - intros w. destruct w. reflexivity.
  - intros w negative. destruct w. reflexivity.
Qed.

Lemma validation_before_write_witness :
  Select.async_select_option ATTR_LED_SETTINGS (steady ∅) "Max" (fresh led_settings)
  = (Raise ValueError, fresh led_settings).
Proof.
  apply (proj1 (validation_before_write (steady ∅))).
  cbn. intuition discriminate.
Defined.

(** ** The relock time *)

Lemma relock_bounds_fixed (rem : Remote) (ev : event auto_relock)
  (w : world NimlyProAutoRelockTime.t) :
  let e' := self (snd (handle auto_relock rem ev w)) in
  NimlyProAutoRelockTime._attr_native_min_value e' =
    NimlyProAutoRelockTime._attr_native_min_value (self w) /\
  NimlyProAutoRelockTime._attr_native_max_value e' =
    NimlyProAutoRelockTime._attr_native_max_value (self w).
Proof.
  destruct ev as [|attrid raw|x]; [| |destruct x]; cbn; crunch.
Qed.

Lemma relock_run_bounds_fixed (rem : Remote) (evs : list (event auto_relock))
  (w : world NimlyProAutoRelockTime.t) :
  let e' := self (run auto_relock rem evs w) in
  NimlyProAutoRelockTime._attr_native_min_value e' =
    NimlyProAutoRelockTime._attr_native_min_value (self w) /\
  NimlyProAutoRelockTime._attr_native_max_value e' =
    NimlyProAutoRelockTime._attr_native_max_value (self w).
Proof.
  cbv zeta. revert w. induction evs as [|ev evs IH]; intros w; cbn [run];
    [split; reflexivity|].
  destruct (IH (snd (handle auto_relock rem ev w))) as [Hlo Hhi].
  destruct (relock_bounds_fixed rem ev w) as [Hlo' Hhi']. cbv zeta in Hlo', Hhi'.
  change (entity auto_relock) with NimlyProAutoRelockTime.t in *.
  split; congruence.
Qed.

Lemma relock_step_within (rem : Remote) (ev : event auto_relock)
  (w : world NimlyProAutoRelockTime.t) :
  let lo := NimlyProAutoRelockTime._attr_native_min_value (self w) in
  let hi := NimlyProAutoRelockTime._attr_native_max_value (self w) in
  within_bounds (self w) ->
  reads_within lo hi rem ->
  event_within lo hi ev ->
  within_bounds (self (snd (handle auto_relock rem ev w))).
Proof.
  cbv zeta. intros Hw Hreads Hev. destruct ev as [|attrid raw|x]; cbn in *.
  - unfold_methods. cbn.
    destruct (read_attributes rem (sent w) [ATTR_AUTO_RELOCK_TIME])
      as [m|] eqn:Hm; cbn; [|exact Hw].
    destruct (m !! ATTR_AUTO_RELOCK_TIME) as [raw|] eqn:Hraw; cbn; [|exact Hw].
    specialize (Hreads _ _ _ Hm Hraw).
    destruct raw; cbn in *; [exact Hw | exact Hreads | contradiction].
  - unfold_methods. change (int16 ATTR_AUTO_RELOCK_TIME) with (Ok 35). cbn.
    destruct (attrid =? 35); cbn; [|exact Hw].
    destruct raw; cbn in *; [exact Hw | exact Hev | contradiction].
  - destruct x as [x| |negative]; try contradiction.
    unfold_methods. change (int16 ATTR_AUTO_RELOCK_TIME) with (Ok 35). cbn.
    destruct (write_attributes rem (sent w) _); cbn; [exact Hev | exact Hw].
Qed.

Lemma relock_run_within (rem : Remote) (evs : list (event auto_relock))
  (w : world NimlyProAutoRelockTime.t) :
  let lo := NimlyProAutoRelockTime._attr_native_min_value (self w) in
  let hi := NimlyProAutoRelockTime._attr_native_max_value (self w) in
  within_bounds (self w) ->
  reads_within lo hi rem ->
  Forall (event_within lo hi) evs ->
  within_bounds (self (run auto_relock rem evs w)).
Proof.
  cbv zeta. revert w. induction evs as [|ev evs IH]; intros w Hw Hreads Hevs;
    cbn [run]; [exact Hw|].
  apply Forall_cons in Hevs. destruct Hevs as [Hev Hevs].
  destruct (relock_bounds_fixed rem ev w) as [Hlo Hhi]. cbv zeta in Hlo, Hhi.
  change (entity auto_relock) with NimlyProAutoRelockTime.t in *.
  apply IH.
  - now apply relock_step_within.
  - now rewrite Hlo, Hhi.
  - now rewrite Hlo, Hhi.
Qed.

(** C8 fails as stated: the cluster reports a relock time of 5000
    seconds.  The poll stores the 5000 as it came, above the declared
    maximum of 3600. *)
Lemma relock_read_not_clamped :
  let rem := steady {[ ATTR_AUTO_RELOCK_TIME := PyInt 5000 ]} in
  let e' := self (snd (reconcile auto_relock rem (fresh auto_relock))) in
  NimlyProAutoRelockTime._attr_native_value e' =
    NimlyProAutoRelockTime.Raw (PyInt 5000) /\
  NimlyProAutoRelockTime._attr_native_max_value e' = 3600 /\
  ~ within_bounds e'.
Proof.
  repeat split. cbv. intros [_ H]. apply H. reflexivity.
Qed.

(** C8, as the code has it.  The entity declares the bounds 0 and 3600
    and starts at 30 seconds, within them.  No run of polls, pushes
    and commands changes the bounds.  None of the three clamps: a poll
    stores the raw value the read returns, a push stores the raw value
    it carries, and a command whose write succeeds stores the number
    requested, each exactly as given and whether within the bounds or
    not.  So the stored value stays within the bounds along every run
    in which the reads, the pushes and the commands all carry values
    within them. *)
Theorem relock_seconds_within_bounds (rem : Remote) :
  let stored (w : world NimlyProAutoRelockTime.t) :=
    NimlyProAutoRelockTime._attr_native_value (self w) in
  let lower (w : world NimlyProAutoRelockTime.t) :=
    NimlyProAutoRelockTime._attr_native_min_value (self w) in
  let upper (w : world NimlyProAutoRelockTime.t) :=
    NimlyProAutoRelockTime._attr_native_max_value (self w) in
  (lower (fresh auto_relock) = 0 /\
   upper (fresh auto_relock) = 3600 /\
   stored (fresh auto_relock) = NimlyProAutoRelockTime.Raw (PyInt 30) /\
   within_bounds (initial auto_relock)) /\
  (forall evs w,
     lower (run auto_relock rem evs w) = lower w /\
     upper (run auto_relock rem evs w) = upper w) /\
  (forall w (m : gmap string pyval) raw,
     read_attributes rem (sent w) [ATTR_AUTO_RELOCK_TIME] = Done m ->
     m !! ATTR_AUTO_RELOCK_TIME = Some raw ->
     raw <> PyNone ->
     stored (snd (reconcile auto_relock rem w)) = NimlyProAutoRelockTime.Raw raw) /\
  (forall w raw,
     raw <> PyNone ->
     stored (snd (on_push auto_relock rem 35 raw w)) =
       NimlyProAutoRelockTime.Raw raw) /\
  (forall w (x : Q),
     write_attributes rem (sent w) {[ 35 := PyInt (truncate x) ]} = Done tt ->
     stored (snd (request_change auto_relock rem (Finite x) w)) =
       NimlyProAutoRelockTime.Float (Finite x)) /\
  (forall evs w,
     within_bounds (self w) ->
     reads_within (lower w) (upper w) rem ->
     Forall (event_within (lower w) (upper w)) evs ->
     within_bounds (self (run auto_relock rem evs w))).
Proof.
  cbv zeta. split; [|split; [|split; [|split; [|split]]]].
  - unfold within_bounds. cbn. unfold DEFAULT_AUTO_RELOCK_TIME.
    repeat split; lia.
  - intros evs w. apply relock_run_bounds_fixed.
  - intros w m raw Hm Hraw Hnone. cbn in *. unfold_methods. cbn in *.
    rewrite Hm. cbn. rewrite Hraw. cbn. now destruct raw.
  - intros w raw Hnone. cbn. unfold_methods.
    change (int16 ATTR_AUTO_RELOCK_TIME) with (Ok 35). cbn. now destruct raw.
  - intros w x. cbn [request_change auto_relock]. unfold_methods.
    change (int16 ATTR_AUTO_RELOCK_TIME) with (Ok 35). cbn -[truncate].
    match goal with
    | |- context [write_attributes rem ?h ?attrs] =>
        destruct (write_attributes rem h attrs) as [[]|]
    end; [reflexivity | discriminate].
  - intros evs w. apply relock_run_within.
Qed.

Lemma relock_seconds_within_bounds_witness :
  within_bounds
    (self (run auto_relock (steady {[ ATTR_AUTO_RELOCK_TIME := PyInt 45 ]})
             [@Poll auto_relock; Push 35 (PyInt 60);
              @Command auto_relock (Finite (90 # 1))] (fresh auto_relock))) /\
  NimlyProAutoRelockTime._attr_native_value
    (self (snd (request_change auto_relock (steady ∅) (Finite (7200 # 1))
                  (fresh auto_relock)))) =
  NimlyProAutoRelockTime.Float (Finite (7200 # 1)).
Proof.
  split.
  - apply (proj2 (proj2 (proj2 (proj2 (proj2
             (relock_seconds_within_bounds
                (steady {[ ATTR_AUTO_RELOCK_TIME := PyInt 45 ]}))))))
             [@Poll auto_relock; Push 35 (PyInt 60);
              @Command auto_relock (Finite (90 # 1))]
             (fresh auto_relock)).
    + unfold within_bounds. cbn. unfold DEFAULT_AUTO_RELOCK_TIME. lia.
    + intros history m raw [= <-] Hraw.
      rewrite lookup_singleton_eq in Hraw. injection Hraw as <-. cbn. lia.
    + repeat constructor; cbn; try lia; unfold Qle; cbn; lia.
  - apply (proj1 (proj2 (proj2 (proj2 (proj2
             (relock_seconds_within_bounds (steady ∅))))))
             (fresh auto_relock) (7200 # 1)).
    reflexivity.
Defined.

(** ** What changes the current value *)

(** The current value moves only when a value is delivered: by a read
    that returns the attribute, by a push for the entity's attribute
    id, or by a command whose request succeeds. *)
Lemma undelivered_keeps_value (k : kind) (rem : Remote)
  (ev : event (synchronizer k)) (w : world (entity (synchronizer k))) :
  let S := synchronizer k in
  delivers S rem ev w = false ->
  current_value S (self (snd (handle S rem ev w))) = current_value S (self w).
Proof.
  destruct k; destruct ev as [|attrid raw|r]; cbn in *; try destruct r;
    unfold delivers; cbn; crunch.
Qed.

Lemma silent_keeps_value (k : kind) (rem : Remote)
  (evs : list (event (synchronizer k))) (w : world (entity (synchronizer k))) :
  let S := synchronizer k in
  silent S rem evs w ->
  current_value S (self (run S rem evs w)) = current_value S (self w).
Proof.
  cbv zeta. revert w. induction evs as [|ev evs IH]; intros w; cbn [run silent].
  - reflexivity.
  - intros [Hev Hevs]. rewrite IH by exact Hevs.
    now apply undelivered_keeps_value.
Qed.

(** C10. A lock that has just been constructed has no state and
    [is_locked] answers false; this stays so as long as no read has
    returned the lock state, no push has carried it and no command has
    succeeded.  At all times [is_locked] is true exactly when the
    state is the locked one. *)
Theorem lock_initially_unlocked :
  NimlyProLock._state NimlyProLock.__init__ = None /\
  NimlyProLock.is_locked NimlyProLock.__init__ = false /\
  (forall rem evs,
     silent lock rem evs (fresh lock) ->
     let e := self (run lock rem evs (fresh lock)) in
     NimlyProLock._state e = None /\ NimlyProLock.is_locked e = false) /\
  (forall e : NimlyProLock.t,
     NimlyProLock.is_locked e = true <->
     NimlyProLock._state e = Some STATE_LOCKED).
Proof.
  split; [reflexivity|]. split; [reflexivity|]. split.
  - intros rem evs Hsilent e.
    assert (Hstate : NimlyProLock._state e = None)
      by (apply (silent_keeps_value Lock rem evs (fresh lock) Hsilent)).
    split; [exact Hstate|]. unfold NimlyProLock.is_locked. now rewrite Hstate.
  - intros e. unfold NimlyProLock.is_locked.
    destruct (NimlyProLock._state e) as [s|].
    + rewrite String.eqb_eq. split; congruence.
    + split; discriminate.
Qed.

Lemma lock_initially_unlocked_witness :
  let e := self (run lock unreachable
                   [@Poll lock; @Command lock true; Push 3 (PyInt 1)]
                   (fresh lock)) in
  NimlyProLock._state e = None /\ NimlyProLock.is_locked e = false.
Proof.
  apply (proj1 (proj2 (proj2 lock_initially_unlocked)) unreachable
           [@Poll lock; @Command lock true; Push 3 (PyInt 1)]).
  cbn. repeat split.
Defined.

(** ** Worked examples *)

Example format_int_255 : format_int 255 = "255".
Proof. reflexivity. Qed.

Example format_int_0 : format_int 0 = "0".
Proof. reflexivity. Qed.

Example int16_led : int16 ATTR_LED_SETTINGS = Ok 34.
Proof. reflexivity. Qed.

Example int16_volume : int16 ATTR_SOUND_VOLUME = Ok 36.
Proof. reflexivity. Qed.

Example int16_no_digits : int16 "0x" = Raise ValueError.
Proof. reflexivity. Qed.

Example getitem_from_the_end : getitem four_levels (-1) = Ok "High".
Proof. reflexivity. Qed.

Example getitem_past_the_end : getitem four_levels 4 = Raise IndexError.
Proof. reflexivity. Qed.

Example int_of_float_truncates : int_of_float (Finite (-7 # 2)) = Ok (-3).
Proof. reflexivity. Qed.

(** A NaN has no integer part: the relock command raises before it
    sends anything. *)
Example relock_nan_refused :
  NimlyProAutoRelockTime.async_set_native_value (steady ∅) NaN (fresh auto_relock)
  = (Raise ValueError, fresh auto_relock).
Proof. reflexivity. Qed.

Example firmware_decode_negative : firmware_decode (PyInt (-1)) = "255.255.255.255".
Proof. reflexivity. Qed.

Example firmware_decode_string : firmware_decode (PyStr "1.0-beta") = "1.0-beta".
Proof. reflexivity. Qed.

(** Lock state: raw 1 is locked, raw 0 unlocked. *)
Example lock_poll_locked :
  NimlyProLock.is_locked
    (self (snd (NimlyProLock._update_lock_state
                  (steady {[ ATTR_LOCK_STATE := PyInt 1 ]}) (fresh lock)))) = true.
Proof. reflexivity. Qed.

Example lock_poll_unlocked :
  NimlyProLock._state
    (self (snd (NimlyProLock._update_lock_state
                  (steady {[ ATTR_LOCK_STATE := PyInt 0 ]}) (fresh lock))))
  = Some STATE_UNLOCKED.
Proof. reflexivity. Qed.

(** Door sensor: raw 0 is open, raw 1 closed. *)
Example door_push_open :
  NimlyProDoorStateSensor.is_on
    (self (snd (NimlyProDoorStateSensor.attribute_updated 3 (PyInt 0)
                  (fresh door_state)))) = Some true.
Proof. reflexivity. Qed.

Example door_push_closed :
  NimlyProDoorStateSensor.is_on
    (self (snd (NimlyProDoorStateSensor.attribute_updated 3 (PyInt 1)
                  (fresh door_state)))) = Some false.
Proof. reflexivity. Qed.

(** LED selector: choosing "High" writes raw 3; a later read of raw 3
    shows "High". *)
Example led_select_high :
  sent (snd (NimlyProLEDSettingsSelect.async_select_option (steady ∅) "High"
               (fresh led_settings)))
  = [WriteAttributes {[ 34 := PyInt 3 ]}].
Proof. reflexivity. Qed.

Example led_poll_high :
  NimlyProLEDSettingsSelect.current_option
    (self (snd (NimlyProLEDSettingsSelect._update_led_settings
                  (steady {[ ATTR_LED_SETTINGS := PyInt 3 ]}) (fresh led_settings))))
  = Ok "High".
Proof. reflexivity. Qed.

(** A string where an index is expected cannot be ordered against the
    bounds: the poll raises and publishes nothing. *)
Example led_poll_string :
  let out := NimlyProLEDSettingsSelect._update_led_settings
               (steady {[ ATTR_LED_SETTINGS := PyStr "3" ]}) (fresh led_settings) in
  fst out = Raise TypeError /\ published (snd out) = [].
Proof. split; reflexivity. Qed.

(** An unlock from the host is stamped as a remote unlock. *)
Example unlock_is_stamped :
  let e := self (snd (NimlyProLock.async_unlock (steady ∅) (fresh lock))) in
  NimlyProLock._state e = Some STATE_UNLOCKED /\
  NimlyProLock._last_event_type e = Some EVENT_TYPE_RF_UNLOCK /\
  NimlyProLock._last_event_user e = Some "Home Assistant".
Proof. repeat split. Qed.

(** The entity is available only if the device is. *)
Example available_needs_device :
  NimlyProLock.available false NimlyProLock.__init__ = false /\
  NimlyProLock.available true NimlyProLock.__init__ = true.
Proof. split; reflexivity. Qed.

(** * Further properties of the entities *)

(** ** Pushes *)

Arguments int16 : simpl never.

(** The attribute constants as numbers. *)
Ltac ids :=
  change (int16 ATTR_LOCK_STATE) with (@Ok Z 0) in *;
  change (int16 ATTR_DOOR_STATE) with (@Ok Z 3) in *;
  change (int16 ATTR_AUTO_RELOCK_TIME) with (@Ok Z 35) in *;
  change (int16 ATTR_LED_SETTINGS) with (@Ok Z 34) in *;
  change (int16 ATTR_SOUND_VOLUME) with (@Ok Z 36) in *;
  change (int16 ATTR_CURRENT_FILE_VERSION) with (@Ok Z 2) in *.

(** Unfolds the methods and the hosting structure of a kind. *)
Ltac open_kind :=
  cbn [synchronizer lock door_state firmware auto_relock led_settings
       sound_volume selector entity domain intent attribute_id initial
       current_value availability decoder encoder target reconcile on_push
       request_change handle] in *;
  unfold own_id in *;
  cbn [synchronizer lock door_state firmware auto_relock led_settings
       sound_volume selector attribute_id] in *;
  unfold_methods; ids; cbn in *.

(** X1. A push for any attribute id other than the entity's own is
    dropped: the method returns and the whole world (entity, requests,
    publications, clock) is as before. *)
Theorem push_for_other_attribute_ignored (k : kind) (rem : Remote)
  (attrid : Z) (raw : pyval) (w : world (entity (synchronizer k))) :
  attrid <> own_id (synchronizer k) ->
  on_push (synchronizer k) rem attrid raw w = (Ok tt, w).
Proof.
  intros Hne. destruct k; open_kind;
    try match goal with
        | |- context [attrid =? ?c] =>
            destruct (Z.eqb_spec attrid c) as [Heq|_]; [lia|]
        end;
    reflexivity.
Qed.

Lemma push_for_other_attribute_ignored_witness :
  on_push lock unreachable 3 (PyInt 1) (fresh lock) = (Ok tt, fresh lock).
Proof.
  apply (push_for_other_attribute_ignored Lock unreachable 3 (PyInt 1) (fresh lock)).
  cbv. discriminate.
Defined.

(** X2. For every entity that listens to pushes, a push of a raw value
    for its own attribute id and a poll whose read returns that raw
    value end alike (both return, or both raise the same exception)
    and leave the same current value. *)
Theorem push_and_poll_agree (k : kind) (rem rem' : Remote)
  (w : world (entity (synchronizer k))) (m : gmap string pyval) (raw : pyval) :
  let S := synchronizer k in
  k <> Firmware ->
  read_attributes rem' (sent w) [attribute_id S] = Done m ->
  m !! attribute_id S = Some raw ->
  fst (on_push S rem (own_id S) raw w) = fst (reconcile S rem' w) /\
  current_value S (self (snd (on_push S rem (own_id S) raw w))) =
  current_value S (self (snd (reconcile S rem' w))).
Proof.
  cbv zeta. intros Hk Hm Hraw.
  destruct k; try contradiction; open_kind; rewrite Hm; cbn; rewrite Hraw; cbn;
    crunch.
Qed.

Lemma push_and_poll_agree_witness :
  let rem' := steady {[ ATTR_DOOR_STATE := PyInt 0 ]} in
  current_value door_state (self (snd (on_push door_state unreachable 3 (PyInt 0)
                                         (fresh door_state)))) =
  current_value door_state (self (snd (reconcile door_state rem' (fresh door_state)))).
Proof.
  intros rem'.
  apply (push_and_poll_agree DoorState unreachable rem' (fresh door_state)
           {[ ATTR_DOOR_STATE := PyInt 0 ]} (PyInt 0)).
  - discriminate.
  - reflexivity.
  - apply lookup_singleton_eq.
Defined.

(** ** Requests, publications and exceptions *)

Lemma handle_requests (k : kind) (rem : Remote)
  (ev : event (synchronizer k)) (w : world (entity (synchronizer k))) :
  exists new,
    sent (snd (handle (synchronizer k) rem ev w)) = (sent w ++ new)%list /\
    match ev with
    | Poll => new <> [] /\ forallb is_read new = true
    | Push _ _ => new = []
    | Command _ => (length new <= 1)%nat /\ forallb (fun r => negb (is_read r)) new = true
    end.
Proof.
  destruct k; destruct ev as [|attrid raw|r]; try destruct r; open_kind;
    repeat (case_match; simplify_eq/=);
    first [ exists []; rewrite app_nil_r; split; [reflexivity|];
            first [reflexivity | split; [cbn; lia|reflexivity]]
          | eexists [_]; split; [reflexivity|];
            first [split; [discriminate|reflexivity] | split; [cbn; lia|reflexivity]]
          | eexists [_; _]; rewrite <- app_assoc; split; [reflexivity|];
            split; [discriminate|reflexivity] ].
Qed.

(** X3. An entity writes to the device only on a command: along any
    run made of polls and pushes alone, every request it sends is a
    read of attributes.  A push sends nothing at all, and a command
    sends at most one request, which is not a read. *)
Theorem only_commands_write (k : kind) (rem : Remote) :
  let S := synchronizer k in
  (forall evs w,
     forallb (fun ev => negb (is_command ev)) evs = true ->
     exists new,
       sent (run S rem evs w) = (sent w ++ new)%list /\
       forallb is_read new = true) /\
  (forall attrid raw w, sent (snd (on_push S rem attrid raw w)) = sent w) /\
  (forall (r : intent S) w,
     exists new,
       sent (snd (request_change S rem r w)) = (sent w ++ new)%list /\
       (length new <= 1)%nat /\
       forallb (fun r => negb (is_read r)) new = true).
Proof.
  cbv zeta. repeat split.
  - induction evs as [|ev evs IH]; intros w Hevs; cbn [run].
    + exists []. now rewrite app_nil_r.
    + cbn in Hevs. apply andb_true_iff in Hevs. destruct Hevs as [Hev Hevs].
      destruct (IH (snd (handle (synchronizer k) rem ev w)) Hevs)
        as (new2 & Hsent2 & Hreads2).
      destruct (handle_requests k rem ev w) as (new1 & Hsent1 & Hshape).
      exists (new1 ++ new2)%list. rewrite Hsent2, Hsent1, app_assoc.
      split; [reflexivity|]. rewrite forallb_app, Hreads2, andb_true_r.
      destruct ev; [apply Hshape | now rewrite Hshape | discriminate].
  - intros attrid raw w.
    destruct (handle_requests k rem (Push attrid raw) w) as (new & Hsent & ->).
    cbn [handle] in Hsent. now rewrite Hsent, app_nil_r.
  - intros r w. apply (handle_requests k rem (Command r) w).
Qed.

Lemma only_commands_write_witness :
  exists new,
    sent (run lock (steady ∅) [@Poll lock; Push 0 (PyInt 1); @Poll lock] (fresh lock))
    = new /\ forallb is_read new = true.
Proof.
  destruct (proj1 (only_commands_write Lock (steady ∅))
              [@Poll lock; Push 0 (PyInt 1); @Poll lock] (fresh lock) eq_refl)
    as (new & Hsent & Hreads).
  exists new. split; [exact Hsent | exact Hreads].
Defined.

Lemma handle_publishes (k : kind) (rem : Remote)
  (ev : event (synchronizer k)) (w : world (entity (synchronizer k))) :
  let w' := snd (handle (synchronizer k) rem ev w) in
  published w' = (published w ++ [self w'])%list \/
  (published w' = published w /\ self w' = self w).
Proof.
  destruct k; destruct ev as [|attrid raw|r]; try destruct r; open_kind;
    repeat (case_match; simplify_eq/=); auto.
Qed.

(** X4. The host never holds a stale entity: every method either
    publishes the entity as its last act or leaves both the entity and
    the publications untouched.  So once the entity has been published
    (as the first poll that returns does), the last publication is the
    entity as it is, along every run. *)
Theorem published_state_is_current (k : kind) (rem : Remote) :
  let S := synchronizer k in
  (forall ev w,
     let w' := snd (handle S rem ev w) in
     published w' = (published w ++ [self w'])%list \/
     (published w' = published w /\ self w' = self w)) /\
  (forall w, fst (reconcile S rem w) = Ok tt -> in_sync (snd (reconcile S rem w))) /\
  (forall evs w, in_sync w -> in_sync (run S rem evs w)).
Proof.
  cbv zeta. repeat split.
  - intros ev w. apply handle_publishes.
  - intros w Hok. pose proof (reconcile_spec k rem w) as H.
    unfold reconcile_post in H. cbv zeta in H. unfold in_sync.
    repeat case_match; try (destruct H as (_ & _ & _ & ->); apply last_snoc).
    destruct H as (Hr & _). congruence.
  - induction evs as [|ev evs IH]; intros w Hw; cbn [run]; [exact Hw|].
    apply IH. unfold in_sync in *.
    destruct (handle_publishes k rem ev w) as [-> | [-> ->]];
      [apply last_snoc | exact Hw].
Qed.

Lemma published_state_is_current_witness :
  let w := snd (reconcile led_settings unreachable (fresh led_settings)) in
  in_sync (run led_settings (steady ∅)
             [@Command led_settings "Low"; Push 34 (PyInt 9); @Poll led_settings] w).
Proof.
  intros w.
  apply (proj2 (proj2 (published_state_is_current LedSettings (steady ∅)))).
  apply (proj1 (proj2 (published_state_is_current LedSettings unreachable))).
  reflexivity.
Defined.

Lemma index_raises_only (l : list string) (x : string) (e : exn) :
  index l x = Raise e -> e = ValueError.
Proof.
  induction l as [|a l IH]; cbn; [congruence|].
  destruct (String.eqb a x); [discriminate|].
  destruct (index l x) as [i|e']; [discriminate|].
  intros [= <-]. now apply IH.
Qed.

(** What a relock command returns is decided by [int(value)] alone. *)
Lemma relock_command_result (rem : Remote) (x : pyfloat)
  (w : world NimlyProAutoRelockTime.t) :
  fst (NimlyProAutoRelockTime.async_set_native_value rem x w) =
  match x with
  | Finite _ => Ok tt
  | NaN => Raise ValueError
  | Infinity _ => Raise OverflowError
  end.
Proof.
  destruct x; unfold_methods; ids; cbn -[truncate]; try reflexivity.
  match goal with
  | |- context [write_attributes rem ?h ?attrs] =>
      destruct (write_attributes rem h attrs) as [[]|]
  end; reflexivity.
Qed.

(** X5. A communication fault never escapes a method, whatever the
    entity and the event.  The lock, the door sensor and the firmware
    sensor let nothing escape at all, and neither do the polls and the
    pushes of the relock number.  A selector raises only [ValueError],
    for a label it does not know, and [TypeError], for a raw value
    that is a string.  A relock command raises exactly what [int]
    raises on the number: nothing for a finite one, [ValueError] for a
    NaN and [OverflowError] for an infinity. *)
Theorem faults_never_escape (k : kind) (rem : Remote)
  (ev : event (synchronizer k)) (w : world (entity (synchronizer k))) :
  let r := fst (handle (synchronizer k) rem ev w) in
  r <> Raise ZigbeeException /\
  (is_selector k = false ->
   (k = AutoRelock -> is_command ev = false) ->
   r = Ok tt) /\
  (is_selector k = true ->
   r = Ok tt \/
   (r = Raise ValueError /\ exists label, ev = Command label) \/
   (r = Raise TypeError /\ ~ is_command ev = true)) /\
  (forall (x : pyfloat) (w0 : world NimlyProAutoRelockTime.t),
     fst (NimlyProAutoRelockTime.async_set_native_value rem x w0) =
     match x with
     | Finite _ => Ok tt
     | NaN => Raise ValueError
     | Infinity _ => Raise OverflowError
     end).
Proof.
  cbv zeta.
  cut (fst (handle (synchronizer k) rem ev w) <> Raise ZigbeeException /\
       (is_selector k = false ->
        (k = AutoRelock -> is_command ev = false) ->
        fst (handle (synchronizer k) rem ev w) = Ok tt) /\
       (is_selector k = true ->
        fst (handle (synchronizer k) rem ev w) = Ok tt \/
        (fst (handle (synchronizer k) rem ev w) = Raise ValueError /\
         exists label, ev = Command label) \/
        (fst (handle (synchronizer k) rem ev w) = Raise TypeError /\
         ~ is_command ev = true))).
  { intros (H1 & H2 & H3). split; [exact H1|]. split; [exact H2|].
    split; [exact H3|]. apply relock_command_result. }
  destruct k; destruct ev as [|attrid raw|r]; try destruct r; open_kind;
    unfold_policies;
    try match goal with
        | |- context [index ?l ?x] =>
            let E := fresh "E" in
            destruct (index l x) as [i|e] eqn:E;
            [|apply index_raises_only in E; subst e]
        end;
    cbn; repeat (case_match; simplify_eq/=).
  all: split; [discriminate|];
    split; [intros Hs Hc;
            first [discriminate Hs | reflexivity
                  | specialize (Hc eq_refl); discriminate Hc]|].
  all: intros Hs; try discriminate Hs.
  all: first [ left; reflexivity
             | right; left; split; [reflexivity | eexists; reflexivity]
             | right; right; split; [reflexivity | cbn; discriminate] ].
Qed.

Lemma faults_never_escape_witness :
  fst (handle lock unreachable (@Command lock false) (fresh lock)) = Ok tt.
Proof.
  apply (proj1 (proj2 (faults_never_escape Lock unreachable (@Command lock false)
                         (fresh lock)))).
  - reflexivity.
  - discriminate.
Defined.

(** ** Selectors: the index stays valid *)

Lemma index_lt (l : list string) (x : string) (i : Z) :
  index l x = Ok i -> 0 <= i < Z.of_nat (length l).
Proof.
  revert i. induction l as [|a l IH]; intros i; cbn [index length];
    [discriminate|].
  destruct (String.eqb a x); [intros [= <-]; lia|].
  destruct (index l x) as [j|]; [|discriminate].
  intros [= <-]. specialize (IH j eq_refl). lia.
Qed.

Lemma selector_step_in_range (ATTR : string) (OPTIONS : list (Z * string))
  (rem : Remote) (ev : event (selector ATTR OPTIONS)) (w : world Select.t) :
  let valid (e : Select.t) :=
    0 <= Select._current_option_index e <
    Z.of_nat (length (Select._attr_options e)) in
  valid (self w) ->
  valid (self (snd (handle (selector ATTR OPTIONS) rem ev w))).
Proof.
  cbv zeta. intros Hw.
  destruct ev as [|attrid raw|label]; cbn [handle selector reconcile on_push
                                            request_change];
    unfold_methods; unfold_policies; cbn.
  - destruct (read_attributes rem (sent w) [ATTR]) as [m|]; cbn; [|exact Hw].
    destruct (m !! ATTR) as [raw|]; cbn; [|exact Hw].
    destruct raw as [|i|s]; cbn; try exact Hw.
    destruct (Z.leb_spec 0 i), (Z.ltb_spec i (Z.of_nat (length (Select._attr_options (self w)))));
      cbn; first [exact Hw | lia].
  - destruct (int16 ATTR) as [id|]; cbn; [|exact Hw].
    destruct (attrid =? id); cbn; [|exact Hw].
    destruct raw as [|i|s]; cbn; try exact Hw.
    destruct (Z.leb_spec 0 i), (Z.ltb_spec i (Z.of_nat (length (Select._attr_options (self w)))));
      cbn; first [exact Hw | lia].
  - destruct (index (Select._attr_options (self w)) label) as [i|] eqn:Hi;
      cbn; [|exact Hw].
    apply index_lt in Hi.
    destruct (int16 ATTR) as [id|e]; cbn; [|destruct e; exact Hw].
    destruct (write_attributes rem (sent w) _); cbn; [exact Hi | exact Hw].
Qed.

Lemma selector_run_in_range (ATTR : string) (OPTIONS : list (Z * string))
  (rem : Remote) (evs : list (event (selector ATTR OPTIONS))) (w : world Select.t) :
  0 <= Select._current_option_index (self w) <
  Z.of_nat (length (Select._attr_options (self w))) ->
  0 <= Select._current_option_index
         (self (run (selector ATTR OPTIONS) rem evs w)) <
  Z.of_nat (length (Select._attr_options
                      (self (run (selector ATTR OPTIONS) rem evs w)))).
Proof.
  revert w. induction evs as [|ev evs IH]; intros w Hw; cbn [run]; [exact Hw|].
  apply IH. now apply selector_step_in_range.
Qed.

(** X6. A selector's index never leaves its option list: starting
    from a constructor with at least one option, after any run of
    polls, pushes and commands the index is a position of the list,
    so [current_option] returns a label of the list and never raises
    [IndexError]. *)
Theorem selector_option_always_defined (ATTR : string)
  (OPTIONS : list (Z * string)) (rem : Remote)
  (evs : list (event (selector ATTR OPTIONS))) :
  OPTIONS <> [] ->
  let e := self (run (selector ATTR OPTIONS) rem evs
                   (fresh (selector ATTR OPTIONS))) in
  0 <= Select._current_option_index e < Z.of_nat (length OPTIONS) /\
  exists label, Select.current_option e = Ok label /\ In label (values OPTIONS).
Proof.
  intros Hne e.
  assert (Hopts : Select._attr_options e = values OPTIONS)
    by apply selector_options_reachable.
  assert (Hvalid : 0 <= Select._current_option_index e <
                   Z.of_nat (length (Select._attr_options e))).
  { apply selector_run_in_range. cbn. unfold values. rewrite length_map.
    destruct OPTIONS; [contradiction|]. cbn. lia. }
  assert (Hlen : length (Select._attr_options e) = length OPTIONS)
    by (rewrite Hopts; unfold values; apply length_map).
  split; [now rewrite <- Hlen|].
  unfold Select.current_option. rewrite getitem_nonneg by lia.
  destruct (nth_error (Select._attr_options e)
              (Z.to_nat (Select._current_option_index e))) as [label|] eqn:Hnth.
  - exists label. split; [reflexivity|]. rewrite <- Hopts.
    eapply nth_error_In; eauto.
  - apply nth_error_None in Hnth. lia.
Qed.

Lemma selector_option_always_defined_witness :
  exists label,
    Select.current_option
      (self (run led_settings (steady {[ ATTR_LED_SETTINGS := PyInt 9 ]})
               [@Poll led_settings; Push 34 (PyInt (-1)); @Command led_settings "Max"]
               (fresh led_settings))) = Ok label /\
    In label (values LED_SETTINGS_OPTIONS).
Proof.
  apply (selector_option_always_defined ATTR_LED_SETTINGS LED_SETTINGS_OPTIONS
           (steady {[ ATTR_LED_SETTINGS := PyInt 9 ]})
           [@Poll led_settings; Push 34 (PyInt (-1)); @Command led_settings "Max"]).
  discriminate.
Defined.

(** ** Selectors: a command read back *)

(** X7. After a selector command for a label of its list has been
    written, a poll that reads the written index back shows that
    label, marks the entity available, and both steps have been
    published; if the poll reads another valid index, the poll's
    value replaces the optimistic one. *)
Theorem select_then_read_back (ATTR : string) (rem : Remote)
  (w : world Select.t) (label : string) (i id j : Z) (m : gmap string pyval) :
  int16 ATTR = Ok id ->
  index (Select._attr_options (self w)) label = Ok i ->
  write_attributes rem (sent w) {[ id := PyInt i ]} = Done tt ->
  let w1 := snd (Select.async_select_option ATTR rem label w) in
  read_attributes rem (sent w1) [ATTR] = Done m ->
  m !! ATTR = Some (PyInt j) ->
  0 <= j < Z.of_nat (length (Select._attr_options (self w))) ->
  let w2 := snd (Select._update ATTR rem w1) in
  Select._current_option_index (self w1) = i /\
  Select._current_option_index (self w2) = j /\
  (j = i -> Select.current_option (self w2) = Ok label) /\
  Select._available (self w2) = true /\
  published w2 = (published w ++ [self w1; self w2])%list.
Proof.
  intros Hid Hi Hwrite w1. 
  assert (Hw1 : w1 = World (Select.set_current_option_index i (self w))
                       (sent w ++ [WriteAttributes {[ id := PyInt i ]}])
                       (published w ++ [Select.set_current_option_index i (self w)])
                       (ticks w)).
  { subst w1. unfold_methods. rewrite Hi. cbn. rewrite Hid. cbn.
    rewrite Hwrite. reflexivity. }
  rewrite Hw1. intros Hm Hj Hrange w2. cbn [sent] in Hm.
  assert (Hw2 : self w2 = Select.set_available true
                            (Select.set_current_option_index j
                               (Select.set_current_option_index i (self w))) /\
                published w2 = (published w ++
                                [Select.set_current_option_index i (self w);
                                 self w2])%list).
  { subst w2. unfold_methods. unfold_policies. cbn. rewrite Hm. cbn.
    rewrite Hj. cbn.
    destruct (Z.leb_spec 0 j) as [_|?]; [|lia].
    destruct (Z.ltb_spec j (Z.of_nat (length (Select._attr_options (self w)))))
      as [_|?]; [|lia].
    cbn. rewrite <- app_assoc. split; reflexivity. }
  destruct Hw2 as [Hself Hpub]. rewrite Hself, Hpub. cbn.
  repeat split.
  - intros ->. unfold Select.current_option. cbn. now apply getitem_index.
  - now rewrite Hself.
Qed.

Lemma select_then_read_back_witness :
  let rem := steady {[ ATTR_SOUND_VOLUME := PyInt 1 ]} in
  let w1 := snd (Select.async_select_option ATTR_SOUND_VOLUME rem "Low"
                   (fresh sound_volume)) in
  Select.current_option (self (snd (Select._update ATTR_SOUND_VOLUME rem w1)))
  = Ok "Low".
Proof.
  intros rem w1.
  apply (select_then_read_back ATTR_SOUND_VOLUME rem (fresh sound_volume)
           "Low" 1 36 1 {[ ATTR_SOUND_VOLUME := PyInt 1 ]}
           eq_refl eq_refl eq_refl eq_refl (lookup_singleton_eq _ _)).
  - cbn. lia.
  - reflexivity.
Defined.

(** ** The lock's last-event record *)

(** X8. The last-event record of the lock is written by two events
    only.  A poll, a lock command, an unlock command that faults and
    a push other than raw 1 for the lock state leave its three fields,
    and so the extra state attributes, as they are.  An unlock command
    that succeeds records a remote unlock by "Home Assistant" at the
    current clock reading. *)
Theorem last_event_written_by_unlock_and_locked_push (rem : Remote)
  (w : world NimlyProLock.t) :
  (forall ev : event lock,
     stamps rem ev w = false ->
     let e' := self (snd (handle lock rem ev w)) in
     last_event_record e' = last_event_record (self w) /\
     NimlyProLock.extra_state_attributes e' =
     NimlyProLock.extra_state_attributes (self w)) /\
  (unlock_door rem (sent w) = Done tt ->
   last_event_record (self (snd (NimlyProLock.async_unlock rem w))) =
   (Some EVENT_TYPE_RF_UNLOCK, Some "Home Assistant",
    Some (now_isoformat rem (ticks w)))).
Proof.
  split.
  - intros ev Hev e'.
    assert (Hrec : last_event_record e' = last_event_record (self w)).
    { subst e'. destruct ev as [|attrid raw|locking]; [| |destruct locking];
        unfold stamps in Hev; unfold last_event_record;
        change (handle lock rem ?ev w) with
          (handle (synchronizer Lock) rem ev w);
        open_kind; repeat (case_match; simplify_eq/=); try reflexivity;
        try (exfalso; destruct (eq_int raw 1), (attrid =? 0); cbn in *;
             congruence). }
    split; [exact Hrec|].
    unfold last_event_record in Hrec. injection Hrec as Ht Hu Htime.
    unfold NimlyProLock.extra_state_attributes. now rewrite Ht, Hu, Htime.
  - intros Hok. unfold_methods. rewrite Hok. reflexivity.
Qed.

Lemma last_event_written_by_unlock_and_locked_push_witness :
  NimlyProLock.extra_state_attributes
    (self (snd (handle lock (steady {[ ATTR_LOCK_STATE := PyInt 1 ]})
                  (@Poll lock) (fresh lock)))) = ∅ /\
  last_event_record (self (snd (NimlyProLock.async_unlock (steady ∅) (fresh lock))))
  = (Some EVENT_TYPE_RF_UNLOCK, Some "Home Assistant", Some "2024-01-01T00:00:00").
Proof.
  split.
  - apply (proj1 (last_event_written_by_unlock_and_locked_push
                    (steady {[ ATTR_LOCK_STATE := PyInt 1 ]}) (fresh lock))
             (@Poll lock) eq_refl).
  - apply (proj2 (last_event_written_by_unlock_and_locked_push
                    (steady ∅) (fresh lock)) eq_refl).
Defined.

(** X9. A push of raw 1 for the lock state always leaves the event
    type at automatic lock and the state at locked.  It takes a new
    clock reading only if the type was not automatic lock already,
    and it never touches the recorded user: after an unlock from the
    host, the automatic lock is still attributed to "Home
    Assistant". *)
Theorem locked_push_records_auto_lock (rem : Remote)
  (w : world NimlyProLock.t) (raw : pyval) :
  eq_int raw 1 = true ->
  let e := self w in
  let e' := self (snd (NimlyProLock.attribute_updated rem 0 raw w)) in
  NimlyProLock._state e' = Some STATE_LOCKED /\
  NimlyProLock._last_event_type e' = Some EVENT_TYPE_AUTO_LOCK /\
  NimlyProLock._last_event_user e' = NimlyProLock._last_event_user e /\
  NimlyProLock._last_event_time e' =
    (if bool_decide (NimlyProLock._last_event_type e = Some EVENT_TYPE_AUTO_LOCK)
     then NimlyProLock._last_event_time e
     else Some (now_isoformat rem (ticks w))) /\
  (unlock_door rem (sent w) = Done tt ->
   let e2 := self (snd (NimlyProLock.attribute_updated rem 0 raw
                          (snd (NimlyProLock.async_unlock rem w)))) in
   NimlyProLock._last_event_type e2 = Some EVENT_TYPE_AUTO_LOCK /\
   NimlyProLock._last_event_user e2 = Some "Home Assistant").
Proof.
  intros Hraw e e'. subst e e'. unfold_methods. ids. cbn. rewrite Hraw. cbn.
  destruct (bool_decide (NimlyProLock._last_event_type (self w) =
                         Some EVENT_TYPE_AUTO_LOCK)) eqn:Hold; cbn.
  - apply bool_decide_eq_true in Hold.
    split; [reflexivity|]. split; [exact Hold|]. split; [reflexivity|].
    split; [reflexivity|].
    intros Hok. rewrite Hok. cbn. rewrite ?Hraw. cbn. split; reflexivity.
  - split; [reflexivity|]. split; [reflexivity|]. split; [reflexivity|].
    split; [reflexivity|].
    intros Hok. rewrite Hok. cbn. rewrite ?Hraw. cbn. split; reflexivity.
Qed.

Lemma locked_push_records_auto_lock_witness :
  let e2 := self (snd (NimlyProLock.attribute_updated (steady ∅) 0 (PyInt 1)
                         (snd (NimlyProLock.async_unlock (steady ∅) (fresh lock))))) in
  NimlyProLock._last_event_type e2 = Some EVENT_TYPE_AUTO_LOCK /\
  NimlyProLock._last_event_user e2 = Some "Home Assistant".
Proof.
  apply (proj2 (proj2 (proj2 (proj2
           (locked_push_records_auto_lock (steady ∅) (fresh lock) (PyInt 1)
              eq_refl))))).
  reflexivity.
Defined.

(** X10. The extra state attributes of the lock hold exactly the
    fields of the last-event record that are set to a non-empty
    string, each under its own key, and nothing else. *)
Theorem extra_state_attributes_lookup (e : NimlyProLock.t) (key v : string) :
  NimlyProLock.extra_state_attributes e !! key = Some v <->
  v <> "" /\
  ((key = "last_event_type" /\ NimlyProLock._last_event_type e = Some v) \/
   (key = "last_event_user" /\ NimlyProLock._last_event_user e = Some v) \/
   (key = "last_event_time" /\ NimlyProLock._last_event_time e = Some v)).
Proof.
  unfold NimlyProLock.extra_state_attributes, NimlyProLock.put_if_set.
  destruct (NimlyProLock._last_event_type e) as [t|];
    destruct (NimlyProLock._last_event_user e) as [u|];
    destruct (NimlyProLock._last_event_time e) as [tm|];
    repeat match goal with
           | |- context [String.eqb ?s ""] => destruct (String.eqb_spec s "")
           end; cbn [negb];
    rewrite ?lookup_insert, ?lookup_empty;
    repeat case_decide; subst;
    (split; [intros Hl | intros (Hv & Hc)]); simplify_eq;
    try (intuition congruence);
    try (destruct Hc as [[Hk Hf]|[[Hk Hf]|[Hk Hf]]]; simplify_eq; congruence).
Qed.

Lemma extra_state_attributes_lookup_witness :
  NimlyProLock.extra_state_attributes
    (self (snd (NimlyProLock.async_unlock (steady ∅) (fresh lock))))
    !! "last_event_user" = Some "Home Assistant".
Proof.
  apply (proj2 (extra_state_attributes_lookup
                  (self (snd (NimlyProLock.async_unlock (steady ∅) (fresh lock))))
                  "last_event_user" "Home Assistant")).
  split; [discriminate|]. right. left. split; reflexivity.
Defined.

(** ** What the lock and the door sensor report *)

(** X11. After a poll that returns the attribute, the lock is
    reported locked exactly when the raw value is the integer 1, and
    the door open exactly when it is the integer 0; every other raw
    value, [None] and strings included, gives the opposite state,
    never an unknown one. *)
Theorem reported_state_of_raw (rem : Remote) (m : gmap string pyval) (raw : pyval) :
  (forall w : world NimlyProLock.t,
     read_attributes rem (sent w) [ATTR_LOCK_STATE] = Done m ->
     m !! ATTR_LOCK_STATE = Some raw ->
     let e' := self (snd (NimlyProLock._update_lock_state rem w)) in
     (NimlyProLock.is_locked e' = true <-> raw = PyInt 1) /\
     (NimlyProLock.is_locked e' = false <->
      NimlyProLock._state e' = Some STATE_UNLOCKED)) /\
  (forall w : world NimlyProDoorStateSensor.t,
     read_attributes rem (sent w) [ATTR_DOOR_STATE] = Done m ->
     m !! ATTR_DOOR_STATE = Some raw ->
     let e' := self (snd (NimlyProDoorStateSensor._update_door_state rem w)) in
     (NimlyProDoorStateSensor.is_on e' = Some true <-> raw = PyInt 0) /\
     (NimlyProDoorStateSensor.is_on e' = Some false <-> raw <> PyInt 0)).
Proof.
  split; intros w Hm Hraw e'.
  - pose proof (reconcile_spec Lock rem w) as H. unfold reconcile_post in H.
    cbn in H. rewrite Hm, Hraw in H. cbn in H. destruct H as (_ & Hstate & _).
    unfold NimlyProLock.is_locked. subst e'. rewrite Hstate.
    unfold lock_decode, eq_int, STATE_LOCKED, STATE_UNLOCKED.
    destruct raw as [|z|s]; [| destruct (Z.eqb_spec z 1) as [->|Hne] |];
      cbn; (split; split; intros Hx; congruence || discriminate).
  - pose proof (reconcile_spec DoorState rem w) as H. unfold reconcile_post in H.
    cbn in H. rewrite Hm, Hraw in H. cbn in H. destruct H as (_ & Hstate & _).
    unfold NimlyProDoorStateSensor.is_on. subst e'. rewrite Hstate.
    unfold door_decode, eq_int.
    destruct raw as [|z|s]; [| destruct (Z.eqb_spec z 0) as [->|Hne] |];
      cbn; (split; split; intros Hx; congruence || discriminate).
Qed.

Lemma reported_state_of_raw_witness :
  let rem := steady {[ ATTR_LOCK_STATE := PyInt 2 ]} in
  NimlyProLock._state (self (snd (NimlyProLock._update_lock_state rem (fresh lock))))
  = Some STATE_UNLOCKED.
Proof.
  intros rem.
  apply (proj1 (reported_state_of_raw rem {[ ATTR_LOCK_STATE := PyInt 2 ]} (PyInt 2))
           (fresh lock) eq_refl (lookup_singleton_eq _ _)).
  reflexivity.
Defined.

(** ** The firmware version beyond 32 bits *)

Lemma byte_of_low_word (v n : Z) :
  n = 0 \/ n = 8 \/ n = 16 \/ n = 24 ->
  Z.land (Z.shiftr (v mod 2 ^ 32) n) 255 = Z.land (Z.shiftr v n) 255.
Proof.
  intros Hn. rewrite !land_255_byte by lia.
  change (2 ^ 32) with 4294967296.
  destruct Hn as [ -> | [ -> | [ -> | -> ] ] ];
    [change (2 ^ 0) with 1 | change (2 ^ 8) with 256
     | change (2 ^ 16) with 65536 | change (2 ^ 24) with 16777216];
    Z.div_mod_to_equations; lia.
Qed.

(** X12. The firmware sensor looks at the low 32 bits only: an
    integer outside the 32-bit range, negative ones included, is shown
    as its remainder modulo 2^32 would be. *)
Theorem firmware_version_wraps (rem rem' : Remote)
  (w w' : world NimlyProFirmwareSensor.t) (m m' : gmap string pyval) (v : Z) :
  read_attributes rem (sent w) [ATTR_CURRENT_FILE_VERSION] = Done m ->
  m !! ATTR_CURRENT_FILE_VERSION = Some (PyInt v) ->
  read_attributes rem' (sent w') [ATTR_CURRENT_FILE_VERSION] = Done m' ->
  m' !! ATTR_CURRENT_FILE_VERSION = Some (PyInt (v mod 2 ^ 32)) ->
  NimlyProFirmwareSensor._attr_native_value
    (self (snd (NimlyProFirmwareSensor._update_firmware_version rem w))) =
  NimlyProFirmwareSensor._attr_native_value
    (self (snd (NimlyProFirmwareSensor._update_firmware_version rem' w'))).
Proof.
  intros Hm Hv Hm' Hv'.
  rewrite (firmware_poll_value rem w m _ Hm Hv).
  rewrite (firmware_poll_value rem' w' m' _ Hm' Hv').
  unfold firmware_decode.
  rewrite <- (Z.shiftr_0_r v) at 4.
  rewrite <- (Z.shiftr_0_r (v mod 2 ^ 32)) at 4.
  now rewrite !byte_of_low_word by auto.
Qed.

Lemma firmware_version_wraps_witness :
  NimlyProFirmwareSensor._attr_native_value
    (self (snd (NimlyProFirmwareSensor._update_firmware_version
                  (steady {[ ATTR_CURRENT_FILE_VERSION := PyInt (-1) ]})
                  (fresh firmware)))) =
  NimlyProFirmwareSensor._attr_native_value
    (self (snd (NimlyProFirmwareSensor._update_firmware_version
                  (steady {[ ATTR_CURRENT_FILE_VERSION := PyInt 4294967295 ]})
                  (fresh firmware)))).
Proof.
  apply (firmware_version_wraps
           (steady {[ ATTR_CURRENT_FILE_VERSION := PyInt (-1) ]})
           (steady {[ ATTR_CURRENT_FILE_VERSION := PyInt 4294967295 ]})
           (fresh firmware) (fresh firmware)
           {[ ATTR_CURRENT_FILE_VERSION := PyInt (-1) ]}
           {[ ATTR_CURRENT_FILE_VERSION := PyInt 4294967295 ]} (-1)
           eq_refl (lookup_singleton_eq _ _) eq_refl (lookup_singleton_eq _ _)).
Defined.

(** ** The relock time the device gets *)

Lemma truncate_bounds (x : Q) :
  ((0 <= x)%Q ->
   (inject_Z (truncate x) <= x)%Q /\ (x < inject_Z (truncate x) + 1)%Q) /\
  ((x <= 0)%Q ->
   (inject_Z (truncate x) - 1 < x)%Q /\ (x <= inject_Z (truncate x))%Q).
Proof.
  destruct x as [n d]. unfold truncate, Qle, Qlt. cbn [Qnum Qden].
  pose proof (Z.quot_rem' n (Z.pos d)) as Hqr.
  split; intros Hsign; cbn in Hsign; rewrite Z.mul_1_r in Hsign.
  - pose proof (Z.rem_bound_pos n (Z.pos d) Hsign ltac:(lia)) as Hrem.
    cbn. split; nia.
  - pose proof (Z.rem_bound_pos_neg n (Z.pos d) ltac:(lia) ltac:(lia)) as Hrem.
    cbn. split; nia.
Qed.

(** X13. A relock command sends the device the integer part of the
    requested number (rounded towards zero) but stores the number
    itself: after a successful write the stored value is the float as
    given, and it differs from what the device was sent by less than
    one second. *)
Theorem relock_write_sends_integer_part (rem : Remote)
  (w : world NimlyProAutoRelockTime.t) (x : Q) :
  let z := truncate x in
  let w' := snd (NimlyProAutoRelockTime.async_set_native_value rem (Finite x) w) in
  write_attributes rem (sent w) {[ 35 := PyInt z ]} = Done tt ->
  sent w' = (sent w ++ [WriteAttributes {[ 35 := PyInt z ]}])%list /\
  NimlyProAutoRelockTime._attr_native_value (self w') =
    NimlyProAutoRelockTime.Float (Finite x) /\
  ((0 <= x)%Q -> (inject_Z z <= x)%Q /\ (x < inject_Z z + 1)%Q) /\
  ((x <= 0)%Q -> (inject_Z z - 1 < x)%Q /\ (x <= inject_Z z)%Q).
Proof.
  intros z w' Hok. subst w'. unfold_methods. ids. cbn. fold z. rewrite Hok. cbn.
  split; [reflexivity|]. split; [reflexivity|]. apply truncate_bounds.
Qed.

Lemma relock_write_sends_integer_part_witness :
  let w' := snd (NimlyProAutoRelockTime.async_set_native_value (steady ∅)
                   (Finite (61 # 2)) (fresh auto_relock)) in
  sent w' = [WriteAttributes {[ 35 := PyInt 30 ]}] /\
  NimlyProAutoRelockTime._attr_native_value (self w') =
    NimlyProAutoRelockTime.Float (Finite (61 # 2)).
Proof.
  intros w'.
  destruct (relock_write_sends_integer_part (steady ∅) (fresh auto_relock) (61 # 2)
              eq_refl) as (Hsent & Hval & _).
  split; [exact Hsent | exact Hval].
Defined.

(** ** Activation *)

Lemma plain_poll_returns (k : kind) (rem : Remote)
  (w : world (entity (synchronizer k))) :
  is_selector k = false -> fst (reconcile (synchronizer k) rem w) = Ok tt.
Proof.
  intros Hk. destruct k; try discriminate; open_kind;
    repeat (case_match; simplify_eq/=); reflexivity.
Qed.

Lemma added_to_hass_shape {E : Type} (listens : bool) (fetch : M E unit)
  (interval : Z) (h : hosted E) :
  let r := added_to_hass listens fetch interval h in
  let mine := if listens then [Listener] else [] in
  fst r = fst (fetch (running h)) /\
  running (snd r) = snd (fetch (running h)) /\
  (fst (fetch (running h)) = Ok tt ->
   registered (snd r) = (registered h ++ mine ++ [Interval interval])%list) /\
  (fst (fetch (running h)) <> Ok tt ->
   registered (snd r) = (registered h ++ mine)%list).
Proof.
  unfold added_to_hass, async_on_remove.
  destruct listens; cbn [running registered];
    destruct (fetch (running h)) as [[[]|e] w']; cbn;
    rewrite <- ?app_assoc, ?app_nil_r; repeat split; congruence.
Qed.

(** X14. When an entity is added to the host it fetches its value
    exactly once, between registering its listener and registering
    its timer.  If the fetch returns, the registrations made are the
    listener (none for the firmware sensor) and a timer of 30 seconds
    for the lock and the door sensor, 60 seconds for the others; for
    the lock, the door sensor, the firmware sensor and the relock
    number the fetch always returns.  If the fetch raises, the
    exception leaves the method and no timer is registered. *)
Theorem activation_fetches_once (k : kind) (rem : Remote)
  (h : hosted (entity (synchronizer k))) :
  let S := synchronizer k in
  let fetched := reconcile S rem (running h) in
  let r := activate k rem h in
  fst r = fst fetched /\
  running (snd r) = snd fetched /\
  (fst fetched = Ok tt ->
   registered (snd r) = (registered h ++ registrations k)%list) /\
  (is_selector k = false ->
   fst r = Ok tt /\ registered (snd r) = (registered h ++ registrations k)%list) /\
  (fst fetched <> Ok tt ->
   registered (snd r) = (registered h ++ [Listener])%list).
Proof.
  cbv zeta.
  assert (Hshape :
    fst (activate k rem h) = fst (reconcile (synchronizer k) rem (running h)) /\
    running (snd (activate k rem h)) =
      snd (reconcile (synchronizer k) rem (running h)) /\
    (fst (reconcile (synchronizer k) rem (running h)) = Ok tt ->
     registered (snd (activate k rem h)) =
       (registered h ++ registrations k)%list) /\
    (fst (reconcile (synchronizer k) rem (running h)) <> Ok tt ->
     registered (snd (activate k rem h)) = (registered h ++ [Listener])%list)).
  { destruct k.
    1, 2, 4, 5, 6: apply added_to_hass_shape.
    pose proof (added_to_hass_shape false
                  (NimlyProFirmwareSensor._update_firmware_version rem)
                  NimlyProFirmwareSensor.SCAN_INTERVAL h) as (H1 & H2 & H3 & _).
    repeat split; [exact H1 | exact H2 | exact H3 |].
    intros Hraise. exfalso. apply Hraise.
    now apply (plain_poll_returns Firmware). }
  destruct Hshape as (Hr & Hw & Hok & Hraise).
  repeat split; try assumption.
  - rewrite Hr. now apply plain_poll_returns.
  - apply Hok. now apply plain_poll_returns.
Qed.

Lemma activation_fetches_once_witness :
  registered (snd (activate Lock unreachable (Hosted (fresh lock) []))) =
  [Listener; Interval 30].
Proof.
  apply (proj1 (proj2 (proj2 (activation_fetches_once Lock unreachable
                                (Hosted (fresh lock) []))))).
  reflexivity.
Defined.

(** ** The last-user sensor *)

(** X15. The last-user sensor is inert: no timer tick and no push
    changes it, sends a request or publishes anything.  From its
    construction on it shows "Unknown", has no extra state attribute,
    and is available whenever the device is. *)
Theorem last_user_sensor_inert (evs : list last_user_event)
  (w : world NimlyProLastUserSensor.t) :
  last_user_run evs w = w /\
  (let e := self (last_user_run evs
                    (World NimlyProLastUserSensor.__init__ [] [] 0%nat)) in
   NimlyProLastUserSensor._attr_native_value e = "Unknown" /\
   NimlyProLastUserSensor.extra_state_attributes e = ∅ /\
   forall device_available,
     NimlyProLastUserSensor.available device_available e = device_available).
Proof.
  assert (Hrun : forall w, last_user_run evs w = w).
  { induction evs as [|ev evs IH]; intros w0; cbn [last_user_run]; [reflexivity|].
    rewrite IH. now destruct ev. }
  split; [apply Hrun|]. rewrite Hrun. cbn.
  repeat split. intros device_available.
  unfold NimlyProLastUserSensor.available. cbn. apply andb_true_r.
Qed.

(** * Set-up *)

(** ** Finding the endpoint and the cluster *)

Lemma any_cluster_first (ID : string) (clusters : list (Z * Zha.Cluster)) :
  Platforms.any_cluster ID clusters = true ->
  exists cluster,
    Platforms.first_cluster ID clusters = Some cluster /\
    Zha.eq_str (Zha.cluster_id cluster) ID = true /\
    In cluster (map snd clusters).
Proof.
  induction clusters as [|[key c] clusters IH]; cbn; [discriminate|].
  destruct (Zha.eq_str (Zha.cluster_id c) ID) eqn:Hc; cbn.
  - intros _. exists c. auto.
  - intros Hany. destruct (IH Hany) as (c' & Hfirst & Hid & Hin).
    exists c'. auto.
Qed.

Lemma find_endpoint_cases (ID : string)
  (clusters_of : Zha.Endpoint -> list (Z * Zha.Cluster))
  (items : list (Z * Zha.Endpoint)) :
  let passed (item : Z * Zha.Endpoint) :=
    fst item = 0 \/ Platforms.any_cluster ID (clusters_of (snd item)) = false in
  match Platforms.find_endpoint ID clusters_of items with
  | Some endpoint =>
      exists before id after,
        items = (before ++ (id, endpoint) :: after)%list /\
        id <> 0 /\
        Platforms.any_cluster ID (clusters_of endpoint) = true /\
        Forall passed before
  | None => Forall passed items
  end.
Proof.
  cbv zeta. induction items as [|[id endpoint] items IH]; cbn; [constructor|].
  destruct (Z.eqb_spec id 0) as [->|Hid]; cbn.
  - destruct (Platforms.find_endpoint ID clusters_of items) as [found|].
    + destruct IH as (before & id' & after & -> & Hid' & Hany & Hbefore).
      exists ((0, endpoint) :: before), id', after.
      repeat split; auto; try (constructor; auto).
    + constructor; auto.
  - destruct (Platforms.any_cluster ID (clusters_of endpoint)) eqn:Hany.
    + exists [], id, items. repeat split; auto.
    + destruct (Platforms.find_endpoint ID clusters_of items) as [found|].
      * destruct IH as (before & id' & after & -> & Hid' & Hany' & Hbefore).
        exists ((id, endpoint) :: before), id', after.
        repeat split; auto; try (constructor; auto).
      * constructor; auto.
Qed.

Lemma no_string_ids_any (d : Zha.ZHADevice) (ID : string) (id : Z)
  (endpoint : Zha.Endpoint) :
  no_string_ids d ->
  In (id, endpoint) (Zha.endpoints d) ->
  Platforms.any_cluster ID (Zha.in_clusters endpoint) = false /\
  Platforms.any_cluster ID (Zha.out_clusters endpoint) = false.
Proof.
  intros Hd Hin.
  assert (Hall : forall clusters,
             (forall key c, In (key, c) clusters ->
                            forall s, Zha.cluster_id c <> PyStr s) ->
             Platforms.any_cluster ID clusters = false).
  { unfold Platforms.any_cluster.
    induction clusters as [|[key c] clusters IH]; intros Hcs; cbn [existsb snd];
      [reflexivity|].
    rewrite IH by (intros key' c' Hin'; apply (Hcs key' c'); now right).
    specialize (Hcs key c (or_introl eq_refl)).
    unfold Zha.eq_str. destruct (Zha.cluster_id c); try reflexivity.
    now specialize (Hcs s). }
  split; apply Hall; intros key c Hc s; apply (Hd id endpoint key c s Hin);
    apply in_or_app; auto.
Qed.

Lemma no_string_ids_find (d : Zha.ZHADevice) (ID : string) :
  no_string_ids d ->
  Platforms.find_endpoint ID Zha.in_clusters (Zha.endpoints d) = None /\
  Platforms.find_endpoint ID Zha.out_clusters (Zha.endpoints d) = None.
Proof.
  intros Hd.
  assert (Hall : forall items,
             (forall id ep, In (id, ep) items -> In (id, ep) (Zha.endpoints d)) ->
             Platforms.find_endpoint ID Zha.in_clusters items = None /\
             Platforms.find_endpoint ID Zha.out_clusters items = None).
  { induction items as [|[id ep] items IH]; intros Hsub; cbn; [auto|].
    destruct (no_string_ids_any d ID id ep Hd (Hsub id ep (or_introl eq_refl)))
      as [-> ->].
    rewrite !andb_false_r. apply IH. intros id' ep' Hin. apply Hsub. now right. }
  apply Hall. auto.
Qed.

(** X16. The platforms compare a cluster's id with a string constant
    such as "0x0101".  For a device none of whose cluster ids is a
    string (zigpy's are integers) no comparison succeeds: the lock
    platform logs that the door-lock cluster was not found, the other
    four platforms add nothing, so the device gets no entity. *)
Theorem integer_cluster_ids_give_no_entities (gateway : Zha.ZHAGateway)
  (address : string) (d : Zha.ZHADevice) :
  Zha.get_device gateway address = Some d ->
  no_string_ids d ->
  Platforms.lock_setup (Some gateway) address =
    Platforms.Logged ("Door lock cluster not found on device " ++ address) /\
  Platforms.sensor_setup (Some gateway) address = Platforms.Nothing /\
  Platforms.binary_sensor_setup (Some gateway) address = Platforms.Nothing /\
  Platforms.select_setup (Some gateway) address = Platforms.Nothing /\
  Platforms.number_setup (Some gateway) address = Platforms.Nothing /\
  Platforms.all_entities (Some gateway) address = [].
Proof.
  intros Hget Hd.
  destruct (no_string_ids_find d Platforms.DOORLOCK_CLUSTER_ID Hd) as [Hdoor _].
  destruct (no_string_ids_find d Platforms.OTA_CLUSTER_ID Hd) as [_ Hota].
  destruct (no_string_ids_find d Platforms.POWER_CLUSTER_ID Hd) as [Hpower _].
  unfold Platforms.all_entities, Platforms.PLATFORMS, Platforms.lock_setup,
    Platforms.sensor_setup, Platforms.binary_sensor_setup,
    Platforms.select_setup, Platforms.number_setup, Platforms.with_device,
    Platforms.with_doorlock, Platforms.search.
  cbn [map concat]. rewrite Hget, Hdoor, Hota, Hpower. cbn. repeat split.
Qed.

Lemma integer_cluster_ids_give_no_entities_witness :
  Platforms.all_entities (Some (sample_gateway (PyInt 257) (PyInt 25)))
    "f4:ce:36:00:00:00:00:01" = [].
Proof.
  apply (integer_cluster_ids_give_no_entities
           (sample_gateway (PyInt 257) (PyInt 25)) "f4:ce:36:00:00:00:00:01"
           (sample_device (PyInt 257) (PyInt 25)) eq_refl).
  intros id endpoint key cluster s Hin Hc.
  cbn in Hin. destruct Hin as [[= <- <-]|[[= <- <-]|[]]]; cbn in Hc.
  - destruct Hc.
  - destruct Hc as [[= <- <-]|[[= <- <-]|[]]]; cbn; discriminate.
Defined.

(** X17. The lock platform adds one lock exactly when the device has
    an endpoint other than endpoint 0 with an input cluster whose id
    equals the door-lock constant.  The lock is bound to the first
    such endpoint in the order of the endpoint dict, and to the first
    such cluster of that endpoint, so its cluster is never missing;
    endpoint 0 is passed over even if it has the cluster.  Otherwise
    the platform logs an error and adds nothing. *)
Theorem lock_setup_binds_first_match (gateway : Zha.ZHAGateway)
  (address : string) (d : Zha.ZHADevice) :
  Zha.get_device gateway address = Some d ->
  let passed (item : Z * Zha.Endpoint) :=
    fst item = 0 \/
    Platforms.any_cluster Platforms.DOORLOCK_CLUSTER_ID
      (Zha.in_clusters (snd item)) = false in
  (exists before id endpoint after cluster,
     Zha.endpoints d = (before ++ (id, endpoint) :: after)%list /\
     id <> 0 /\ Forall passed before /\
     Platforms.first_cluster Platforms.DOORLOCK_CLUSTER_ID
       (Zha.in_clusters endpoint) = Some cluster /\
     Zha.eq_str (Zha.cluster_id cluster) Platforms.DOORLOCK_CLUSTER_ID = true /\
     Platforms.lock_setup (Some gateway) address =
       Platforms.Added
         [{| Platforms.class := Platforms.OfLock;
             Platforms._zha_device := d;
             Platforms._endpoint := endpoint;
             Platforms._cluster := Some cluster;
             Platforms._attr_name := str (Zha.name d);
             Platforms._attr_unique_id :=
               Zha.ieee d ++ "_" ++ format_int (Zha.endpoint_id endpoint) ++ "_lock"
          |}]) \/
  (Forall passed (Zha.endpoints d) /\
   Platforms.lock_setup (Some gateway) address =
     Platforms.Logged ("Door lock cluster not found on device " ++ address)).
Proof.
  intros Hget passed.
  pose proof (find_endpoint_cases Platforms.DOORLOCK_CLUSTER_ID Zha.in_clusters
                (Zha.endpoints d)) as Hfind.
  cbv zeta in Hfind. unfold Platforms.lock_setup, Platforms.with_device.
  rewrite Hget.
  destruct (Platforms.find_endpoint Platforms.DOORLOCK_CLUSTER_ID Zha.in_clusters
              (Zha.endpoints d)) as [endpoint|].
  - left. destruct Hfind as (before & id & after & Hitems & Hid & Hany & Hbefore).
    destruct (any_cluster_first _ _ Hany) as (cluster & Hfirst & Hcid & _).
    exists before, id, endpoint, after, cluster.
    repeat split; auto.
    unfold Platforms.new_lock, Platforms.unique_id. now rewrite Hfirst.
  - right. split; [exact Hfind | reflexivity].
Qed.

Lemma lock_setup_binds_first_match_witness :
  exists e,
    Platforms.lock_setup (Some (sample_gateway (PyStr "0x0101") (PyStr "0x0019")))
      "f4:ce:36:00:00:00:00:01" = Platforms.Added [e] /\
    Platforms.class e = Platforms.OfLock /\
    is_Some (Platforms._cluster e).
Proof.
  destruct (lock_setup_binds_first_match
              (sample_gateway (PyStr "0x0101") (PyStr "0x0019"))
              "f4:ce:36:00:00:00:00:01"
              (sample_device (PyStr "0x0101") (PyStr "0x0019")) eq_refl)
    as [(before & id & endpoint & after & cluster & _ & _ & _ & _ & _ & Hadded)
       | [_ Hlogged]].
  - eexists. split; [exact Hadded|]. split; [reflexivity|]. cbn. eauto.
  - discriminate Hlogged.
Defined.

Lemma found_has_cluster (ID : string)
  (clusters_of : Zha.Endpoint -> list (Z * Zha.Cluster))
  (items : list (Z * Zha.Endpoint)) (endpoint : Zha.Endpoint) :
  Platforms.find_endpoint ID clusters_of items = Some endpoint ->
  exists c, Platforms.first_cluster ID (clusters_of endpoint) = Some c.
Proof.
  intros Hfound.
  pose proof (find_endpoint_cases ID clusters_of items) as Hcases.
  cbv zeta in Hcases. rewrite Hfound in Hcases.
  destruct Hcases as (_ & _ & _ & _ & _ & Hany & _).
  destruct (any_cluster_first _ _ Hany) as (c & Hc & _). eauto.
Qed.

Lemma search_total (ID : string)
  (clusters_of : Zha.Endpoint -> list (Z * Zha.Cluster)) (d : Zha.ZHADevice)
  (found : Zha.Endpoint -> Zha.Cluster -> list Platforms.Entity)
  (entities : list Platforms.Entity) :
  exists part,
    Platforms.search ID clusters_of d found entities = Some (entities ++ part)%list /\
    (part = [] \/ exists endpoint c, part = found endpoint c).
Proof.
  unfold Platforms.search.
  destruct (Platforms.find_endpoint ID clusters_of (Zha.endpoints d))
    as [endpoint|] eqn:Hfound.
  - destruct (found_has_cluster _ _ _ _ Hfound) as (c & ->).
    exists (found endpoint c). split; [reflexivity|]. right. eauto.
  - exists []. rewrite app_nil_r. auto.
Qed.

Lemma all_entities_shape (gateway : Zha.ZHAGateway) (address : string)
  (d : Zha.ZHADevice) :
  Zha.get_device gateway address = Some d ->
  exists firmware_part,
    (firmware_part = [] \/
     exists endpoint c,
       firmware_part = [Platforms.new_firmware d endpoint c]) /\
    (forall platform, In platform Platforms.PLATFORMS ->
       platform (Some gateway) address <> Platforms.StopIteration) /\
    match Platforms.find_endpoint Platforms.DOORLOCK_CLUSTER_ID Zha.in_clusters
            (Zha.endpoints d) with
    | Some endpoint =>
        exists c,
          Platforms.first_cluster Platforms.DOORLOCK_CLUSTER_ID
            (Zha.in_clusters endpoint) = Some c /\
          Platforms.all_entities (Some gateway) address =
            (Platforms.new_lock d endpoint :: firmware_part ++
             [Platforms.new_last_user d endpoint c;
              Platforms.new_door_state d endpoint c;
              Platforms.new_led_settings d endpoint c;
              Platforms.new_sound_volume d endpoint c;
              Platforms.new_auto_relock d endpoint c])%list
    | None => Platforms.all_entities (Some gateway) address = firmware_part
    end.
Proof.
  intros Hget.
  destruct (search_total Platforms.OTA_CLUSTER_ID Zha.out_clusters d
              (fun endpoint ota_cluster =>
                 [Platforms.new_firmware d endpoint ota_cluster]) [])
    as (fw & Hfw & Hfw_shape).
  cbn [app] in Hfw.
  assert (Hsensor :
    Platforms.sensor_setup (Some gateway) address <> Platforms.StopIteration /\
    Platforms.added (Platforms.sensor_setup (Some gateway) address) =
      (fw ++ match Platforms.find_endpoint Platforms.DOORLOCK_CLUSTER_ID
                     Zha.in_clusters (Zha.endpoints d) with
             | Some endpoint =>
                 match Platforms.first_cluster Platforms.DOORLOCK_CLUSTER_ID
                         (Zha.in_clusters endpoint) with
                 | Some c => [Platforms.new_last_user d endpoint c]
                 | None => []
                 end
             | None => []
             end)%list).
  { assert (Hpw : forall es,
               Platforms.search Platforms.POWER_CLUSTER_ID Zha.in_clusters d
                 (fun _ _ => []) es = Some es).
    { intros es.
      destruct (search_total Platforms.POWER_CLUSTER_ID Zha.in_clusters d
                  (fun _ _ => []) es) as (part & -> & [-> | (? & ? & ->)]);
        now rewrite app_nil_r. }
    set (lu := match Platforms.find_endpoint Platforms.DOORLOCK_CLUSTER_ID
                       Zha.in_clusters (Zha.endpoints d) with
               | Some endpoint =>
                   match Platforms.first_cluster Platforms.DOORLOCK_CLUSTER_ID
                           (Zha.in_clusters endpoint) with
                   | Some c => [Platforms.new_last_user d endpoint c]
                   | None => []
                   end
               | None => []
               end).
    assert (Hlu : Platforms.search Platforms.DOORLOCK_CLUSTER_ID Zha.in_clusters d
                    (fun endpoint doorlock_cluster =>
                       [Platforms.new_last_user d endpoint doorlock_cluster]) fw
                  = Some (fw ++ lu)%list).
    { subst lu. unfold Platforms.search.
      destruct (Platforms.find_endpoint Platforms.DOORLOCK_CLUSTER_ID
                  Zha.in_clusters (Zha.endpoints d)) as [endpoint|] eqn:Hdoor.
      - destruct (found_has_cluster _ _ _ _ Hdoor) as (c & ->). reflexivity.
      - now rewrite app_nil_r. }
    unfold Platforms.sensor_setup, Platforms.with_device.
    rewrite Hget, Hfw, Hlu, Hpw.
    destruct (fw ++ lu)%list; split; (discriminate || reflexivity). }
  destruct Hsensor as [Hsensor_stop Hsensor].
  exists fw. split; [exact Hfw_shape|].
  unfold Platforms.all_entities, Platforms.PLATFORMS. cbn [map concat In].
  rewrite Hsensor.
  unfold Platforms.lock_setup, Platforms.binary_sensor_setup,
    Platforms.select_setup, Platforms.number_setup, Platforms.with_device,
    Platforms.with_doorlock.
  rewrite Hget.
  destruct (Platforms.find_endpoint Platforms.DOORLOCK_CLUSTER_ID Zha.in_clusters
              (Zha.endpoints d)) as [endpoint|] eqn:Hdoor.
  - destruct (found_has_cluster _ _ _ _ Hdoor) as (c & Hc). rewrite Hc.
    split.
    + intros platform [<-|[<-|[<-|[<-|[<-|[]]]]]]; try exact Hsensor_stop;
        unfold Platforms.lock_setup, Platforms.binary_sensor_setup,
          Platforms.select_setup, Platforms.number_setup, Platforms.with_device,
          Platforms.with_doorlock; rewrite Hget, Hdoor, ?Hc; discriminate.
    + exists c. split; [reflexivity|]. cbn. rewrite <- app_assoc. reflexivity.
  - split.
    + intros platform [<-|[<-|[<-|[<-|[<-|[]]]]]]; try exact Hsensor_stop;
        unfold Platforms.lock_setup, Platforms.binary_sensor_setup,
          Platforms.select_setup, Platforms.number_setup, Platforms.with_device,
          Platforms.with_doorlock; rewrite Hget, Hdoor; discriminate.
    + cbn. now rewrite !app_nil_r.
Qed.

Lemma all_entities_without_device (gateway : option Zha.ZHAGateway)
  (address : string) :
  match gateway with
  | Some zha_gateway => Zha.get_device zha_gateway address = None
  | None => True
  end ->
  Platforms.all_entities gateway address = [] /\
  forall platform, In platform Platforms.PLATFORMS ->
    platform gateway address <> Platforms.StopIteration.
Proof.
  intros Hnone.
  unfold Platforms.all_entities, Platforms.PLATFORMS, Platforms.lock_setup,
    Platforms.sensor_setup, Platforms.binary_sensor_setup,
    Platforms.select_setup, Platforms.number_setup, Platforms.with_device.
  destruct gateway as [zha_gateway|]; cbn [map concat In]; rewrite ?Hnone; cbn;
    (split; [reflexivity|]);
    intros platform [<-|[<-|[<-|[<-|[<-|[]]]]]]; rewrite ?Hnone; discriminate.
Qed.

(** X18. Whatever the gateway holds, no platform set-up ends in
    [StopIteration]: each [next(...)] is reached only after [any(...)]
    has found a match.  Every entity that is added has a cluster, and
    all entities of a device other than the firmware sensor are bound
    to the same endpoint and the same cluster, the one the lock is
    bound to. *)
Theorem entities_share_the_doorlock_cluster (gateway : option Zha.ZHAGateway)
  (address : string) :
  (forall platform, In platform Platforms.PLATFORMS ->
     platform gateway address <> Platforms.StopIteration) /\
  (forall e, In e (Platforms.all_entities gateway address) ->
     is_Some (Platforms._cluster e)) /\
  (forall e1 e2,
     In e1 (Platforms.all_entities gateway address) ->
     In e2 (Platforms.all_entities gateway address) ->
     Platforms.class e1 <> Platforms.OfFirmware ->
     Platforms.class e2 <> Platforms.OfFirmware ->
     Platforms._zha_device e1 = Platforms._zha_device e2 /\
     Platforms._endpoint e1 = Platforms._endpoint e2 /\
     Platforms._cluster e1 = Platforms._cluster e2).
Proof.
  destruct gateway as [zha_gateway|];
    [destruct (Zha.get_device zha_gateway address) as [d|] eqn:Hget|].
  2: { destruct (all_entities_without_device (Some zha_gateway) address Hget)
         as [-> Hstop]. repeat split; auto; contradiction. }
  2: { destruct (all_entities_without_device None address I) as [-> Hstop].
       repeat split; auto; contradiction. }
  destruct (all_entities_shape zha_gateway address d Hget)
    as (fw & Hfw & Hstop & Hshape).
  split; [exact Hstop|].
  destruct (Platforms.find_endpoint Platforms.DOORLOCK_CLUSTER_ID Zha.in_clusters
              (Zha.endpoints d)) as [endpoint|].
  - destruct Hshape as (c & Hc & ->).
    assert (Hmember : forall e,
      In e (Platforms.new_lock d endpoint :: fw ++
            [Platforms.new_last_user d endpoint c;
             Platforms.new_door_state d endpoint c;
             Platforms.new_led_settings d endpoint c;
             Platforms.new_sound_volume d endpoint c;
             Platforms.new_auto_relock d endpoint c])%list ->
      is_Some (Platforms._cluster e) /\
      (Platforms.class e <> Platforms.OfFirmware ->
       Platforms._zha_device e = d /\ Platforms._endpoint e = endpoint /\
       Platforms._cluster e = Some c)).
    { intros e [<-|Hin].
      - cbn. rewrite Hc. eauto.
      - apply in_app_or in Hin. destruct Hin as [Hin|Hin].
        + destruct Hfw as [->|(ep' & c' & ->)]; [contradiction|].
          destruct Hin as [<-|[]]. cbn. split; [eauto | congruence].
        + cbn in Hin.
          destruct Hin as [<-|[<-|[<-|[<-|[<-|[]]]]]]; cbn; eauto. }
    split.
    + intros e He. now apply Hmember.
    + intros e1 e2 He1 He2 Hc1 Hc2.
      destruct (proj2 (Hmember e1 He1) Hc1) as (-> & -> & ->).
      destruct (proj2 (Hmember e2 He2) Hc2) as (-> & -> & ->). auto.
  - rewrite Hshape.
    destruct Hfw as [->|(ep' & c' & ->)].
    + split; intros; contradiction.
    + split.
      * intros e [<-|[]]. cbn. eauto.
      * intros e1 e2 [<-|[]]. cbn. congruence.
Qed.

Lemma entities_share_the_doorlock_cluster_witness :
  let gateway := Some (sample_gateway (PyStr "0x0101") (PyStr "0x0019")) in
  let d := sample_device (PyStr "0x0101") (PyStr "0x0019") in
  let endpoint := sample_endpoint (PyStr "0x0101") (PyStr "0x0019") in
  Platforms._cluster (Platforms.new_lock d endpoint) =
  Platforms._cluster
    (Platforms.new_auto_relock d endpoint (sample_cluster (PyStr "0x0101"))).
Proof.
  intros gateway d endpoint.
  apply (proj2 (proj2 (entities_share_the_doorlock_cluster gateway
                         "f4:ce:36:00:00:00:00:01"))
           (Platforms.new_lock d endpoint)
           (Platforms.new_auto_relock d endpoint
              (sample_cluster (PyStr "0x0101")))).
  - left. reflexivity.
  - do 6 right. left. reflexivity.
  - discriminate.
  - discriminate.
Defined.

(** ** Unique ids *)

Lemma list_ascii_of_string_app (a b : string) :
  list_ascii_of_string (a ++ b) =
  (list_ascii_of_string a ++ list_ascii_of_string b)%list.
Proof.
  induction a as [|c a IH]; [reflexivity|].
  change (c :: list_ascii_of_string (a ++ b) =
          c :: (list_ascii_of_string a ++ list_ascii_of_string b)%list).
  now rewrite IH.
Qed.

Lemma string_app_assoc (a b c : string) : (a ++ b) ++ c = a ++ (b ++ c).
Proof.
  induction a as [|x a IH]; [reflexivity|].
  change (String x ((a ++ b) ++ c) = String x (a ++ (b ++ c))).
  now rewrite IH.
Qed.

Lemma tail5_app (p s : string) :
  (5 <= length (list_ascii_of_string s))%nat ->
  tail5 (p ++ s) = tail5 s.
Proof.
  intros Hlen. unfold tail5. rewrite list_ascii_of_string_app, rev_app_distr.
  rewrite firstn_app, length_rev.
  replace (5 - length (list_ascii_of_string s))%nat with 0%nat by lia.
  cbn [firstn]. apply app_nil_r.
Qed.

Lemma unique_id_tail5 (d : Zha.ZHADevice) (endpoint : Zha.Endpoint)
  (suffix : string) :
  (4 <= length (list_ascii_of_string suffix))%nat ->
  tail5 (Platforms.unique_id d endpoint suffix) = tail5 ("_" ++ suffix).
Proof.
  intros Hlen. unfold Platforms.unique_id.
  rewrite <- (string_app_assoc "_" (format_int (Zha.endpoint_id endpoint))
                ("_" ++ suffix)).
  rewrite <- (string_app_assoc (Zha.ieee d) _ ("_" ++ suffix)).
  apply tail5_app. change ("_" ++ suffix) with (String "_" suffix).
  cbn [list_ascii_of_string length]. lia.
Qed.

(** X19. The unique ids of the entities that the five platforms add
    for a device are pairwise distinct, whatever the device address
    and the endpoint ids are: the class suffixes already differ in
    their last five characters. *)
Theorem unique_ids_are_distinct (gateway : option Zha.ZHAGateway)
  (address : string) :
  List.NoDup (map Platforms._attr_unique_id
                (Platforms.all_entities gateway address)).
Proof.
  destruct gateway as [zha_gateway|];
    [destruct (Zha.get_device zha_gateway address) as [d|] eqn:Hget|].
  2: { destruct (all_entities_without_device (Some zha_gateway) address Hget)
         as [-> _]. constructor. }
  2: { destruct (all_entities_without_device None address I) as [-> _].
       constructor. }
  destruct (all_entities_shape zha_gateway address d Hget)
    as (fw & Hfw & _ & Hshape).
  apply (NoDup_map_inv tail5). rewrite map_map.
  destruct (Platforms.find_endpoint Platforms.DOORLOCK_CLUSTER_ID Zha.in_clusters
              (Zha.endpoints d)) as [endpoint|].
  - destruct Hshape as (c & _ & ->).
    destruct Hfw as [->|(ep' & c' & ->)]; cbn [map app Platforms._attr_unique_id
      Platforms.new_lock Platforms.new_last_user Platforms.new_door_state
      Platforms.new_led_settings Platforms.new_sound_volume
      Platforms.new_auto_relock Platforms.new_firmware Platforms.new_entity];
      rewrite !unique_id_tail5 by (cbn; lia);
      vm_compute;
      repeat (constructor; [cbn; intuition discriminate|]); constructor.
  - rewrite Hshape. destruct Hfw as [->|(ep' & c' & ->)]; cbn.
    + constructor.
    + constructor; [intros []|constructor].
Qed.

(** * The config flow and the integration entry *)

Lemma contains_any_cluster (ID : string) (clusters : list (Z * Zha.Cluster)) :
  ConfigFlow.contains ID (map (fun item => Zha.cluster_id (snd item)) clusters) =
  Platforms.any_cluster ID clusters.
Proof.
  unfold ConfigFlow.contains, Platforms.any_cluster.
  induction clusters as [|item clusters IH]; cbn [map existsb]; [reflexivity|].
  now rewrite IH.
Qed.

Lemma offer_lookup (d : Zha.ZHADevice) (acc : gmap string pyval) (key : string) :
  ConfigFlow.offer d acc !! key =
  if bool_decide (Zha.ieee d = key) &&
     existsb (fun endpoint =>
                Platforms.any_cluster Platforms.DOORLOCK_CLUSTER_ID
                  (Zha.in_clusters endpoint))
       (map snd (Zha.endpoints d))
  then Some (ConfigFlow.label d)
  else acc !! key.
Proof.
  unfold ConfigFlow.offer. generalize (map snd (Zha.endpoints d)) as eps.
  intros eps. revert acc.
  induction eps as [|ep eps IH]; intros acc; cbn [fold_left existsb].
  - now rewrite andb_false_r.
  - rewrite IH, contains_any_cluster.
    destruct (Platforms.any_cluster Platforms.DOORLOCK_CLUSTER_ID
                (Zha.in_clusters ep)) eqn:Hany; cbn [orb]; [|reflexivity].
    rewrite lookup_insert.
    destruct (bool_decide_reflect (Zha.ieee d = key)) as [Heq|Hne]; cbn [andb].
    + rewrite decide_True by exact Heq.
      now destruct (existsb _ eps).
    + now rewrite decide_False by exact Hne.
Qed.

Lemma discover_fold (ds : list Zha.ZHADevice) (acc : gmap string pyval)
  (key : string) (v : pyval) :
  let offered (d : Zha.ZHADevice) :=
    Zha.ieee d = key /\ ConfigFlow.is_nimly d = true /\
    existsb (fun endpoint =>
               Platforms.any_cluster Platforms.DOORLOCK_CLUSTER_ID
                 (Zha.in_clusters endpoint))
      (map snd (Zha.endpoints d)) = true in
  let result :=
    fold_left (fun nimly_devices device =>
                 if ConfigFlow.is_nimly device
                 then ConfigFlow.offer device nimly_devices
                 else nimly_devices) ds acc in
  (is_Some (result !! key) <->
   is_Some (acc !! key) \/ exists d, In d ds /\ offered d) /\
  (result !! key = Some v ->
   acc !! key = Some v \/
   exists d, In d ds /\ offered d /\ v = ConfigFlow.label d).
Proof.
  cbv zeta. revert acc. induction ds as [|d ds IH]; intros acc; cbn [fold_left].
  - split; [|auto]. split; [auto|]. intros [H|(d & [] & _)]. exact H.
  - set (acc' := if ConfigFlow.is_nimly d then ConfigFlow.offer d acc else acc).
    destruct (IH acc') as [IHsome IHval].
    assert (Hacc' : acc' !! key =
              if ConfigFlow.is_nimly d &&
                 (bool_decide (Zha.ieee d = key) &&
                  existsb (fun endpoint =>
                             Platforms.any_cluster Platforms.DOORLOCK_CLUSTER_ID
                               (Zha.in_clusters endpoint))
                    (map snd (Zha.endpoints d)))
              then Some (ConfigFlow.label d) else acc !! key).
    { subst acc'. destruct (ConfigFlow.is_nimly d); cbn [andb]; [|reflexivity].
      apply offer_lookup. }
    destruct (ConfigFlow.is_nimly d) eqn:Hn; cbn [andb] in Hacc'.
    2: { rewrite Hacc' in *. split.
         - rewrite IHsome. split.
           + intros [H|(d' & Hin & Hoff)]; [auto|]. right. exists d'. split; auto.
             now right.
           + intros [H|(d' & [<-|Hin] & Hoff)]; [auto| |].
             * destruct Hoff as (_ & Hn' & _). congruence.
             * right. eauto.
         - intros Hv. destruct (IHval Hv) as [H|(d' & Hin & Hoff)]; [auto|].
           right. exists d'. split; [now right|exact Hoff]. }
    destruct (bool_decide_reflect (Zha.ieee d = key)) as [Hkey|Hkey];
      cbn [andb] in Hacc'.
    2: { rewrite Hacc' in *. split.
         - rewrite IHsome. split.
           + intros [H|(d' & Hin & Hoff)]; [auto|]. right. exists d'. split; auto.
             now right.
           + intros [H|(d' & [<-|Hin] & Hoff)]; [auto| |].
             * destruct Hoff as (Hk & _). congruence.
             * right. eauto.
         - intros Hv. destruct (IHval Hv) as [H|(d' & Hin & Hoff)]; [auto|].
           right. exists d'. split; [now right|exact Hoff]. }
    destruct (existsb _ (map snd (Zha.endpoints d))) eqn:Hex.
    + rewrite Hacc' in *. split.
      * split; [|rewrite IHsome; eauto].
        intros _. right. exists d. split; [now left|]. auto.
      * intros Hv. destruct (IHval Hv) as [[= <-]|(d' & Hin & Hoff)].
        -- right. exists d. split; [now left|]. auto.
        -- right. exists d'. split; [now right|exact Hoff].
    + rewrite Hacc' in *. split.
      * rewrite IHsome. split.
        -- intros [H|(d' & Hin & Hoff)]; [auto|]. right. exists d'. split; auto.
           now right.
        -- intros [H|(d' & [<-|Hin] & Hoff)]; [auto| |].
           ++ destruct Hoff as (_ & _ & Hex'). congruence.
           ++ right. eauto.
      * intros Hv. destruct (IHval Hv) as [H|(d' & Hin & Hoff)]; [auto|].
        right. exists d'. split; [now right|exact Hoff].
Qed.

(** X20. The config flow offers an address exactly when the gateway
    holds a device of that address made by "Onesti Products AS", of
    model "NimlyPRO" or "NimlyPRO24", one of whose endpoints, endpoint
    0 included, has an input cluster with the door-lock id string; the
    label offered is the device's name, or "Nimly Lock <address>" when
    the name is empty.  So a gateway whose cluster ids are all
    integers offers nothing. *)
Theorem flow_offers_nimly_locks (gateway : Zha.ZHAGateway) (key : string) :
  let offered (d : Zha.ZHADevice) :=
    Zha.ieee d = key /\ ConfigFlow.is_nimly d = true /\
    exists id endpoint,
      In (id, endpoint) (Zha.endpoints d) /\
      Platforms.any_cluster Platforms.DOORLOCK_CLUSTER_ID
        (Zha.in_clusters endpoint) = true in
  (is_Some (ConfigFlow.discover gateway !! key) <->
   exists k d, In (k, d) (Zha.devices gateway) /\ offered d) /\
  (forall v, ConfigFlow.discover gateway !! key = Some v ->
     exists k d, In (k, d) (Zha.devices gateway) /\ offered d /\
                 v = ConfigFlow.label d) /\
  ((forall k d, In (k, d) (Zha.devices gateway) -> no_string_ids d) ->
   ConfigFlow.discover gateway !! key = None).
Proof.
  cbv zeta.
  assert (Hex : forall d : Zha.ZHADevice,
    existsb (fun endpoint =>
               Platforms.any_cluster Platforms.DOORLOCK_CLUSTER_ID
                 (Zha.in_clusters endpoint)) (map snd (Zha.endpoints d)) = true <->
    exists id endpoint,
      In (id, endpoint) (Zha.endpoints d) /\
      Platforms.any_cluster Platforms.DOORLOCK_CLUSTER_ID
        (Zha.in_clusters endpoint) = true).
  { intros d. rewrite existsb_exists. split.
    - intros (ep & Hin & Hany). apply in_map_iff in Hin.
      destruct Hin as ([id ep'] & <- & Hin). eauto.
    - intros (id & ep & Hin & Hany). exists ep. split; [|exact Hany].
      apply in_map_iff. exists (id, ep). auto. }
  assert (Hin : forall d : Zha.ZHADevice,
    In d (map snd (Zha.devices gateway)) <->
    exists k, In (k, d) (Zha.devices gateway)).
  { intros d. rewrite in_map_iff. split.
    - intros ([k d'] & <- & H). eauto.
    - intros (k & H). exists (k, d). auto. }
  assert (Hsome : is_Some (ConfigFlow.discover gateway !! key) <->
                  exists k d, In (k, d) (Zha.devices gateway) /\
                    Zha.ieee d = key /\ ConfigFlow.is_nimly d = true /\
                    exists id endpoint,
                      In (id, endpoint) (Zha.endpoints d) /\
                      Platforms.any_cluster Platforms.DOORLOCK_CLUSTER_ID
                        (Zha.in_clusters endpoint) = true).
  { destruct (discover_fold (map snd (Zha.devices gateway)) ∅ key PyNone)
      as [Hiff _]. cbv zeta in Hiff. unfold ConfigFlow.discover. rewrite Hiff.
    rewrite lookup_empty. split.
    - intros [[? [=]]|(d & Hd & Hk & Hn & He)].
      apply Hin in Hd. destruct Hd as (k & Hd). apply Hex in He.
      exists k, d. auto.
    - intros (k & d & Hd & Hk & Hn & He). right. exists d.
      split; [apply Hin; eauto|]. split; [exact Hk|]. split; [exact Hn|].
      now apply Hex. }
  split; [exact Hsome|]. split.
  - intros v Hv.
    destruct (discover_fold (map snd (Zha.devices gateway)) ∅ key v)
      as [_ Hval]. cbv zeta in Hval.
    destruct (Hval Hv) as [Hempty|(d & Hd & (Hk & Hn & He) & ->)].
    + rewrite lookup_empty in Hempty. discriminate.
    + apply Hin in Hd. destruct Hd as (k & Hd). apply Hex in He.
      exists k, d. auto.
  - intros Hids.
    destruct (ConfigFlow.discover gateway !! key) as [v|] eqn:Hv; [|reflexivity].
    exfalso.
    destruct (proj1 Hsome (ex_intro _ v eq_refl))
      as (k & d & Hd & _ & _ & id & ep & Hep & Hany).
    destruct (no_string_ids_any d Platforms.DOORLOCK_CLUSTER_ID id ep
                (Hids k d Hd) Hep) as [Hfalse _].
    congruence.
Qed.

Lemma flow_offers_nimly_locks_witness :
  ConfigFlow.discover (sample_gateway (PyInt 257) (PyInt 25))
    !! "f4:ce:36:00:00:00:00:01" = None.
Proof.
  apply (proj2 (proj2 (flow_offers_nimly_locks
                         (sample_gateway (PyInt 257) (PyInt 25))
                         "f4:ce:36:00:00:00:00:01"))).
  intros k d [[= <- <-]|[]] id endpoint key cluster s Hin Hc.
  cbn in Hin. destruct Hin as [[= <- <-]|[[= <- <-]|[]]]; cbn in Hc.
  - destruct Hc.
  - destruct Hc as [[= <- <-]|[[= <- <-]|[]]]; cbn; discriminate.
Defined.

(** X21. With no device to offer, the user step aborts with
    "no_devices_found" whether or not a device was named.  With at
    least one, it shows the form when nothing was named; when an
    address was named and the host accepts it as unique id, it creates
    an entry for that address, offered or not, and the entry's data
    holds the address under "ieee", where the platforms read it; it
    aborts with the host's reason when the host refuses, and raises
    [KeyError] when the input names no device. *)
Theorem flow_creates_entry_for_named_address (gateway : Zha.ZHAGateway)
  (unique_id_check : string -> option string) :
  (ConfigFlow.discover gateway = ∅ ->
   forall user_input,
     ConfigFlow.async_step_user (Some gateway) unique_id_check user_input =
     ConfigFlow.Returns (ConfigFlow.Abort "no_devices_found")) /\
  (ConfigFlow.discover gateway <> ∅ ->
   ConfigFlow.async_step_user (Some gateway) unique_id_check None =
     ConfigFlow.Returns (ConfigFlow.ShowForm "user" (ConfigFlow.discover gateway)) /\
   (forall input,
      input !! "device" = None ->
      ConfigFlow.async_step_user (Some gateway) unique_id_check (Some input) =
      ConfigFlow.KeyError "device") /\
   (forall input selected reason,
      input !! "device" = Some selected ->
      unique_id_check selected = Some reason ->
      ConfigFlow.async_step_user (Some gateway) unique_id_check (Some input) =
      ConfigFlow.Returns (ConfigFlow.Abort reason)) /\
   (forall input selected,
      input !! "device" = Some selected ->
      unique_id_check selected = None ->
      ConfigFlow.async_step_user (Some gateway) unique_id_check (Some input) =
        ConfigFlow.Returns
          (ConfigFlow.CreateEntry ("Nimly Touch Pro " ++ selected)
             {[ "ieee" := selected ]}) /\
      forall id,
        Integration.entry_ieee
          {| Integration.entry_id := id;
             Integration.data := {[ "ieee" := selected ]} |} =
        Integration.Returns selected)).
Proof.
  unfold ConfigFlow.async_step_user. split.
  - intros -> user_input. now rewrite map_size_empty.
  - intros Hne.
    assert (Hsize : (size (ConfigFlow.discover gateway) =? 0)%nat = false).
    { apply Nat.eqb_neq. intros Hz. apply Hne. now apply map_size_empty_iff. }
    rewrite Hsize. split; [reflexivity|]. split; [|split].
    + intros input ->. reflexivity.
    + intros input selected reason -> ->. reflexivity.
    + intros input selected -> ->. split; [reflexivity|].
      intros id. unfold Integration.entry_ieee. cbn.
      now rewrite lookup_singleton_eq.
Qed.

Lemma flow_creates_entry_for_named_address_witness :
  ConfigFlow.async_step_user
    (Some (sample_gateway (PyStr "0x0101") (PyStr "0x0019"))) (fun _ => None)
    (Some {[ "device" := "00:00" ]}) =
  ConfigFlow.Returns
    (ConfigFlow.CreateEntry "Nimly Touch Pro 00:00" {[ "ieee" := "00:00" ]}).
Proof.
  apply (proj2 (flow_creates_entry_for_named_address
                  (sample_gateway (PyStr "0x0101") (PyStr "0x0019"))
                  (fun _ => None))).
  - intros Hempty.
    assert (Hl : ConfigFlow.discover
                   (sample_gateway (PyStr "0x0101") (PyStr "0x0019"))
                   !! "f4:ce:36:00:00:00:00:01" = None)
      by (rewrite Hempty; apply lookup_empty).
    vm_compute in Hl. discriminate Hl.
  - apply lookup_singleton_eq.
  - reflexivity.
Defined.

(** X22. Setting an entry up stores its data under its id in the
    integration's part of [hass.data], replacing what was stored under
    that id, and leaves every other entry and every other domain as
    it was.  Unloading it afterwards removes exactly that id again, so
    a set-up followed by a successful unload restores an integration
    part that did not hold the id; an unload whose platforms fail
    changes nothing and returns false. *)
Theorem setup_then_unload (hass_data : gmap string (gmap string (gmap string string)))
  (entry : Integration.ConfigEntry) :
  let before := default ∅ (hass_data !! Integration.DOMAIN) in
  let result := Integration.async_setup_entry hass_data entry in
  fst result = true /\
  snd result !! Integration.DOMAIN =
    Some (<[ Integration.entry_id entry := Integration.data entry ]> before) /\
  (forall other, other <> Integration.DOMAIN ->
     snd result !! other = hass_data !! other) /\
  Integration.async_unload_entry true (snd result) entry =
    (Integration.Returns true,
     <[ Integration.DOMAIN := delete (Integration.entry_id entry) before ]>
       hass_data) /\
  Integration.async_unload_entry false (snd result) entry =
    (Integration.Returns false, snd result) /\
  (hass_data !! Integration.DOMAIN = Some before ->
   before !! Integration.entry_id entry = None ->
   snd (Integration.async_unload_entry true (snd result) entry) = hass_data).
Proof.
  cbv zeta. unfold Integration.async_setup_entry, Integration.async_unload_entry.
  cbn [fst snd].
  set (id := Integration.entry_id entry). set (D := Integration.DOMAIN).
  assert (Hsame : default ∅
            (match hass_data !! D with
             | Some _ => hass_data
             | None => <[ D := ∅ ]> hass_data
             end !! D) = default ∅ (hass_data !! D)).
  { destruct (hass_data !! D) eqn:HD; [now rewrite HD|].
    now rewrite lookup_insert_eq. }
  rewrite Hsame.
  assert (Hover : <[ D := <[ id := Integration.data entry ]>
                            (default ∅ (hass_data !! D)) ]>
                    (match hass_data !! D with
                     | Some _ => hass_data
                     | None => <[ D := ∅ ]> hass_data
                     end) =
                  <[ D := <[ id := Integration.data entry ]>
                            (default ∅ (hass_data !! D)) ]> hass_data).
  { destruct (hass_data !! D); [reflexivity|]. apply insert_insert_eq. }
  rewrite Hover. rewrite !lookup_insert_eq.
  split; [reflexivity|]. split; [reflexivity|]. split.
  { intros other Hother. now rewrite lookup_insert_ne. }
  rewrite insert_insert_eq, delete_insert_eq.
  split; [reflexivity|]. split; [reflexivity|].
  intros HD Hid. cbn [snd]. rewrite delete_id by exact Hid.
  now apply insert_id.
Qed.

Lemma setup_then_unload_witness :
  let hass_data : gmap string (gmap string (gmap string string)) :=
    {[ Integration.DOMAIN := ∅ ]} in
  let entry := {| Integration.entry_id := "entry-1";
                  Integration.data := {[ "ieee" := "00:00" ]} |} in
  snd (Integration.async_unload_entry true
         (snd (Integration.async_setup_entry hass_data entry)) entry) = hass_data.
Proof.
  intros hass_data entry.
  apply (proj2 (proj2 (proj2 (proj2 (proj2 (setup_then_unload hass_data entry)))))).
  - subst hass_data. now rewrite lookup_singleton_eq.
  - subst hass_data. rewrite lookup_singleton_eq. reflexivity.
Defined.

(** X23. Unloading an entry that is not stored raises [KeyError]
    instead of returning: whether the integration's part of
    [hass.data] is missing altogether or only lacks the id.  In
    particular a second successful unload of the same entry raises. *)
Theorem unload_of_missing_entry_raises
  (hass_data : gmap string (gmap string (gmap string string)))
  (entry : Integration.ConfigEntry) :
  (hass_data !! Integration.DOMAIN = None ->
   Integration.async_unload_entry true hass_data entry =
   (Integration.KeyError Integration.DOMAIN, hass_data)) /\
  (forall entries,
     hass_data !! Integration.DOMAIN = Some entries ->
     entries !! Integration.entry_id entry = None ->
     Integration.async_unload_entry true hass_data entry =
     (Integration.KeyError (Integration.entry_id entry), hass_data)) /\
  (forall entries stored,
     hass_data !! Integration.DOMAIN = Some entries ->
     entries !! Integration.entry_id entry = Some stored ->
     let first := Integration.async_unload_entry true hass_data entry in
     fst first = Integration.Returns true /\
     Integration.async_unload_entry true (snd first) entry =
     (Integration.KeyError (Integration.entry_id entry), snd first)).
Proof.
  unfold Integration.async_unload_entry. split; [|split].
  - intros ->. reflexivity.
  - intros entries -> ->. reflexivity.
  - intros entries stored -> ->. cbn [fst snd]. split; [reflexivity|].
    now rewrite lookup_insert_eq, lookup_delete_eq.
Qed.

Lemma unload_of_missing_entry_raises_witness :
  Integration.async_unload_entry true ∅
    {| Integration.entry_id := "entry-1"; Integration.data := ∅ |} =
  (Integration.KeyError Integration.DOMAIN, ∅).
Proof.
  apply (proj1 (unload_of_missing_entry_raises ∅
                  {| Integration.entry_id := "entry-1"; Integration.data := ∅ |})).
  apply lookup_empty.
Defined.
